(** * ssl-manager: the acquisition orchestrator and its helpers

    A shallow embedding of the Go sources
      - internal/domain/parser.go      (domain utilities)
      - internal/core/validator.go     (online certificate validator)
      - internal/storage (FileStorage) (certificate persistence)
      - internal/core/manager.go       (ProcessDomain, waitForDNSValidation,
                                        ContinueOrder)
    Go strings are byte strings and are modelled by [string]; calls to the
    outside world (CA, DNS host, file system, TLS endpoint, shell) are
    answered by an environment of oracles and recorded in a trace, and so is
    every [time.Sleep].  Logging is left out. *)

From Stdlib Require Import String Ascii List Bool Arith ZArith Lia DecimalString.
From Stdlib Require Import Permutation.
Import ListNotations.
Local Open Scope string_scope.
Local Open Scope list_scope.

(** ** internal/domain/parser.go *)

Module domainpkg.

(** [strings.Split(s, ".")]: the substrings between the dots; a string
    without a dot (the empty one too) gives a single part. *)
Fixpoint SplitDot (s : string) : list string :=
  match s with
  | EmptyString => [EmptyString]
  | String c r =>
      if Ascii.eqb c "."%char then EmptyString :: SplitDot r
      else match SplitDot r with
           | h :: t => String c h :: t
           | [] => [String c EmptyString]
           end
  end.

(** [strings.HasPrefix] and [strings.TrimPrefix]. *)
Definition HasPrefix (s p : string) : bool := String.prefix p s.

Definition TrimPrefix (s p : string) : string :=
  if HasPrefix s p
  then substring (String.length p) (String.length s - String.length p) s
  else s.

(** [strings.HasSuffix] and [strings.TrimSuffix]. *)
Definition HasSuffix (s p : string) : bool :=
  Nat.leb (String.length p) (String.length s) &&
  String.eqb (substring (String.length s - String.length p) (String.length p) s) p.

Definition TrimSuffix (s p : string) : string :=
  if HasSuffix s p then substring 0 (String.length s - String.length p) s else s.

Definition ExtractMainDomain (domain : string) : string :=
  let parts := SplitDot domain in
  if Nat.leb 2 (List.length parts)
  then nth (List.length parts - 2) parts "" ++ "." ++
       nth (List.length parts - 1) parts ""
  else domain.

Definition ExtractSubDomain (fullRecord mainDomain : string) : string :=
  if HasSuffix fullRecord ("." ++ mainDomain)
  then TrimSuffix fullRecord ("." ++ mainDomain)
  else fullRecord.

Definition IsSubDomain (domain mainDomain : string) : bool :=
  HasSuffix domain ("." ++ mainDomain) || String.eqb domain mainDomain.

Definition MatchDomain (certDomain targetDomain : string) : bool :=
  if String.eqb certDomain targetDomain then true
  else if HasPrefix certDomain "*."
       then String.eqb (TrimPrefix certDomain "*.") (ExtractMainDomain targetDomain)
       else false.

End domainpkg.

(** ** Go errors

    [errors.New] and [fmt.Errorf] without [%w] give a plain message;
    [fmt.Errorf("prefix: %w", err)] wraps an inner error. *)

Inductive error : Type :=
| errorString (msg : string)
| wrapError (prefix : string) (inner : error).

(** The [Error()] method: the rendered message. *)
Fixpoint Error (e : error) : string :=
  match e with
  | errorString msg => msg
  | wrapError prefix inner => prefix ++ Error inner
  end.

(** An instant, in seconds since the Unix epoch; [time.Time{}] is the first
    second of year 1. *)
Definition Time := Z.
Definition zeroTime : Time := (-62135596800)%Z.

(** ** internal/provider/types.go *)

Module provider.

Record CertificateStatus : Type := {
  OrderID : string;
  Status : string;
  Domain : string;
  RecordDomain : string;
  RecordType : string;
  RecordValue : string
}.

(** The field [Certificate] of the Go struct is [CertificatePEM] here, a record
    and its field cannot share a name. *)
Record Certificate : Type := {
  CertificatePEM : string;
  PrivateKey : string;
  Chain : string
}.

Record CertificateInfo : Type := {
  CertID : string;
  InfoOrderID : string;
  InfoDomain : string;
  Sans : list string;
  NotBefore : Time;
  NotAfter : Time;
  InfoStatus : string
}.

Record DNSRecord : Type := {
  RecordID : string;
  RecordZone : string;
  RR : string;
  RecordKind : string;
  Value : string;
  TTL : Z
}.

End provider.

(** ** internal/config *)

Module config.

(** Credentials of one cloud platform (the three Go structs differ only in
    field names). *)
Record Credentials : Type := {
  AccessKey : string;
  SecretKey : string;
  Region : string
}.

Record ProvidersConfig : Type := {
  Aliyun : option Credentials;
  Tencent : option Credentials;
  Huawei : option Credentials
}.

Record DomainConfig : Type := {
  Domain : string;
  Provider : string;
  CertProvider : string;
  DNSProvider : string;
  RenewDays : Z;
  DomainPostCommand : string
}.

Record Config : Type := {
  Providers : ProvidersConfig;
  Domains : list DomainConfig;
  OutputDir : string;
  PostCommand : string
}.

Definition GetCertProvider (d : DomainConfig) : string :=
  if negb (String.eqb (CertProvider d) "") then CertProvider d
  else if negb (String.eqb (Provider d) "") then Provider d
  else "aliyun".

Definition GetDNSProvider (d : DomainConfig) : string :=
  if negb (String.eqb (DNSProvider d) "") then DNSProvider d
  else if negb (String.eqb (Provider d) "") then Provider d
  else "aliyun".

(** config.go, loading: what [Load] does once the file is read and parsed.
    The fields of the Go struct that only the daemon reads are kept beside
    the fields above. *)
Record File : Type := {
  Base : Config;
  CheckInterval : Z;
  Concurrency : Z;
  LegacyAliyun : option Credentials
}.

Definition credentialsIncomplete (c : Credentials) : bool :=
  String.eqb (AccessKey c) "" || String.eqb (SecretKey c) "".

Definition validateProviderConfig (cfg : Config) (providerName providerType : string)
  : option error :=
  if String.eqb providerName "aliyun" then
    match Aliyun (Providers cfg) with
    | None => Some (errorString (providerType ++ "提供商 aliyun 未配置凭证"))
    | Some c => if credentialsIncomplete c
                then Some (errorString "aliyun 凭证不完整") else None
    end
  else if String.eqb providerName "tencent" then
    match Tencent (Providers cfg) with
    | None => Some (errorString (providerType ++ "提供商 tencent 未配置凭证"))
    | Some c => if credentialsIncomplete c
                then Some (errorString "tencent 凭证不完整") else None
    end
  else if String.eqb providerName "huawei" then
    match Huawei (Providers cfg) with
    | None => Some (errorString (providerType ++ "提供商 huawei 未配置凭证"))
    | Some c => if credentialsIncomplete c
                then Some (errorString "huawei 凭证不完整") else None
    end
  else Some (errorString ("不支持的" ++ providerType ++ "提供商: " ++ providerName)).

(** The loop of [validate] over the domains. *)
Fixpoint validateDomains (cfg : Config) (domains : list DomainConfig) : option error :=
  match domains with
  | [] => None
  | domain :: rest =>
    match validateProviderConfig cfg (GetCertProvider domain) "证书" with
    | Some err => Some (wrapError ("域名 " ++ Domain domain ++ ": ") err)
    | None =>
      match validateProviderConfig cfg (GetDNSProvider domain) "DNS" with
      | Some err => Some (wrapError ("域名 " ++ Domain domain ++ ": ") err)
      | None =>
        if Z.leb (RenewDays domain) 0
        then Some (errorString ("域名 " ++ Domain domain ++ ": renew_days 必须大于 0"))
        else validateDomains cfg rest
      end
    end
  end.

Definition validate (cfg : Config) : option error :=
  if Nat.eqb (List.length (Domains cfg)) 0
  then Some (errorString "未配置任何域名")
  else validateDomains cfg (Domains cfg).

(** [Load]: [read] is the outcome of [os.ReadFile], [parse] stands for
    [yaml.Unmarshal] into a zero-valued struct. *)
Definition Load (read : string + error) (parse : string -> File + error)
  : File + error :=
  match read with
  | inr err => inr (wrapError "读取配置文件失败: " err)
  | inl data =>
    match parse data with
    | inr err => inr (wrapError "解析配置文件失败: " err)
    | inl f =>
      let providers :=
        match LegacyAliyun f, Aliyun (Providers (Base f)) with
        | Some legacy, None =>
            {| Aliyun := Some legacy;
               Tencent := Tencent (Providers (Base f));
               Huawei := Huawei (Providers (Base f)) |}
        | _, _ => Providers (Base f)
        end in
      let outputDir :=
        if String.eqb (OutputDir (Base f)) "" then "./certs" else OutputDir (Base f) in
      let checkInterval :=
        if Z.eqb (CheckInterval f) 0 then 24%Z else CheckInterval f in
      let concurrency :=
        if Z.leb (Concurrency f) 0 then 1%Z else Concurrency f in
      let base := {| Providers := providers; Domains := Domains (Base f);
                     OutputDir := outputDir; PostCommand := PostCommand (Base f) |} in
      match validate base with
      | Some err => inr err
      | None => inl {| Base := base; CheckInterval := checkInterval;
                       Concurrency := concurrency; LegacyAliyun := LegacyAliyun f |}
      end
    end
  end.

End config.

(** ** Ranging over a map

    Go visits the entries of a map in an order of its own choosing.  A list
    of naturals codes an order: the entries are put in place one by one, each
    at the position its number gives, so every list codes an order and every
    order has a code. *)

Fixpoint insertAt {A : Type} (n : nat) (x : A) (l : list A) : list A :=
  match n, l with
  | S k, y :: r => y :: insertAt k x r
  | _, _ => x :: l
  end.

Fixpoint shuffleBy {A : Type} (code : list nat) (l : list A) : list A :=
  match l with
  | [] => []
  | x :: r => insertAt (hd 0 code) x (shuffleBy (tl code) r)
  end.

(** ** The outside world

    Every call that leaves the process is answered by an oracle of the
    environment and leaves an event, with its answer, in the trace.  A value
    returned together with an error, [(v, err)], is [inl v] or [inr err]. *)

(** The leaf certificate served by a TLS endpoint (crypto/x509). *)
Record PeerCertificate : Type := {
  CommonName : string;
  DNSNames : list string;
  LeafNotAfter : Time
}.

Inductive Event : Type :=
| EvNewCertProvider (name : string) (res : option error)
| EvNewDNSProvider (name : string) (res : option error)
| EvFindValidCertificate (domain : string) (minDays : Z)
    (res : option provider.CertificateInfo * option error)
| EvGetCertificateDetail (certID : string) (res : provider.Certificate + error)
| EvApplyCertificate (domain : string) (res : string + error)
| EvGetCertificateStatus (orderID : string) (res : provider.CertificateStatus + error)
| EvDownloadCertificate (orderID : string) (res : provider.Certificate + error)
| EvAddRecord (domain rr recordType value : string) (res : option error)
| EvSleep (seconds : nat)
| EvMkdirAll (path : string) (perm : nat) (res : option error)
| EvWriteFile (path data : string) (perm : nat) (res : option error)
| EvTLSDial (addr : string) (res : list PeerCertificate + error)
| EvExecCommand (command : string) (res : option error).

(** The oracles.  The calls made repeatedly in one run (status polls, DNS
    writes, cancellation checks, file-system operations) are answered by
    position: the [n]-th call of its kind. *)
Record Env : Type := {
  newCertProvider : string -> option error;
  newDNSProvider : string -> option error;
  findValidCertificate : string -> Z -> option provider.CertificateInfo * option error;
  getCertificateDetail : string -> provider.Certificate + error;
  applyCertificate : string -> string + error;
  getCertificateStatus : nat -> string -> provider.CertificateStatus + error;
  downloadCertificate : string -> provider.Certificate + error;
  addRecord : nat -> string -> string -> string -> string -> option error;
  (** [ctx.Done()] at the [n]-th check: [Some e] when done, [e] is [ctx.Err()] *)
  ctxDone : nat -> option error;
  mkdirAll : nat -> string -> option error;
  writeFile : nat -> string -> option error;
  tlsDial : string -> list PeerCertificate + error;
  (** [int(time.Until(t).Hours() / 24)], read off the wall clock *)
  daysUntil : Time -> Z;
  execCommand : string -> option error;
  (** the order in which a [range] over a map visits its entries, as a code
      for [shuffleBy]; asked by the length of the trace so far *)
  rangeOrder : nat -> list nat
}.

Record World : Type := {
  polls : nat;
  adds : nat;
  checks : nat;
  fsops : nat;
  trace : list Event
}.

Definition World0 : World :=
  {| polls := 0; adds := 0; checks := 0; fsops := 0; trace := [] |}.

(** A computation reads and advances the world. *)
Definition M (A : Type) : Type := World -> A * World.

Definition ret {A : Type} (a : A) : M A := fun w => (a, w).

Definition bind {A B : Type} (m : M A) (f : A -> M B) : M B :=
  fun w => let (a, w1) := m w in f a w1.

Declare Scope go_scope.
Delimit Scope go_scope with go.
Notation "x <- m ;; k" := (bind m (fun x => k))
  (at level 61, m at next level, right associativity) : go_scope.
Notation "m ;; k" := (bind m (fun _ => k))
  (at level 61, right associativity) : go_scope.
Local Open Scope go_scope.

Definition emit (e : Event) (w : World) : World :=
  {| polls := polls w; adds := adds w; checks := checks w; fsops := fsops w;
     trace := trace w ++ [e] |}.

Section Calls.
Variable env : Env.

Definition NewCertProvider (name : string) : M (option error) := fun w =>
  let r := newCertProvider env name in (r, emit (EvNewCertProvider name r) w).

Definition NewDNSProvider (name : string) : M (option error) := fun w =>
  let r := newDNSProvider env name in (r, emit (EvNewDNSProvider name r) w).

Definition FindValidCertificate (domain : string) (minDays : Z)
  : M (option provider.CertificateInfo * option error) := fun w =>
  let r := findValidCertificate env domain minDays in
  (r, emit (EvFindValidCertificate domain minDays r) w).

Definition GetCertificateDetail (certID : string) : M (provider.Certificate + error) :=
  fun w => let r := getCertificateDetail env certID in
           (r, emit (EvGetCertificateDetail certID r) w).

Definition ApplyCertificate (domain : string) : M (string + error) := fun w =>
  let r := applyCertificate env domain in (r, emit (EvApplyCertificate domain r) w).

Definition GetCertificateStatus (orderID : string)
  : M (provider.CertificateStatus + error) := fun w =>
  let r := getCertificateStatus env (polls w) orderID in
  (r, {| polls := S (polls w); adds := adds w; checks := checks w; fsops := fsops w;
         trace := trace w ++ [EvGetCertificateStatus orderID r] |}).

Definition DownloadCertificate (orderID : string) : M (provider.Certificate + error) :=
  fun w => let r := downloadCertificate env orderID in
           (r, emit (EvDownloadCertificate orderID r) w).

Definition AddRecord (domain rr recordType value : string) : M (option error) := fun w =>
  let r := addRecord env (adds w) domain rr recordType value in
  (r, {| polls := polls w; adds := S (adds w); checks := checks w; fsops := fsops w;
         trace := trace w ++ [EvAddRecord domain rr recordType value r] |}).

(** [select { case <-ctx.Done(): ... default: }] *)
Definition CtxDone : M (option error) := fun w =>
  (ctxDone env (checks w),
   {| polls := polls w; adds := adds w; checks := S (checks w); fsops := fsops w;
      trace := trace w |}).

Definition Sleep (seconds : nat) : M unit := fun w => (tt, emit (EvSleep seconds) w).

Definition MkdirAll (path : string) (perm : nat) : M (option error) := fun w =>
  let r := mkdirAll env (fsops w) path in
  (r, {| polls := polls w; adds := adds w; checks := checks w; fsops := S (fsops w);
         trace := trace w ++ [EvMkdirAll path perm r] |}).

Definition WriteFile (path data : string) (perm : nat) : M (option error) := fun w =>
  let r := writeFile env (fsops w) path in
  (r, {| polls := polls w; adds := adds w; checks := checks w; fsops := S (fsops w);
         trace := trace w ++ [EvWriteFile path data perm r] |}).

Definition TLSDial (addr : string) : M (list PeerCertificate + error) := fun w =>
  let r := tlsDial env addr in (r, emit (EvTLSDial addr r) w).

(** [exec.Command("sh", "-c", command).Run()] *)
Definition ExecCommand (command : string) : M (option error) := fun w =>
  let r := execCommand env command in (r, emit (EvExecCommand command r) w).

End Calls.

(** ** internal/storage: FileStorage *)

Module storage.

Record FileStorage : Type := { baseDir : string }.

Definition NewFileStorage (dir : string) : FileStorage := {| baseDir := dir |}.

(** [strings.Split(path, "/")]. *)
Fixpoint SplitSlash (path : string) : list string :=
  match path with
  | EmptyString => [EmptyString]
  | String c r =>
      if Ascii.eqb c "/"%char then EmptyString :: SplitSlash r
      else match SplitSlash r with
           | [] => [String c EmptyString]
           | x :: xs => String c x :: xs
           end
  end.

(** [filepath.Clean] of the Go library, on a system whose separator is [/]:
    the path is read element by element; an empty element and [.] are
    dropped, [..] takes back the element before it when there is one that is
    not [..] itself, is dropped at the root and kept otherwise, and any other
    element is kept.  [stack] holds the elements kept so far, the last one
    first. *)
Definition rooted (path : string) : bool :=
  match path with
  | String c _ => Ascii.eqb c "/"%char
  | EmptyString => false
  end.

Definition cleanStep (isRooted : bool) (stack : list string) (elem : string)
  : list string :=
  if String.eqb elem "" || String.eqb elem "." then stack
  else if String.eqb elem ".." then
    match stack with
    | top :: rest => if String.eqb top ".." then elem :: stack else rest
    | [] => if isRooted then [] else [elem]
    end
  else elem :: stack.

Definition render (isRooted : bool) (stack : list string) : string :=
  match stack, isRooted with
  | [], false => "."
  | _, _ => (if isRooted then "/" else "") ++ String.concat "/" (rev stack)
  end.

Definition Clean (path : string) : string :=
  render (rooted path) (fold_left (cleanStep (rooted path)) (SplitSlash path) []).

(** [filepath.Join]: the empty elements at the front are skipped, the others
    are joined by the separator and the result is cleaned; no element left
    gives the empty string. *)
Fixpoint dropEmpty (elems : list string) : list string :=
  match elems with
  | e :: rest => if String.eqb e "" then dropEmpty rest else elems
  | [] => []
  end.

Definition Join (elems : list string) : string :=
  match dropEmpty elems with
  | [] => ""
  | rest => Clean (String.concat "/" rest)
  end.

Definition GetCertDir (s : FileStorage) (domain : string) : string :=
  Join [baseDir s; domain].
Definition GetCertPath (s : FileStorage) (domain : string) : string :=
  Join [baseDir s; domain; "cert.pem"].
Definition GetKeyPath (s : FileStorage) (domain : string) : string :=
  Join [baseDir s; domain; "key.pem"].
Definition GetFullchainPath (s : FileStorage) (domain : string) : string :=
  Join [baseDir s; domain; "fullchain.pem"].

Section WithEnv.
Variable env : Env.

Definition SaveCertificate (s : FileStorage) (domain : string)
    (cert : provider.Certificate) : M (option error) :=
  let outputDir := Join [baseDir s; domain] in
  e <- MkdirAll env outputDir 493 ;;
  match e with
  | Some err => ret (Some (wrapError "创建目录失败: " err))
  | None =>
    let certPath := Join [outputDir; "cert.pem"] in
    e <- WriteFile env certPath (provider.CertificatePEM cert) 420 ;;
    match e with
    | Some err => ret (Some (wrapError "保存证书失败: " err))
    | None =>
      k <- (if negb (String.eqb (provider.PrivateKey cert) "")
            then WriteFile env (Join [outputDir; "key.pem"]) (provider.PrivateKey cert) 384
            else ret None) ;;
      match k with
      | Some err => ret (Some (wrapError "保存私钥失败: " err))
      | None =>
        let chain := if String.eqb (provider.Chain cert) ""
                     then provider.CertificatePEM cert else provider.Chain cert in
        WriteFile env (Join [outputDir; "fullchain.pem"]) chain 420 ;;
        ret None
      end
    end
  end.

End WithEnv.
End storage.

(** ** internal/core *)

Module core.

Section WithEnv.
Variable env : Env.

(** *** validator.go *)

Definition CheckCertExpiry (domain : string) : M (Time * list string * option error) :=
  r <- TLSDial env (domain ++ ":443") ;;
  match r with
  | inr err => ret (zeroTime, [], Some (wrapError "连接失败: " err))
  | inl certs =>
    match certs with
    | [] => ret (zeroTime, [], Some (errorString "未找到证书"))
    | cert :: _ =>
      let domains := if negb (String.eqb (CommonName cert) "")
                     then [CommonName cert] else [] in
      let domains := domains ++ DNSNames cert in
      ret (LeafNotAfter cert, domains, None)
    end
  end.

Definition matchDomain (certDomains : list string) (targetDomain : string) : bool :=
  existsb (fun certDomain => domainpkg.MatchDomain certDomain targetDomain) certDomains.

Definition NeedRenew (domain : string) (renewDays : Z) : M (bool * Time * option error) :=
  c <- CheckCertExpiry domain ;;
  let '(expiry, certDomains, err) := c in
  match err with
  | Some _ => ret (true, zeroTime, None)
  | None =>
    let matched := matchDomain certDomains domain in
    if negb matched then ret (true, expiry, None)
    else
      let daysUntilExpiry := daysUntil env expiry in
      ret (Z.leb daysUntilExpiry renewDays, expiry, None)
  end.

(** *** executor.go *)

(** [strings.ReplaceAll(s, old, new)] for a non-empty [old]; [skip] counts the
    bytes of a match still to be dropped. *)
Fixpoint replaceFrom (old new : string) (skip : nat) (s : string) : string :=
  match s with
  | EmptyString => EmptyString
  | String c r =>
      match skip with
      | S k => replaceFrom old new k r
      | O => if String.prefix old s
             then new ++ replaceFrom old new (String.length old - 1) r
             else String c (replaceFrom old new 0 r)
      end
  end.

Definition ReplaceAll (s old new : string) : string := replaceFrom old new 0 s.

(** The entries of the Go map of variables. *)
Definition BuildVars (domain certDir certFile keyFile fullchainFile : string)
  : list (string * string) :=
  [("DOMAIN", domain); ("CERT_DIR", certDir); ("CERT_FILE", certFile);
   ("KEY_FILE", keyFile); ("FULLCHAIN_FILE", fullchainFile)].

(** [for key, value := range vars]: the entries in the order of the visit. *)
Definition RangeVars (vars : list (string * string)) : M (list (string * string)) :=
  fun w => (shuffleBy (rangeOrder env (List.length (trace w))) vars, w).

Definition RunPostCommand (command : string) (vars : list (string * string))
  : M (option error) :=
  if String.eqb command "" then ret None
  else
    visited <- RangeVars vars ;;
    let command :=
      fold_left (fun cmd kv => ReplaceAll cmd ("${" ++ fst kv ++ "}") (snd kv))
                visited command in
    e <- ExecCommand env command ;;
    match e with
    | Some err => ret (Some (wrapError "执行命令失败: " err))
    | None => ret None
    end.

(** *** factory.go

    The factory keeps the instances it has built, [certProviders] and
    [dnsProviders], keyed by name; an instance is stored exactly when its
    constructor has succeeded, so the keys of a cache are the names for
    which the trace holds a successful construction. *)

Definition builtCertProvider (name : string) (e : Event) : bool :=
  match e with
  | EvNewCertProvider n None => String.eqb n name
  | _ => false
  end.

Definition builtDNSProvider (name : string) (e : Event) : bool :=
  match e with
  | EvNewDNSProvider n None => String.eqb n name
  | _ => false
  end.

(** [_, ok := f.certProviders[name]] and [_, ok := f.dnsProviders[name]] *)
Definition CachedCertProvider (name : string) : M bool := fun w =>
  (existsb (builtCertProvider name) (trace w), w).

Definition CachedDNSProvider (name : string) : M bool := fun w =>
  (existsb (builtDNSProvider name) (trace w), w).

Definition GetCertProvider (cfg : config.Config) (name : string) : M (option error) :=
  cached <- CachedCertProvider name ;;
  if cached then ret None
  else if String.eqb name "aliyun" then
    match config.Aliyun (config.Providers cfg) with
    | None => ret (Some (errorString "阿里云证书提供商未配置"))
    | Some _ => NewCertProvider env name
    end
  else if String.eqb name "tencent" then
    match config.Tencent (config.Providers cfg) with
    | None => ret (Some (errorString "腾讯云证书提供商未配置"))
    | Some _ => NewCertProvider env name
    end
  else if String.eqb name "huawei" then
    match config.Huawei (config.Providers cfg) with
    | None => ret (Some (errorString "华为云证书提供商未配置"))
    | Some _ => NewCertProvider env name
    end
  else ret (Some (errorString ("不支持的证书提供商: " ++ name))).

Definition GetDNSProvider (cfg : config.Config) (name : string) : M (option error) :=
  cached <- CachedDNSProvider name ;;
  if cached then ret None
  else if String.eqb name "aliyun" then
    match config.Aliyun (config.Providers cfg) with
    | None => ret (Some (errorString "阿里云DNS提供商未配置"))
    | Some _ => NewDNSProvider env name
    end
  else if String.eqb name "tencent" then
    match config.Tencent (config.Providers cfg) with
    | None => ret (Some (errorString "腾讯云DNS提供商未配置"))
    | Some _ => NewDNSProvider env name
    end
  else if String.eqb name "huawei" then
    match config.Huawei (config.Providers cfg) with
    | None => ret (Some (errorString "华为云DNS提供商未配置"))
    | Some _ => NewDNSProvider env name
    end
  else ret (Some (errorString ("不支持的DNS提供商: " ++ name))).

Definition GetProvidersForDomain (cfg : config.Config) (domainCfg : config.DomainConfig)
  : M (option error) :=
  e <- GetCertProvider cfg (config.GetCertProvider domainCfg) ;;
  match e with
  | Some err => ret (Some (wrapError "获取证书提供商失败: " err))
  | None =>
    e <- GetDNSProvider cfg (config.GetDNSProvider domainCfg) ;;
    match e with
    | Some err => ret (Some (wrapError "获取DNS提供商失败: " err))
    | None => ret None
    end
  end.

(** *** manager.go *)

Record Manager : Type := {
  config_ : config.Config;
  storage_ : storage.FileStorage
}.

Definition NewManager (cfg : config.Config) : Manager :=
  {| config_ := cfg; storage_ := storage.NewFileStorage (config.OutputDir cfg) |}.

(** The local variables of [waitForDNSValidation] that live across
    iterations. *)
Record LoopState : Type := {
  dnsRecordAdded : bool;
  lastRecordDomain : string;
  consecutiveErrors : nat
}.

Definition initLoopState : LoopState :=
  {| dnsRecordAdded := false; lastRecordDomain := ""; consecutiveErrors := 0 |}.

(** How one pass through the loop body ends: on to the next iteration
    ([continue], or the end of the body), or [return]. *)
Inductive Flow : Type :=
| Next (st : LoopState)
| Return (err : option error).

Definition maxRetries : nat := 60.

Definition iteration (domain orderID : string) (st : LoopState) : M Flow :=
  d <- CtxDone env ;;
  match d with
  | Some ctxErr => ret (Return (Some ctxErr))
  | None =>
    r <- GetCertificateStatus env orderID ;;
    match r with
    | inr err =>
      let n := S (consecutiveErrors st) in
      if Nat.leb 3 n
      then ret (Return (Some (wrapError "连续获取证书状态失败: " err)))
      else Sleep 10 ;;
           ret (Next {| dnsRecordAdded := dnsRecordAdded st;
                        lastRecordDomain := lastRecordDomain st;
                        consecutiveErrors := n |})
    | inl status =>
      let st0 := {| dnsRecordAdded := dnsRecordAdded st;
                    lastRecordDomain := lastRecordDomain st;
                    consecutiveErrors := 0 |} in
      if String.eqb (provider.Status status) "domain_verify" then
        if String.eqb (provider.RecordDomain status) "" ||
           String.eqb (provider.RecordValue status) ""
        then Sleep 10 ;; ret (Next st0)
        else
          if negb (dnsRecordAdded st) ||
             negb (String.eqb (lastRecordDomain st) (provider.RecordDomain status))
          then
            a <- AddRecord env domain (provider.RecordDomain status)
                   (provider.RecordType status) (provider.RecordValue status) ;;
            match a with
            | Some _ => Sleep 10 ;; ret (Next st0)
            | None =>
              Sleep 20 ;;
              ret (Next {| dnsRecordAdded := true;
                           lastRecordDomain := provider.RecordDomain status;
                           consecutiveErrors := 0 |})
            end
          else Sleep 20 ;; ret (Next st0)
      else if String.eqb (provider.Status status) "process" then
        Sleep 20 ;; ret (Next st0)
      else if String.eqb (provider.Status status) "certificate" then
        ret (Return None)
      else if String.eqb (provider.Status status) "failed" then
        ret (Return (Some (errorString "证书申请失败")))
      else Sleep 15 ;; ret (Next st0)
    end
  end.

(** [for i := 0; i < n; i++ { body }]: up to [n] passes, stopped by the first
    [return]. *)
Fixpoint iterate (domain orderID : string) (n : nat) (st : LoopState) : M Flow :=
  match n with
  | O => ret (Next st)
  | S k =>
    f <- iteration domain orderID st ;;
    match f with
    | Next st1 => iterate domain orderID k st1
    | Return err => ret (Return err)
    end
  end.

Definition timeoutError (orderID : string) : error :=
  errorString ("等待超时，请检查云平台控制台，订单ID: " ++ orderID).

Definition waitForDNSValidation (domain orderID : string) : M (option error) :=
  f <- iterate domain orderID maxRetries initLoopState ;;
  match f with
  | Return err => ret err
  | Next _ => ret (Some (timeoutError orderID))
  end.

(** Step 3 of [ProcessDomain]: the post command, the domain's own or else the
    global one; its failure is only logged. *)
Definition runPostCommand (m : Manager) (domainCfg : config.DomainConfig) : M unit :=
  let domain := config.Domain domainCfg in
  let postCommand :=
    if String.eqb (config.DomainPostCommand domainCfg) ""
    then config.PostCommand (config_ m) else config.DomainPostCommand domainCfg in
  if negb (String.eqb postCommand "") then
    let vars := BuildVars domain
                  (storage.GetCertDir (storage_ m) domain)
                  (storage.GetCertPath (storage_ m) domain)
                  (storage.GetKeyPath (storage_ m) domain)
                  (storage.GetFullchainPath (storage_ m) domain) in
    RunPostCommand postCommand vars ;; ret tt
  else ret tt.

(** Step 2 of [ProcessDomain], entered when no certificate was downloaded
    in step 1: the renewal decision, then issuance, validation, download and
    persistence, then step 3. *)
Definition acquireNew (m : Manager) (domainCfg : config.DomainConfig)
  : M (option error) :=
  let domain := config.Domain domainCfg in
  let renewDays := config.RenewDays domainCfg in
  nr <- NeedRenew domain renewDays ;;
  let '(needRenew, _, _) := nr in
  if negb needRenew then ret None
  else
    o <- ApplyCertificate env domain ;;
    match o with
    | inr err => ret (Some (wrapError "申请证书失败: " err))
    | inl orderID =>
      v <- waitForDNSValidation domain orderID ;;
      match v with
      | Some err => ret (Some (wrapError "域名验证失败: " err))
      | None =>
        c <- DownloadCertificate env orderID ;;
        match c with
        | inr err => ret (Some (wrapError "下载证书失败: " err))
        | inl cert =>
          s <- storage.SaveCertificate env (storage_ m) domain cert ;;
          match s with
          | Some err => ret (Some (wrapError "保存证书失败: " err))
          | None => runPostCommand m domainCfg ;; ret None
          end
        end
      end
    end.

Definition ProcessDomain (m : Manager) (domainCfg : config.DomainConfig)
  : M (option error) :=
  let domain := config.Domain domainCfg in
  let renewDays := config.RenewDays domainCfg in
  p <- GetProvidersForDomain (config_ m) domainCfg ;;
  match p with
  | Some err => ret (Some (wrapError "获取提供商失败: " err))
  | None =>
    found <- FindValidCertificate env domain renewDays ;;
    certDownloaded <-
      match fst found with
      | Some existingCert =>
        c <- GetCertificateDetail env (provider.CertID existingCert) ;;
        match c with
        | inr _ => ret false
        | inl cert =>
          s <- storage.SaveCertificate env (storage_ m) domain cert ;;
          match s with
          | Some _ => ret false
          | None => ret true
          end
        end
      | None => ret false
      end ;;
    if negb certDownloaded then acquireNew m domainCfg
    else runPostCommand m domainCfg ;; ret None
  end.

Definition ContinueOrder (m : Manager)
    (orderID domain certProviderName dnsProviderName : string) : M (option error) :=
  e <- GetCertProvider (config_ m) certProviderName ;;
  match e with
  | Some err => ret (Some (wrapError "获取证书提供商失败: " err))
  | None =>
    e <- GetDNSProvider (config_ m) dnsProviderName ;;
    match e with
    | Some err => ret (Some (wrapError "获取DNS提供商失败: " err))
    | None =>
      r <- GetCertificateStatus env orderID ;;
      match r with
      | inr err => ret (Some (wrapError "获取订单状态失败: " err))
      | inl status =>
        if String.eqb (provider.Status status) "certificate" then
          c <- DownloadCertificate env orderID ;;
          match c with
          | inr err => ret (Some (wrapError "下载证书失败: " err))
          | inl cert => storage.SaveCertificate env (storage_ m) domain cert
          end
        else
          v <- waitForDNSValidation domain orderID ;;
          match v with
          | Some err => ret (Some (wrapError "域名验证失败: " err))
          | None =>
            c <- DownloadCertificate env orderID ;;
            match c with
            | inr err => ret (Some (wrapError "下载证书失败: " err))
            | inl cert =>
              s <- storage.SaveCertificate env (storage_ m) domain cert ;;
              match s with
              | Some err => ret (Some (wrapError "保存证书失败: " err))
              | None => ret None
              end
            end
          end
      end
    end
  end.

(** [Run]: every configured domain in turn; a failure is logged and the
    next domain is taken up. *)
Fixpoint processDomains (m : Manager) (domains : list config.DomainConfig) : M unit :=
  match domains with
  | [] => ret tt
  | domainCfg :: rest => ProcessDomain m domainCfg ;; processDomains m rest
  end.

Definition Run (m : Manager) : M (option error) :=
  processDomains m (config.Domains (config_ m)) ;; ret None.

End WithEnv.
End core.

(** ** internal/provider/aliyun

    The vendor adapters talk to the cloud APIs through SDK clients; each SDK
    call is answered by an oracle and listed, with its answer, in the calls
    a function returns. *)

Module aliyun.

(** A copy of [domain.ExtractMainDomain] kept in the package. *)
Definition extractMainDomain (domain : string) : string :=
  let parts := domainpkg.SplitDot domain in
  if Nat.leb 2 (List.length parts)
  then nth (List.length parts - 2) parts "" ++ "." ++
       nth (List.length parts - 1) parts ""
  else domain.

Definition extractSubDomain (fullRecord mainDomain : string) : string :=
  if domainpkg.HasSuffix fullRecord ("." ++ mainDomain)
  then domainpkg.TrimSuffix fullRecord ("." ++ mainDomain)
  else fullRecord.

Definition containsDomain (domains : list string) (domain : string) : bool :=
  existsb (fun d => String.eqb d domain) domains.

Definition mapAliyunStatus (aliyunStatus : string) : string :=
  if String.eqb aliyunStatus "domain_verify" then "domain_verify"
  else if String.eqb aliyunStatus "process" || String.eqb aliyunStatus "verify" ||
          String.eqb aliyunStatus "payed" || String.eqb aliyunStatus "checking"
       then "process"
  else if String.eqb aliyunStatus "certificate" then "certificate"
  else aliyunStatus.

(** The body of a [DescribeCertificateState] response. *)
Record StateResponse : Type := {
  StateType : string;
  StateCertificate : string;
  StatePrivateKey : string;
  StateRecordDomain : string;
  StateRecordType : string;
  StateRecordValue : string
}.

Definition DownloadCertificate (response : StateResponse + error)
  : provider.Certificate + error :=
  match response with
  | inr err => inr (wrapError "获取证书状态失败: " err)
  | inl body =>
    if negb (String.eqb (StateType body) "certificate")
    then inr (errorString ("证书尚未签发，当前状态: " ++ StateType body))
    else if String.eqb (StateCertificate body) "" ||
            String.eqb (StatePrivateKey body) ""
    then inr (errorString "证书内容为空")
    else inl {| provider.CertificatePEM := StateCertificate body;
                provider.PrivateKey := StatePrivateKey body;
                provider.Chain := StateCertificate body |}
  end.

(** The body of a [GetUserCertificateDetail] response. *)
Record DetailResponse : Type := { DetailCert : string; DetailKey : string }.

Definition GetCertificateDetail (response : DetailResponse + error)
  : provider.Certificate + error :=
  match response with
  | inr err => inr (wrapError "获取证书详情失败: " err)
  | inl body =>
    if String.eqb (DetailCert body) "" then inr (errorString "证书内容为空")
    else inl {| provider.CertificatePEM := DetailCert body;
                provider.PrivateKey := DetailKey body;
                provider.Chain := DetailCert body |}
  end.

(** The loop of [FindValidCertificate]; [daysRemaining] stands for
    [int(time.Until(cert.NotAfter).Hours() / 24)]. *)
Definition certMatches (domain : string) (cert : provider.CertificateInfo) : bool :=
  String.eqb (provider.InfoDomain cert) domain ||
  String.eqb (provider.InfoDomain cert) ("*." ++ extractMainDomain domain) ||
  containsDomain (provider.Sans cert) domain.

Fixpoint firstValid (daysRemaining : Time -> Z) (certs : list provider.CertificateInfo)
    (domain : string) (minDays : Z) : option provider.CertificateInfo :=
  match certs with
  | [] => None
  | cert :: rest =>
    if certMatches domain cert && Z.ltb minDays (daysRemaining (provider.NotAfter cert))
    then Some cert
    else firstValid daysRemaining rest domain minDays
  end.

Definition FindValidCertificate (daysRemaining : Time -> Z)
    (listed : list provider.CertificateInfo + error) (domain : string) (minDays : Z)
  : option provider.CertificateInfo * option error :=
  match listed with
  | inr err => (None, Some err)
  | inl certs => (firstValid daysRemaining certs domain minDays, None)
  end.

(** *** dns.go *)

Record DomainRecord : Type := {
  ApiRecordId : string;
  ApiRR : string;
  ApiType : string;
  ApiValue : string;
  ApiTTL : Z
}.

Inductive DnsCall : Type :=
| CallDescribeDomainRecords (domainName rrKeyWord recordType : string)
    (res : list DomainRecord + error)
| CallAddDomainRecord (domainName rr recordType value : string) (res : option error)
| CallUpdateDomainRecord (recordID rr recordType value : string) (res : option error).

Record DnsApi : Type := {
  describeDomainRecords : string -> string -> string -> list DomainRecord + error;
  addDomainRecord : string -> string -> string -> string -> option error;
  updateDomainRecord : string -> string -> string -> string -> option error
}.

Section WithApi.
Variable api : DnsApi.

Definition FindRecord (domain rr recordType : string)
  : list DnsCall * (option provider.DNSRecord * option error) :=
  let mainDomain := extractMainDomain domain in
  let subDomain := extractSubDomain rr mainDomain in
  let response := describeDomainRecords api mainDomain subDomain recordType in
  let calls := [CallDescribeDomainRecords mainDomain subDomain recordType response] in
  match response with
  | inr err => (calls, (None, Some (wrapError "查询DNS记录失败: " err)))
  | inl records =>
    match find (fun record => String.eqb (ApiRR record) subDomain &&
                              String.eqb (ApiType record) recordType) records with
    | Some record =>
        (calls,
         (Some {| provider.RecordID := ApiRecordId record;
                  provider.RecordZone := mainDomain;
                  provider.RR := ApiRR record;
                  provider.RecordKind := ApiType record;
                  provider.Value := ApiValue record;
                  provider.TTL := ApiTTL record |}, None))
    | None => (calls, (None, None))
    end
  end.

Definition UpdateRecord (domain recordID rr recordType value : string)
  : list DnsCall * option error :=
  let mainDomain := extractMainDomain domain in
  let subDomain := extractSubDomain rr mainDomain in
  let res := updateDomainRecord api recordID subDomain recordType value in
  ([CallUpdateDomainRecord recordID subDomain recordType value res],
   match res with
   | Some err => Some (wrapError "更新DNS记录失败: " err)
   | None => None
   end).

Definition AddRecord (domain rr recordType value : string)
  : list DnsCall * option error :=
  let mainDomain := extractMainDomain domain in
  let subDomain := extractSubDomain rr mainDomain in
  let '(calls, (existingRecord, _)) := FindRecord domain subDomain recordType in
  match existingRecord with
  | Some existing =>
    let '(calls1, res) :=
      UpdateRecord domain (provider.RecordID existing) subDomain recordType value in
    (calls ++ calls1, res)
  | None =>
    let res := addDomainRecord api mainDomain subDomain recordType value in
    (calls ++ [CallAddDomainRecord mainDomain subDomain recordType value res],
     match res with
     | Some err => Some (wrapError "添加DNS记录失败: " err)
     | None => None
     end)
  end.

End WithApi.
End aliyun.

(** ** internal/provider/tencent, internal/provider/huawei *)

Module tencent.

(** The status code is a [uint64]. *)
Definition mapTencentStatus (status : N) : string :=
  if N.eqb status 0 || N.eqb status 4 || N.eqb status 5 || N.eqb status 8
  then "domain_verify"
  else if N.eqb status 1 then "certificate"
  else if N.eqb status 2 || N.eqb status 7 || N.eqb status 10 then "failed"
  else "process".

End tencent.

Module huawei.

Definition ApplyCertificate (domain : string) : string + error :=
  inr (errorString
         "华为云暂不支持通过API申请免费证书，请在控制台手动申请后使用此工具管理").

(** The status of [GetCertificateStatus], from the optional status of the
    response. *)
Definition mapHuaweiStatus (status : option string) : string :=
  match status with
  | None => "certificate"
  | Some st =>
    if String.eqb st "PAID" || String.eqb st "CHECKING" then "process"
    else if String.eqb st "ISSUED" then "certificate"
    else if String.eqb st "REVOKED" || String.eqb st "EXPIRED" then "failed"
    else "certificate"
  end.

(** [response] is the outcome of [ShowCertificate]: the optional status of
    the certificate, or the error. *)
Definition GetCertificateStatus (certID : string) (response : option string + error)
  : provider.CertificateStatus + error :=
  match response with
  | inr err => inr (wrapError "获取证书状态失败: " err)
  | inl status =>
      inl {| provider.OrderID := certID;
             provider.Status := mapHuaweiStatus status;
             provider.Domain := "";
             provider.RecordDomain := "";
             provider.RecordType := "";
             provider.RecordValue := "" |}
  end.

End huawei.

(** ** internal/notification/webhook.go *)

Module notification.

Record WebhookConfig : Type := {
  Enabled : bool;
  URL : string;
  Headers : list (string * string);
  Events : list string;
  Timeout : Z;
  Retries : Z;
  BodyTemplate : string
}.

(** A [time.Duration]: nanoseconds in a signed 64-bit integer. *)
Definition wrap64 (x : Z) : Z := ((x + 2 ^ 63) mod 2 ^ 64 - 2 ^ 63)%Z.

Definition Second : Z := 1000000000%Z.

(** A notifier; [None] is the nil pointer. *)
Record WebhookNotifier : Type := {
  notifierConfig : WebhookConfig;
  clientTimeout : Z
}.


Definition ShouldNotify (w : option WebhookNotifier) (eventType : string) : bool :=
  match w with
  | None => false
  | Some n =>
    if negb (Enabled (notifierConfig n)) then false
    else if Nat.eqb (List.length (Events (notifierConfig n))) 0 then true
    else existsb (fun e => String.eqb e eventType) (Events (notifierConfig n))
  end.

Inductive HttpCall : Type :=
| CallSleep (duration : Z)
| CallNewRequest (url body : string) (res : option error)
| CallDo (url body : string) (headers : list (string * string)) (res : Z + error).

(** What the network and the encoders answer: [render] and [marshal] are the
    outcomes of the template and of [json.Marshal] on the event,
    [newRequest i] and [doRequest i] those of attempt [i]; a response is its
    status code. *)
Record Net : Type := {
  render : string + error;
  marshal : string + error;
  newRequest : nat -> option error;
  doRequest : nat -> Z + error
}.

(** [time.Duration(1<<uint(i-1)) * time.Second] *)
Definition backoff (i : nat) : Z :=
  wrap64 (wrap64 (2 ^ Z.of_nat (i - 1)) * Second).

Definition statusText (code : Z) : string :=
  DecimalString.NilZero.string_of_int (Z.to_int code).

Section WithNet.
Variable net : Net.

(** The retry loop of [Notify], from attempt [i] with [left] attempts to
    go. *)
Fixpoint attempts (cfg : WebhookConfig) (body : string) (left i : nat)
    (lastErr : option error) : list HttpCall * option error :=
  match left with
  | O => ([], lastErr)
  | S k =>
    let slept := if Nat.ltb 0 i then [CallSleep (backoff i)] else [] in
    match newRequest net i with
    | Some err =>
      let '(calls, res) :=
        attempts cfg body k (S i) (Some (wrapError "创建请求失败: " err)) in
      (slept ++ CallNewRequest (URL cfg) body (Some err) :: calls, res)
    | None =>
      let headers := ("Content-Type", "application/json") :: Headers cfg in
      match doRequest net i with
      | inr err =>
        let '(calls, res) :=
          attempts cfg body k (S i) (Some (wrapError "发送请求失败: " err)) in
        (slept ++ CallNewRequest (URL cfg) body None
           :: CallDo (URL cfg) body headers (inr err) :: calls, res)
      | inl code =>
        if Z.leb 200 code && Z.ltb code 300
        then (slept ++ [CallNewRequest (URL cfg) body None;
                        CallDo (URL cfg) body headers (inl code)], None)
        else
          let '(calls, res) :=
            attempts cfg body k (S i)
              (Some (errorString ("Webhook 返回错误状态码: " ++ statusText code))) in
          (slept ++ CallNewRequest (URL cfg) body None
             :: CallDo (URL cfg) body headers (inl code) :: calls, res)
      end
    end
  end.

Definition retriesOf (cfg : WebhookConfig) : Z :=
  if Z.leb (Retries cfg) 0 then 3%Z else Retries cfg.

Definition Notify (w : option WebhookNotifier) (eventType : string)
  : list HttpCall * option error :=
  match w with
  | None => ([], None)
  | Some n =>
    let cfg := notifierConfig n in
    if negb (Enabled cfg) then ([], None)
    else if negb (ShouldNotify w eventType) then ([], None)
    else
      let body :=
        if negb (String.eqb (BodyTemplate cfg) "") then
          match render net with
          | inl b => inl b
          | inr _ =>
            match marshal net with
            | inl b => inl b
            | inr err => inr (wrapError "序列化事件数据失败: " err)
            end
          end
        else
          match marshal net with
          | inl b => inl b
          | inr err => inr (wrapError "序列化事件数据失败: " err)
          end in
      match body with
      | inr err => ([], Some err)
      | inl b => attempts cfg b (Z.to_nat (retriesOf cfg)) 0 None
      end
  end.

End WithNet.
End notification.

(** ** Reading a run

    Classifiers of events and measures of traces, and the environments of the
    worked examples. *)

Import core.

(** A label: a string without a dot. *)
Fixpoint nodot (s : string) : bool :=
  match s with
  | EmptyString => true
  | String c r => negb (Ascii.eqb c "."%char) && nodot r
  end.

(** The last two labels of a name (all of them when there are fewer). *)
Definition lastTwo (labels : list string) : list string :=
  skipn (List.length labels - 2) labels.

(** A certificate name covers a domain: it is the domain itself, or it is
    [*.] followed by the last two labels of the domain, the labels being the
    dot-free pieces the domain is made of. *)
Definition coveredBy (name domain : string) : Prop :=
  name = domain \/
  exists labels,
    labels <> [] /\ forallb nodot labels = true /\
    domain = String.concat "." labels /\
    name = ("*." ++ String.concat "." (lastTwo labels))%string.

Definition pollFailed {A : Type} (r : A + error) : bool :=
  match r with inr _ => true | inl _ => false end.

Definition isPoll (e : Event) : bool :=
  match e with EvGetCertificateStatus _ _ => true | _ => false end.
Definition isAddRecord (e : Event) : bool :=
  match e with EvAddRecord _ _ _ _ _ => true | _ => false end.
Definition addSucceeded (e : Event) : bool :=
  match e with EvAddRecord _ _ _ _ None => true | _ => false end.
Definition isDownload (e : Event) : bool :=
  match e with EvDownloadCertificate _ _ => true | _ => false end.
Definition downloadSucceeded (e : Event) : bool :=
  match e with EvDownloadCertificate _ (inl _) => true | _ => false end.
Definition isApply (e : Event) : bool :=
  match e with EvApplyCertificate _ _ => true | _ => false end.
(** The calls by which a run is observed from the outside of the providers:
    status polls, DNS writes and certificate fetches. *)
Definition observable (e : Event) : bool :=
  match e with
  | EvGetCertificateStatus _ _ | EvAddRecord _ _ _ _ _ | EvDownloadCertificate _ _ => true
  | _ => false
  end.
Definition isExec (e : Event) : bool :=
  match e with EvExecCommand _ _ => true | _ => false end.

(** The events the polling loop can leave: polls, DNS writes, sleeps. *)
Definition loopEvent (e : Event) : bool :=
  match e with
  | EvGetCertificateStatus _ _ | EvAddRecord _ _ _ _ _ | EvSleep _ => true
  | _ => false
  end.

Definition count (p : Event -> bool) (t : list Event) : nat :=
  List.length (filter p t).

Definition hasChallenge (s : provider.CertificateStatus) : bool :=
  String.eqb (provider.Status s) "domain_verify" &&
  negb (String.eqb (provider.RecordDomain s) "" ||
        String.eqb (provider.RecordValue s) "").

(** The label of the last DNS write that succeeded. *)
Fixpoint lastWritten (t : list Event) (acc : option string) : option string :=
  match t with
  | [] => acc
  | EvAddRecord _ rr _ _ None :: t' => lastWritten t' (Some rr)
  | _ :: t' => lastWritten t' acc
  end.

(** The failed polls in a row at the end of a trace, on top of [acc]. *)
Fixpoint failStreak (t : list Event) (acc : nat) : nat :=
  match t with
  | [] => acc
  | EvGetCertificateStatus _ (inr _) :: t' => failStreak t' (S acc)
  | EvGetCertificateStatus _ (inl _) :: t' => failStreak t' 0
  | _ :: t' => failStreak t' acc
  end.

Definition stateLabel (st : LoopState) : option string :=
  if dnsRecordAdded st then Some (lastRecordDomain st) else None.

Definition knownStatus (s : string) : bool :=
  String.eqb s "domain_verify" || String.eqb s "process" ||
  String.eqb s "certificate" || String.eqb s "failed".

(** The decision of the loop body to write the challenge record. *)
Definition mustWrite (st : LoopState) (s : provider.CertificateStatus) : bool :=
  hasChallenge s &&
  (negb (dnsRecordAdded st) ||
   negb (String.eqb (lastRecordDomain st) (provider.RecordDomain s))).

(** 1 once the loop has written a record, else 0. *)
Definition written (st : LoopState) : nat := if dnsRecordAdded st then 1 else 0.

(** The event of a DNS write carries the answer of the environment. *)
Definition answeredBy (env : Env) (e : Event) : Prop :=
  match e with
  | EvAddRecord d rr t v res => exists n, res = addRecord env n d rr t v
  | _ => True
  end.

(** Nothing stops the loop in the [n] passes that start at [w]: no
    cancellation, no terminal status, no three failed polls in a row. *)
Definition quiet (env : Env) (orderID : string) (w : World) (n : nat) : Prop :=
  (forall i, i < n -> ctxDone env (checks w + i) = None) /\
  (forall i s, i < n ->
     getCertificateStatus env (polls w + i) orderID = inl s ->
     provider.Status s <> "certificate" /\ provider.Status s <> "failed") /\
  (forall i, i + 2 < n ->
     ~ (pollFailed (getCertificateStatus env (polls w + i) orderID) = true /\
        pollFailed (getCertificateStatus env (polls w + i + 1) orderID) = true /\
        pollFailed (getCertificateStatus env (polls w + i + 2) orderID) = true)).

(** Why the polling loop returned [err], having left the events [evs] after
    [c] failed polls in a row and [n] passes at most, from the world [w]. *)
Definition exitReason (env : Env) (orderID : string) (w : World) (n c : nat)
    (evs : list Event) (err : option error) : Prop :=
  (exists e k, err = Some e /\ ctxDone env k = Some e /\
               checks w <= k < checks w + n) \/
  (exists s pre, err = None /\ provider.Status s = "certificate" /\
                 evs = pre ++ [EvGetCertificateStatus orderID (inl s)]) \/
  (exists s pre, err = Some (errorString "证书申请失败") /\
                 provider.Status s = "failed" /\
                 evs = pre ++ [EvGetCertificateStatus orderID (inl s)]) \/
  (exists e pre, err = Some (wrapError "连续获取证书状态失败: " e) /\
                 evs = pre ++ [EvGetCertificateStatus orderID (inr e)] /\
                 failStreak evs c = 3).

Definition mkStatus (status recordDomain recordValue : string)
  : provider.CertificateStatus :=
  {| provider.OrderID := "order-1"; provider.Status := status;
     provider.Domain := "www.example.com";
     provider.RecordDomain := recordDomain; provider.RecordType := "TXT";
     provider.RecordValue := recordValue |}.

Definition sampleCert : provider.Certificate :=
  {| provider.CertificatePEM := "LEAF"; provider.PrivateKey := "KEY";
     provider.Chain := "LEAF+CA" |}.

(** An environment that answers the polls and the DNS writes from two
    scripts; past the end of a script a poll reports the status [pending] and
    a write succeeds.  The CA offers [found] for reuse and answers [detail]
    for it; the file system refuses the paths in [badPath].  Nothing else
    fails, nothing is cancelled, and the TLS endpoint cannot be reached. *)
Definition scriptedEnv (pollScript : list (provider.CertificateStatus + error))
    (addScript : list (option error))
    (found : option provider.CertificateInfo)
    (detail : provider.Certificate + error)
    (badPath : string -> bool) : Env :=
  {| newCertProvider := fun _ => None;
     newDNSProvider := fun _ => None;
     findValidCertificate := fun _ _ => (found, None);
     getCertificateDetail := fun _ => detail;
     applyCertificate := fun _ => inl "order-1";
     getCertificateStatus := fun n _ => nth n pollScript (inl (mkStatus "pending" "" ""));
     downloadCertificate := fun _ => inl sampleCert;
     addRecord := fun n _ _ _ _ => nth n addScript None;
     ctxDone := fun _ => None;
     mkdirAll := fun _ path =>
       if badPath path then Some (errorString "permission denied") else None;
     writeFile := fun _ path =>
       if badPath path then Some (errorString "permission denied") else None;
     tlsDial := fun _ => inr (errorString "dial tcp: connection refused");
     daysUntil := fun _ => 0%Z;
     execCommand := fun _ => None;
     rangeOrder := fun _ => [1; 3; 0; 2] |}.

Definition fsEvent (e : Event) : bool :=
  match e with
  | EvMkdirAll _ _ _ | EvWriteFile _ _ _ _ => true
  | _ => false
  end.

Definition isWriteTo (path : string) (e : Event) : bool :=
  match e with
  | EvWriteFile p _ _ _ => String.eqb p path
  | _ => false
  end.

Definition providerEvent (e : Event) : bool :=
  match e with
  | EvNewCertProvider _ _ | EvNewDNSProvider _ _ => true
  | _ => false
  end.

(** The calls answered by position other than file-system operations are
    where they were. *)
Definition sameCalls (w w1 : World) : Prop :=
  polls w1 = polls w /\ adds w1 = adds w /\ checks w1 = checks w.

Definition sampleConfig : config.Config :=
  {| config.Providers :=
       {| config.Aliyun := Some {| config.AccessKey := "id"; config.SecretKey := "secret";
                                   config.Region := "cn-hangzhou" |};
          config.Tencent := None; config.Huawei := None |};
     config.Domains := [];
     config.OutputDir := "./certs";
     config.PostCommand := "nginx -s reload" |}.

Definition sampleDomain : config.DomainConfig :=
  {| config.Domain := "www.example.com"; config.Provider := "aliyun";
     config.CertProvider := ""; config.DNSProvider := "";
     config.RenewDays := 30%Z; config.DomainPostCommand := "" |}.

(** The events a run has added to the trace of the world it started from. *)
Definition eventsSince (w w1 : World) : list Event :=
  skipn (List.length (trace w)) (trace w1).

Definition labelA : string := "_dnsauth.www.example.com".
Definition labelB : string := "_dnsauth2.www.example.com".

Definition pollError : error := errorString "RequestError: timeout".

(** The CA never gets past [pending]. *)
Definition pendingEnv : Env :=
  scriptedEnv [] [] None (inl sampleCert) (fun _ => false).

(** Three polls fail in a row. *)
Definition failingEnv : Env :=
  scriptedEnv [inr pollError; inr pollError; inr pollError] [] None
    (inl sampleCert) (fun _ => false).

(** The label moves from [labelA] to [labelB]. *)
Definition relabelEnv : Env :=
  scriptedEnv [inl (mkStatus "domain_verify" labelA "token-a");
               inl (mkStatus "domain_verify" labelB "token-b")] [] None
    (inl sampleCert) (fun _ => false).

(** The label stays, the first DNS write fails. *)
Definition retryEnv : Env :=
  scriptedEnv [inl (mkStatus "domain_verify" labelA "token-a");
               inl (mkStatus "domain_verify" labelA "token-a");
               inl (mkStatus "certificate" "" "")]
    [Some (errorString "DNS API: throttled"); None] None
    (inl sampleCert) (fun _ => false).

(** The status sequence [domain_verify(A), domain_verify(A), process,
    certificate]. *)
Definition issuingEnv : Env :=
  scriptedEnv [inl (mkStatus "domain_verify" labelA "token-a");
               inl (mkStatus "domain_verify" labelA "token-a");
               inl (mkStatus "process" "" "");
               inl (mkStatus "certificate" "" "")] [] None
    (inl sampleCert) (fun _ => false).

(** The order is already issued. *)
Definition issuedEnv : Env :=
  scriptedEnv [inl (mkStatus "certificate" "" "")] [] None
    (inl sampleCert) (fun _ => false).

Definition reusable : provider.CertificateInfo :=
  {| provider.CertID := "12345"; provider.InfoOrderID := "order-0";
     provider.InfoDomain := "www.example.com"; provider.Sans := [];
     provider.NotBefore := 0%Z; provider.NotAfter := 4102444800%Z;
     provider.InfoStatus := "issued" |}.



(** The file system refuses the chain file. *)
Definition noChainEnv : Env :=
  scriptedEnv [] [] None (inl sampleCert)
    (fun path => String.eqb path "certs/www.example.com/fullchain.pem").

Definition keylessCert : provider.Certificate :=
  {| provider.CertificatePEM := "LEAF"; provider.PrivateKey := "";
     provider.Chain := "" |}.

(** A computation that leaves only events of the kind [P]. *)
Definition emitsOnly {A : Type} (P : Event -> bool) (m : M A) : Prop :=
  forall w, exists evs, trace (snd (m w)) = trace w ++ evs /\ forallb P evs = true.

Definition notExec (e : Event) : bool := negb (isExec e).

Definition isFind (e : Event) : bool :=
  match e with EvFindValidCertificate _ _ _ => true | _ => false end.

Definition isDial (e : Event) : bool :=
  match e with EvTLSDial _ _ => true | _ => false end.

Definition isSleep (e : Event) : bool :=
  match e with EvSleep _ => true | _ => false end.

(** The events of step 2 of [ProcessDomain] and of what follows it. *)
Definition acquireEvent (e : Event) : bool :=
  match e with
  | EvNewCertProvider _ _ | EvNewDNSProvider _ _ | EvFindValidCertificate _ _ _
  | EvGetCertificateDetail _ _ => false
  | _ => true
  end.

(** The events that may follow the reuse check in [ProcessDomain]. *)
Definition afterFindEvent (e : Event) : bool :=
  match e with
  | EvNewCertProvider _ _ | EvNewDNSProvider _ _ | EvFindValidCertificate _ _ _ => false
  | _ => true
  end.

(** The seconds slept in a trace. *)
Fixpoint totalSleep (t : list Event) : nat :=
  match t with
  | [] => 0
  | EvSleep seconds :: t' => seconds + totalSleep t'
  | _ :: t' => totalSleep t'
  end.

(** The environment with another shell. *)
Definition withExec (env : Env) (exec : string -> option error) : Env :=
  {| newCertProvider := newCertProvider env;
     newDNSProvider := newDNSProvider env;
     findValidCertificate := findValidCertificate env;
     getCertificateDetail := getCertificateDetail env;
     applyCertificate := applyCertificate env;
     getCertificateStatus := getCertificateStatus env;
     downloadCertificate := downloadCertificate env;
     addRecord := addRecord env;
     ctxDone := ctxDone env;
     mkdirAll := mkdirAll env;
     writeFile := writeFile env;
     tlsDial := tlsDial env;
     daysUntil := daysUntil env;
     execCommand := exec;
     rangeOrder := rangeOrder env |}.

(** The environment with another order of visit of the variables. *)
Definition withOrder (env : Env) (order : nat -> list nat) : Env :=
  {| newCertProvider := newCertProvider env;
     newDNSProvider := newDNSProvider env;
     findValidCertificate := findValidCertificate env;
     getCertificateDetail := getCertificateDetail env;
     applyCertificate := applyCertificate env;
     getCertificateStatus := getCertificateStatus env;
     downloadCertificate := downloadCertificate env;
     addRecord := addRecord env;
     ctxDone := ctxDone env;
     mkdirAll := mkdirAll env;
     writeFile := writeFile env;
     tlsDial := tlsDial env;
     daysUntil := daysUntil env;
     execCommand := execCommand env;
     rangeOrder := order |}.

(** [ProcessDomain] from the answer of the reuse check on: the rest of
    step 1, then step 2 or step 3. *)
Definition afterReuseCheck (env : Env) (m : Manager) (domainCfg : config.DomainConfig)
    (found : option provider.CertificateInfo * option error) : M (option error) :=
  (certDownloaded <-
     match fst found with
     | Some existingCert =>
       c <- GetCertificateDetail env (provider.CertID existingCert) ;;
       match c with
       | inr _ => ret false
       | inl cert =>
         s <- storage.SaveCertificate env (storage_ m) (config.Domain domainCfg) cert ;;
         match s with
         | Some _ => ret false
         | None => ret true
         end
       end
     | None => ret false
     end ;;
   if negb certDownloaded then acquireNew env m domainCfg
   else runPostCommand env m domainCfg ;; ret None)%go.

(** The event of the reuse check for a domain. *)
Definition reuseCheckOf (env : Env) (domainCfg : config.DomainConfig) : Event :=
  EvFindValidCertificate (config.Domain domainCfg) (config.RenewDays domainCfg)
    (findValidCertificate env (config.Domain domainCfg) (config.RenewDays domainCfg)).

Definition failedDomain : config.DomainConfig :=
  {| config.Domain := "old.example.com"; config.Provider := "aliyun";
     config.CertProvider := ""; config.DNSProvider := "";
     config.RenewDays := 30%Z; config.DomainPostCommand := "" |}.

Definition batchConfig : config.Config :=
  {| config.Providers := config.Providers sampleConfig;
     config.Domains := [failedDomain; sampleDomain];
     config.OutputDir := "./certs";
     config.PostCommand := "" |}.

(** The CA reports the first order as failed and the second as issued. *)
Definition batchEnv : Env :=
  scriptedEnv [inl (mkStatus "failed" "" ""); inl (mkStatus "certificate" "" "")]
    [] None (inl sampleCert) (fun _ => false).

Definition liveLeaf : PeerCertificate :=
  {| CommonName := "*.example.com"; DNSNames := ["example.com"];
     LeafNotAfter := 4102444800%Z |}.

(** Like [scriptedEnv], with the context done from the check [doneFrom] on,
    the live endpoint answering [dial] with [days] days left, and the CA
    answering issuance requests by [apply]. *)
Definition variedEnv (pollScript : list (provider.CertificateStatus + error))
    (doneFrom : nat) (dial : list PeerCertificate + error) (days : Z)
    (apply : string -> string + error) : Env :=
  {| newCertProvider := fun _ => None;
     newDNSProvider := fun _ => None;
     findValidCertificate := fun _ _ => (None, None);
     getCertificateDetail := fun _ => inl sampleCert;
     applyCertificate := apply;
     getCertificateStatus := fun n _ => nth n pollScript (inl (mkStatus "pending" "" ""));
     downloadCertificate := fun _ => inl sampleCert;
     addRecord := fun _ _ _ _ _ => None;
     ctxDone := fun n => if Nat.leb doneFrom n
                         then Some (errorString "context canceled") else None;
     mkdirAll := fun _ _ => None;
     writeFile := fun _ _ => None;
     tlsDial := fun _ => dial;
     daysUntil := fun _ => days;
     execCommand := fun _ => None;
     rangeOrder := fun _ => [1; 3; 0; 2] |}.

(** The live certificate is fine for 90 more days. *)
Definition healthyEnv : Env :=
  variedEnv [] 1000 (inl [liveLeaf]) 90 (fun _ => inl "order-1").

(** The run is cancelled after the first pass of the polling loop. *)
Definition cancelledEnv : Env :=
  variedEnv [] 1 (inr (errorString "dial tcp: connection refused")) 0
    (fun _ => inl "order-1").

(** The CA is Huawei's: it takes no issuance request. *)
Definition huaweiEnv : Env :=
  variedEnv [] 1000 (inr (errorString "dial tcp: connection refused")) 0
    huawei.ApplyCertificate.

(** The reusable certificate comes without its private key. *)
Definition keylessReuseEnv : Env :=
  scriptedEnv [] [] (Some reusable) (inl keylessCert) (fun _ => false).

(** [acquireNew] from a successful issuance request on: validation,
    download, persistence, post command. *)
Definition afterIssuance (env : Env) (m : Manager) (domainCfg : config.DomainConfig)
    (orderID : string) : M (option error) :=
  (v <- waitForDNSValidation env (config.Domain domainCfg) orderID ;;
   match v with
   | Some err => ret (Some (wrapError "域名验证失败: " err))
   | None =>
     c <- DownloadCertificate env orderID ;;
     match c with
     | inr err => ret (Some (wrapError "下载证书失败: " err))
     | inl cert =>
       s <- storage.SaveCertificate env (storage_ m) (config.Domain domainCfg) cert ;;
       match s with
       | Some err => ret (Some (wrapError "保存证书失败: " err))
       | None => runPostCommand env m domainCfg ;; ret None
       end
     end
   end)%go.

(** The events that are no issuance request. *)
Definition notApply (e : Event) : bool := negb (isApply e).

(** The events of the steps before issuance. *)
Definition beforeIssuance (e : Event) : bool :=
  match e with
  | EvNewCertProvider _ _ | EvNewDNSProvider _ _ | EvFindValidCertificate _ _ _
  | EvGetCertificateDetail _ _ | EvMkdirAll _ _ _ | EvWriteFile _ _ _ _
  | EvTLSDial _ _ | EvExecCommand _ _ => true
  | _ => false
  end.

(** The CA stays at [domain_verify] with the same challenge and the DNS API
    is down. *)
Definition dnsDownEnv : Env :=
  {| newCertProvider := fun _ => None;
     newDNSProvider := fun _ => None;
     findValidCertificate := fun _ _ => (None, None);
     getCertificateDetail := fun _ => inl sampleCert;
     applyCertificate := fun _ => inl "order-1";
     getCertificateStatus := fun _ _ => inl (mkStatus "domain_verify" labelA "token-a");
     downloadCertificate := fun _ => inl sampleCert;
     addRecord := fun _ _ _ _ _ => Some (errorString "DNS API: unavailable");
     ctxDone := fun _ => None;
     mkdirAll := fun _ _ => None;
     writeFile := fun _ _ => None;
     tlsDial := fun _ => inr (errorString "dial tcp: connection refused");
     daysUntil := fun _ => 0%Z;
     execCommand := fun _ => None;
     rangeOrder := fun _ => [1; 3; 0; 2] |}.

(** The shape of a run that asks for issuance at most once: events of the
    earlier steps, then possibly the request and what follows it; a refused
    request is the last event and decides the result. *)
Definition issuedOnce (env : Env) (domain : string) (start : World)
    (run : option error * World) : Prop :=
  exists pre post,
    trace (snd run) = trace start ++ pre ++ post /\
    forallb beforeIssuance pre = true /\
    (post = [] \/
     exists rest,
       post = EvApplyCertificate domain (applyCertificate env domain) :: rest /\
       forallb notApply rest = true /\
       forall err, applyCertificate env domain = inr err ->
         rest = [] /\ fst run = Some (wrapError "申请证书失败: " err)).

(** A string without the byte [c]. *)
Fixpoint lacks (c : ascii) (s : string) : bool :=
  match s with
  | EmptyString => true
  | String a r => negb (Ascii.eqb a c) && lacks c r
  end.

(** A file name: one path element that [filepath.Clean] keeps as it is. *)
Definition plainName (name : string) : bool :=
  lacks "/" name && negb (String.eqb name "") && negb (String.eqb name ".")
  && negb (String.eqb name "..").

(** The elements [filepath.Clean] may hold after reading a path: none is
    empty, [.] or holds a separator, and [..] stands only on other [..], and
    only in a path that is not rooted. *)
Fixpoint cleanStack (isRooted : bool) (stack : list string) : Prop :=
  match stack with
  | [] => True
  | x :: rest =>
      lacks "/" x = true /\ x <> "" /\ x <> "." /\
      (x = ".." -> isRooted = false /\ Forall (eq "..") rest) /\
      cleanStack isRooted rest
  end.

(** One pass of the substitution loop of [RunPostCommand]. *)
Definition substitute (command : string) (kv : string * string) : string :=
  ReplaceAll command ("${" ++ fst kv ++ "}") (snd kv).

(** A configuration file of the old layout: the Aliyun credentials at the
    top level, no output directory, no check interval, no concurrency. *)
Definition legacyFile : config.File :=
  {| config.Base :=
       {| config.Providers :=
            {| config.Aliyun := None; config.Tencent := None; config.Huawei := None |};
          config.Domains := [sampleDomain];
          config.OutputDir := "";
          config.PostCommand := "" |};
     config.CheckInterval := 0;
     config.Concurrency := 0;
     config.LegacyAliyun :=
       Some {| config.AccessKey := "id"; config.SecretKey := "secret";
               config.Region := "" |} |}.

(** A configuration file with both the old top-level Aliyun entry and one
    under the providers, and with every setting given. *)
Definition bothFile : config.File :=
  {| config.Base :=
       {| config.Providers :=
            {| config.Aliyun :=
                 Some {| config.AccessKey := "new-id"; config.SecretKey := "new-secret";
                         config.Region := "cn-hangzhou" |};
               config.Tencent := None; config.Huawei := None |};
          config.Domains := [sampleDomain];
          config.OutputDir := "/etc/ssl/managed";
          config.PostCommand := "nginx -s reload" |};
     config.CheckInterval := (-1)%Z;
     config.Concurrency := 4%Z;
     config.LegacyAliyun :=
       Some {| config.AccessKey := "old-id"; config.SecretKey := "old-secret";
               config.Region := "" |} |}.

(** An issued wildcard certificate, as the CA lists it. *)
Definition wildcardInfo : provider.CertificateInfo :=
  {| provider.CertID := "7"; provider.InfoOrderID := "order-7";
     provider.InfoDomain := "*.example.com"; provider.Sans := ["example.com"];
     provider.NotBefore := 0%Z; provider.NotAfter := 4102444800%Z;
     provider.InfoStatus := "issued" |}.

(** The CA is Huawei's and reports the certificate as paid for, then as
    being checked, then as issued. *)
Definition huaweiPollEnv : Env :=
  {| newCertProvider := fun _ => None;
     newDNSProvider := fun _ => None;
     findValidCertificate := fun _ _ => (None, None);
     getCertificateDetail := fun _ => inl sampleCert;
     applyCertificate := huawei.ApplyCertificate;
     getCertificateStatus := fun n certID =>
       huawei.GetCertificateStatus certID
         (nth n [inl (Some "PAID"); inl (Some "CHECKING")] (inl (Some "ISSUED")));
     downloadCertificate := fun _ => inl sampleCert;
     addRecord := fun _ _ _ _ _ => None;
     ctxDone := fun _ => None;
     mkdirAll := fun _ _ => None;
     writeFile := fun _ _ => None;
     tlsDial := fun _ => inr (errorString "dial tcp: connection refused");
     daysUntil := fun _ => 0%Z;
     execCommand := fun _ => None;
     rangeOrder := fun _ => [1; 3; 0; 2] |}.

(** The state of an issued order, as Aliyun describes it. *)
Definition issuedState : aliyun.StateResponse :=
  {| aliyun.StateType := "certificate";
     aliyun.StateCertificate := "LEAF"; aliyun.StatePrivateKey := "KEY";
     aliyun.StateRecordDomain := ""; aliyun.StateRecordType := "";
     aliyun.StateRecordValue := "" |}.

(** The detail of a certificate whose key the CA does not hold. *)
Definition keylessDetail : aliyun.DetailResponse :=
  {| aliyun.DetailCert := "LEAF"; aliyun.DetailKey := "" |}.

(** The reusable certificate is fetched through the Aliyun adapter and comes
    without its private key. *)
Definition keylessAliyunEnv : Env :=
  scriptedEnv [] [] (Some reusable) (aliyun.GetCertificateDetail (inl keylessDetail))
    (fun _ => false).

(** A DNS zone that already holds the challenge record. *)
Definition sampleDnsApi : aliyun.DnsApi :=
  {| aliyun.describeDomainRecords := fun _ _ _ =>
       inl [{| aliyun.ApiRecordId := "rec-0"; aliyun.ApiRR := "_dnsauth.www2";
               aliyun.ApiType := "TXT"; aliyun.ApiValue := "other";
               aliyun.ApiTTL := 600%Z |};
            {| aliyun.ApiRecordId := "rec-1"; aliyun.ApiRR := "_dnsauth.www";
               aliyun.ApiType := "TXT"; aliyun.ApiValue := "old-token";
               aliyun.ApiTTL := 600%Z |}];
     aliyun.addDomainRecord := fun _ _ _ _ => None;
     aliyun.updateDomainRecord := fun _ _ _ _ => None |}.

(** Reading the calls of [Notify]. *)
Definition isNewRequest (c : notification.HttpCall) : bool :=
  match c with notification.CallNewRequest _ _ _ => true | _ => false end.

Definition isPause (c : notification.HttpCall) : bool :=
  match c with notification.CallSleep _ => true | _ => false end.

(** A request answered with a 2xx status. *)
Definition delivered (c : notification.HttpCall) : bool :=
  match c with
  | notification.CallDo _ _ _ (inl code) => Z.leb 200 code && Z.ltb code 300
  | _ => false
  end.

(** The pause before attempt [i]. *)
Definition pauseBefore (i : nat) : list notification.HttpCall :=
  if Nat.ltb 0 i then [notification.CallSleep (notification.backoff i)] else [].


(** The endpoint answers 500, then the connection breaks, then it answers
    204. *)
Definition flakyNet : notification.Net :=
  {| notification.render := inr (errorString "template: no template");
     notification.marshal := inl "{}";
     notification.newRequest := fun _ => None;
     notification.doRequest := fun i =>
       nth i [inl 500%Z; inr (errorString "connection reset by peer")] (inl 204%Z) |}.

(** The events that are no download by order. *)
Definition notDownload (e : Event) : bool := negb (isDownload e).

(** A trace in which the only download by order, if there is one, comes
    right after a poll of that order answered [certificate]. *)
Definition downloadsAfterCertificate (evs : list Event) : Prop :=
  filter isDownload evs = [] \/
  exists pre orderID s r post,
    evs = pre ++ [EvGetCertificateStatus orderID (inl s);
                  EvDownloadCertificate orderID r] ++ post /\
    provider.Status s = "certificate" /\
    filter isDownload pre = [] /\ filter isDownload post = [].

(** A domain whose certificates come from Tencent, which [sampleConfig]
    has no credentials for. *)
Definition tencentDomain : config.DomainConfig :=
  {| config.Domain := "shop.example.com"; config.Provider := "";
     config.CertProvider := "tencent"; config.DNSProvider := "aliyun";
     config.RenewDays := 30%Z; config.DomainPostCommand := "" |}.

(** A trace in which a certificate handed over by the CA (fetched by its id
    or downloaded by its order) has been written to [cert.pem]. *)
Definition savedFromCA (s : storage.FileStorage) (domain : string)
    (evs : list Event) : Prop :=
  exists cert,
    In (EvWriteFile (storage.GetCertPath s domain)
          (provider.CertificatePEM cert) 420 None) evs /\
    ((exists certID, In (EvGetCertificateDetail certID (inl cert)) evs) \/
     (exists orderID, In (EvDownloadCertificate orderID (inl cert)) evs)).

(** What the factory does for a name that passes its checks: the cached
    instance, or a new one from the constructor. *)
Definition cachedOrNewCertProvider (env : Env) (name : string) : M (option error) :=
  (cached <- CachedCertProvider name ;;
   if cached then ret None else NewCertProvider env name)%go.

Definition cachedOrNewDNSProvider (env : Env) (name : string) : M (option error) :=
  (cached <- CachedDNSProvider name ;;
   if cached then ret None else NewDNSProvider env name)%go.

(** * Properties *)

(** ** Domain utilities *)

Section DomainFacts.
Import domainpkg.

Lemma substring_whole (s : string) : substring 0 (String.length s) s = s.
Proof. induction s as [|c s IH]; simpl; [reflexivity | now rewrite IH]. Qed.

Lemma HasPrefix_star_inv (c : string) :
  HasPrefix c "*." = true -> c = ("*." ++ TrimPrefix c "*.")%string.
Proof.
  unfold TrimPrefix. intros H. rewrite H.
  unfold HasPrefix in H.
  destruct c as [|a [|b r]]; cbn [String.prefix] in H; try discriminate.
  - destruct (ascii_dec "*" a); discriminate.
  - destruct (ascii_dec "*" a) as [<-|]; [|discriminate].
    destruct (ascii_dec "." b) as [<-|]; [|discriminate].
    simpl. rewrite Nat.sub_0_r, substring_whole. reflexivity.
Qed.

Lemma HasPrefix_star (X : string) : HasPrefix ("*." ++ X) "*." = true.
Proof.
  unfold HasPrefix. apply String.prefix_correct.
  destruct X; reflexivity.
Qed.

Lemma TrimPrefix_star (X : string) : TrimPrefix ("*." ++ X) "*." = X.
Proof.
  unfold TrimPrefix. rewrite HasPrefix_star. simpl.
  rewrite Nat.sub_0_r. apply substring_whole.
Qed.

Lemma MatchDomain_spec (certName target : string) :
  MatchDomain certName target = true <->
  certName = target \/
  exists X, certName = ("*." ++ X)%string /\ X = ExtractMainDomain target.
Proof.
  unfold MatchDomain.
  destruct (String.eqb_spec certName target) as [E|E].
  - split; auto.
  - split.
    + destruct (HasPrefix certName "*.") eqn:P; [|discriminate].
      intros H. apply String.eqb_eq in H. right.
      exists (TrimPrefix certName "*."). split; [|exact H].
      now apply HasPrefix_star_inv.
    + intros [H|[X [-> ->]]]; [contradiction|].
      rewrite HasPrefix_star, TrimPrefix_star. apply String.eqb_refl.
Qed.

Lemma SplitDot_nonempty (s : string) : SplitDot s <> [].
Proof.
  induction s as [|c r IH]; simpl; [discriminate|].
  destruct (Ascii.eqb c "."); [discriminate|].
  destruct (SplitDot r); discriminate.
Qed.

Lemma SplitDot_label (a : string) : nodot a = true -> SplitDot a = [a].
Proof.
  induction a as [|c r IH]; simpl; [reflexivity|].
  destruct (Ascii.eqb c "."); simpl; [discriminate|].
  intros H. now rewrite IH.
Qed.

Lemma SplitDot_cons (a rest : string) :
  nodot a = true -> SplitDot (a ++ String "." rest) = a :: SplitDot rest.
Proof.
  induction a as [|c r IH]; simpl; [reflexivity|].
  destruct (Ascii.eqb c "."); simpl; [discriminate|].
  intros H. now rewrite (IH H).
Qed.

Lemma SplitDot_concat (labels : list string) :
  labels <> [] -> forallb nodot labels = true ->
  SplitDot (String.concat "." labels) = labels.
Proof.
  induction labels as [|a [|b l] IH]; intros NE H.
  - contradiction.
  - simpl in *. apply SplitDot_label. now rewrite andb_true_r in H.
  - cbn [String.concat]. cbn [forallb] in H. apply andb_prop in H as [Ha H].
    change ("." ++ ?x)%string with (String "." x).
    rewrite SplitDot_cons by exact Ha. f_equal. apply IH; [discriminate|exact H].
Qed.

Lemma ExtractMainDomain_last_two (pre : list string) (a b : string) :
  forallb nodot (pre ++ [a; b]) = true ->
  ExtractMainDomain (String.concat "." (pre ++ [a; b])) = (a ++ "." ++ b)%string.
Proof.
  intros H. unfold ExtractMainDomain.
  rewrite SplitDot_concat; [|now destruct pre|exact H].
  rewrite length_app. simpl List.length.
  replace (Nat.leb 2 (List.length pre + 2)) with true
    by (symmetry; apply Nat.leb_le; lia).
  replace (List.length pre + 2 - 2) with (List.length pre + 0) by lia.
  replace (List.length pre + 2 - 1) with (List.length pre + 1) by lia.
  rewrite !app_nth2_plus. reflexivity.
Qed.

Lemma ExtractMainDomain_single (a : string) :
  nodot a = true -> ExtractMainDomain a = a.
Proof. intros H. unfold ExtractMainDomain. now rewrite SplitDot_label. Qed.

Lemma SplitDot_nodot (s : string) : forallb nodot (SplitDot s) = true.
Proof.
  induction s as [|c r IH]; [reflexivity|]. cbn [SplitDot].
  destruct (Ascii.eqb c ".") eqn:E; [exact IH|].
  destruct (SplitDot r) as [|h t]; cbn in *; rewrite E; cbn; [reflexivity|exact IH].
Qed.

Lemma concat_SplitDot (s : string) : String.concat "." (SplitDot s) = s.
Proof.
  induction s as [|c r IH]; [reflexivity|]. cbn [SplitDot].
  pose proof (SplitDot_nonempty r) as NE.
  destruct (Ascii.eqb_spec c ".") as [->|N].
  - destruct (SplitDot r) as [|h t]; [contradiction|].
    change (String "." (String.concat "." (h :: t)) = String "." r).
    now rewrite IH.
  - destruct (SplitDot r) as [|h [|h2 t]]; [contradiction| |].
    + change (String c h = String c r). cbn in IH. now rewrite IH.
    + change (String c (h ++ "." ++ String.concat "." (h2 :: t)) = String c r).
      change (h ++ "." ++ String.concat "." (h2 :: t) = r)%string in IH.
      now rewrite IH.
Qed.

(** The main domain is the last two labels of a name, put together again. *)
Lemma ExtractMainDomain_lastTwo (labels : list string) :
  labels <> [] -> forallb nodot labels = true ->
  ExtractMainDomain (String.concat "." labels) = String.concat "." (lastTwo labels).
Proof.
  intros Hne Hl.
  destruct (rev labels) as [|b [|a pre]] eqn:E.
  - apply (f_equal (@rev string)) in E. rewrite rev_involutive in E. contradiction.
  - apply (f_equal (@rev string)) in E. rewrite rev_involutive in E. subst labels.
    cbn in Hl |- *. apply ExtractMainDomain_single. now rewrite andb_true_r in Hl.
  - apply (f_equal (@rev string)) in E. rewrite rev_involutive in E. subst labels.
    cbn [rev] in Hl |- *. rewrite <- app_assoc in Hl |- *. cbn [app] in Hl |- *.
    rewrite ExtractMainDomain_last_two by exact Hl.
    unfold lastTwo. rewrite length_app. cbn [List.length].
    replace (List.length (rev pre) + 2 - 2) with (List.length (rev pre) + 0) by lia.
    now rewrite skipn_app, Nat.add_0_r, skipn_all, Nat.sub_diag.
Qed.

(** What [MatchDomain] decides, said of the names alone. *)
Lemma MatchDomain_coveredBy (name domain : string) :
  MatchDomain name domain = true <-> coveredBy name domain.
Proof.
  rewrite MatchDomain_spec. unfold coveredBy. split.
  - intros [E|(X & -> & ->)]; [now left|]. right.
    exists (SplitDot domain).
    split; [apply SplitDot_nonempty|]. split; [apply SplitDot_nodot|].
    split; [symmetry; apply concat_SplitDot|].
    rewrite <- ExtractMainDomain_lastTwo;
      [|apply SplitDot_nonempty|apply SplitDot_nodot].
    now rewrite concat_SplitDot.
  - intros [E|(labels & Hne & Hl & -> & ->)]; [now left|]. right.
    eexists. split; [reflexivity|].
    symmetry. now apply ExtractMainDomain_lastTwo.
Qed.

End DomainFacts.

(** ** The polling loop *)

Ltac norm :=
  repeat (progress (cbv beta iota zeta;
                    cbn [polls adds checks fsops trace fst snd])).

Ltac run_iteration :=
  unfold iteration, bind, ret, CtxDone, GetCertificateStatus, AddRecord, Sleep, emit;
  norm.

Ltac pair_inv :=
  let H := fresh in
  intros H; first [discriminate H | injection H as <- <-; norm].

Ltac split_iteration :=
  repeat match goal with
  | |- context [match ctxDone ?e ?n with _ => _ end] =>
      destruct (ctxDone e n) eqn:?; norm
  | |- context [match getCertificateStatus ?e ?n ?o with _ => _ end] =>
      destruct (getCertificateStatus e n o) eqn:?; norm
  | |- context [match addRecord ?e ?n ?a ?b ?c ?d with _ => _ end] =>
      destruct (addRecord e n a b c d) eqn:?; norm
  | |- context [if ?b then _ else _] => destruct b eqn:?; norm
  end.

Ltac ex_events :=
  first [ exists []; split; [symmetry; apply app_nil_r|]
        | eexists; split; [rewrite <- ?app_assoc; reflexivity|] ].

Lemma count_app p t1 t2 : count p (t1 ++ t2) = count p t1 + count p t2.
Proof. unfold count. now rewrite filter_app, length_app. Qed.

Lemma count_nil p : count p [] = 0.
Proof. reflexivity. Qed.

Lemma lastWritten_app t1 t2 acc :
  lastWritten (t1 ++ t2) acc = lastWritten t2 (lastWritten t1 acc).
Proof.
  revert acc. induction t1 as [|e t1 IH]; intros acc; [reflexivity|].
  destruct e; cbn; try apply IH. destruct res; apply IH.
Qed.

Lemma failStreak_app t1 t2 acc :
  failStreak (t1 ++ t2) acc = failStreak t2 (failStreak t1 acc).
Proof.
  revert acc. induction t1 as [|e t1 IH]; intros acc; [reflexivity|].
  destruct e; cbn; try apply IH. destruct res; apply IH.
Qed.

Lemma lastWritten_filter t acc :
  lastWritten (filter isAddRecord t) acc = lastWritten t acc.
Proof.
  revert acc. induction t as [|e t IH]; intros acc; [reflexivity|].
  destruct e; cbn; try apply IH. destruct res; apply IH.
Qed.

Lemma count_addSucceeded_filter t :
  count addSucceeded (filter isAddRecord t) = count addSucceeded t.
Proof.
  unfold count. induction t as [|e t IH]; [reflexivity|].
  destruct e; cbn; try apply IH. destruct res; cbn; now rewrite IH.
Qed.

Lemma count_filter_length p t : count p t = List.length (filter p t).
Proof. reflexivity. Qed.

Section Loop.
Variable env : Env.
Variables domain orderID : string.


(** What one pass does to the world. *)
Lemma iteration_world st w f w1 :
  iteration env domain orderID st w = (f, w1) ->
  exists evs, trace w1 = trace w ++ evs /\
    checks w1 = S (checks w) /\
    polls w1 = polls w + count isPoll evs /\
    adds w1 = adds w + count isAddRecord evs /\
    fsops w1 = fsops w /\
    count isPoll evs <= 1 /\
    (forall st1, f = Next st1 -> count isPoll evs = 1) /\
    Forall (fun e => loopEvent e = true) evs.
Proof.
  run_iteration. split_iteration; pair_inv; ex_events;
  cbn; repeat split; try lia; try discriminate; repeat constructor.
Qed.

Lemma iterate_step n st w :
  iterate env domain orderID (S n) st w =
  let (f, w1) := iteration env domain orderID st w in
  match f with
  | Next st1 => iterate env domain orderID n st1 w1
  | Return err => (Return err, w1)
  end.
Proof.
  cbn [iterate]. unfold bind.
  destruct (iteration env domain orderID st w) as [[st1|err] w1]; reflexivity.
Qed.

(** A failed poll: the counter goes up; at 3 the loop returns at once. *)
Lemma iteration_poll_failed st w err :
  ctxDone env (checks w) = None ->
  getCertificateStatus env (polls w) orderID = inr err ->
  iteration env domain orderID st w =
  if Nat.leb 3 (S (consecutiveErrors st))
  then (Return (Some (wrapError "连续获取证书状态失败: " err)),
        {| polls := S (polls w); adds := adds w; checks := S (checks w);
           fsops := fsops w;
           trace := trace w ++ [EvGetCertificateStatus orderID (inr err)] |})
  else (Next {| dnsRecordAdded := dnsRecordAdded st;
                lastRecordDomain := lastRecordDomain st;
                consecutiveErrors := S (consecutiveErrors st) |},
        {| polls := S (polls w); adds := adds w; checks := S (checks w);
           fsops := fsops w;
           trace := trace w ++ [EvGetCertificateStatus orderID (inr err); EvSleep 10] |}).
Proof.
  intros Hc Hp. run_iteration. rewrite Hc; norm. rewrite Hp; norm.
  destruct (Nat.leb 3 (S (consecutiveErrors st))); norm; [reflexivity|].
  now rewrite <- app_assoc.
Qed.

(** A poll that succeeds resets the counter. *)
Lemma iteration_poll_ok st w status st1 w1 :
  getCertificateStatus env (polls w) orderID = inl status ->
  iteration env domain orderID st w = (Next st1, w1) ->
  consecutiveErrors st1 = 0.
Proof.
  intros Hp. run_iteration. destruct (ctxDone env (checks w)); norm.
  { discriminate. }
  rewrite Hp; norm.
  split_iteration; pair_inv; reflexivity.
Qed.

(** A status outside the four known ones: wait 15 seconds, go on. *)
Lemma iteration_unknown_status st w status :
  ctxDone env (checks w) = None ->
  getCertificateStatus env (polls w) orderID = inl status ->
  knownStatus (provider.Status status) = false ->
  iteration env domain orderID st w =
  (Next {| dnsRecordAdded := dnsRecordAdded st;
           lastRecordDomain := lastRecordDomain st;
           consecutiveErrors := 0 |},
   {| polls := S (polls w); adds := adds w; checks := S (checks w);
      fsops := fsops w;
      trace := trace w ++ [EvGetCertificateStatus orderID (inl status); EvSleep 15] |}).
Proof.
  intros Hc Hp Hk. unfold knownStatus in Hk.
  apply orb_false_elim in Hk as [Hk Hf].
  apply orb_false_elim in Hk as [Hk Hcert].
  apply orb_false_elim in Hk as [Hdv Hproc].
  run_iteration. rewrite Hc; norm. rewrite Hp; norm.
  rewrite Hdv, Hproc, Hcert, Hf; norm. now rewrite <- app_assoc.
Qed.

(** Why a pass returns. *)
Lemma iteration_return st w err w1 :
  iteration env domain orderID st w = (Return err, w1) ->
  (exists e, ctxDone env (checks w) = Some e /\ err = Some e /\ trace w1 = trace w) \/
  (ctxDone env (checks w) = None /\
   ((exists s, getCertificateStatus env (polls w) orderID = inl s /\
               provider.Status s = "certificate" /\ err = None /\
               trace w1 = trace w ++ [EvGetCertificateStatus orderID (inl s)]) \/
    (exists s, getCertificateStatus env (polls w) orderID = inl s /\
               provider.Status s = "failed" /\
               err = Some (errorString "证书申请失败") /\
               trace w1 = trace w ++ [EvGetCertificateStatus orderID (inl s)]) \/
    (exists e, getCertificateStatus env (polls w) orderID = inr e /\
               2 <= consecutiveErrors st /\
               err = Some (wrapError "连续获取证书状态失败: " e) /\
               trace w1 = trace w ++ [EvGetCertificateStatus orderID (inr e)]))).
Proof.
  run_iteration. split_iteration; pair_inv.
  all: try (left; eexists; repeat split; reflexivity).
  all: right; split; [reflexivity|].
  - left. eexists. repeat split. now apply String.eqb_eq.
  - right; left. eexists. repeat split. now apply String.eqb_eq.
  - right; right. eexists. repeat split. apply Nat.leb_le in Heqb. lia.
Qed.

(** What a pass writes to the DNS host, and the state it hands on. *)
Lemma iteration_effect st w f w1 :
  iteration env domain orderID st w = (f, w1) ->
  exists evs, trace w1 = trace w ++ evs /\
    filter isAddRecord evs =
      match ctxDone env (checks w), getCertificateStatus env (polls w) orderID with
      | None, inl s =>
          if mustWrite st s
          then [EvAddRecord domain (provider.RecordDomain s) (provider.RecordType s)
                  (provider.RecordValue s)
                  (addRecord env (adds w) domain (provider.RecordDomain s)
                     (provider.RecordType s) (provider.RecordValue s))]
          else []
      | _, _ => []
      end /\
    (forall st1, f = Next st1 ->
       consecutiveErrors st1 = failStreak evs (consecutiveErrors st) /\
       stateLabel st1 = lastWritten evs (stateLabel st)).
Proof.
  unfold mustWrite, hasChallenge, stateLabel.
  run_iteration. split_iteration; pair_inv; ex_events; cbn.
  all: repeat match goal with H : _ = _ |- _ => rewrite H end; cbn.
  all: split; [try reflexivity|intros ? [= <-]; cbn; auto].
  all: try (intros; discriminate).
Qed.

Lemma iterate_effect n : forall st w f w1,
  iterate env domain orderID n st w = (f, w1) ->
  exists evs, trace w1 = trace w ++ evs /\
    (forall st1, f = Next st1 ->
       consecutiveErrors st1 = failStreak evs (consecutiveErrors st) /\
       stateLabel st1 = lastWritten evs (stateLabel st)).
Proof.
  induction n as [|n IH]; intros st w f w1.
  - cbn. unfold ret. pair_inv. ex_events. intros st1 [= <-]. now cbn.
  - rewrite iterate_step.
    destruct (iteration env domain orderID st w) as [f0 w0] eqn:E.
    apply iteration_effect in E as (evs0 & T0 & _ & N0).
    destruct f0 as [st0|err].
    + intros H. apply IH in H as (evs1 & T1 & N1).
      exists (evs0 ++ evs1). split; [now rewrite T1, T0, app_assoc|].
      intros st1 ->. destruct (N0 _ eq_refl) as [A0 B0].
      destruct (N1 _ eq_refl) as [A1 B1].
      now rewrite failStreak_app, lastWritten_app, <- A0, <- B0.
    + pair_inv. exists evs0. split; [exact T0|]. intros; discriminate.
Qed.

Section SingleLabel.
Variable L : string.
Hypothesis Hlabel : forall n s,
  getCertificateStatus env n orderID = inl s -> hasChallenge s = true ->
  provider.RecordDomain s = L.

Lemma iteration_single_label st w f w1 :
  (dnsRecordAdded st = true -> lastRecordDomain st = L) ->
  iteration env domain orderID st w = (f, w1) ->
  exists evs, trace w1 = trace w ++ evs /\
    count addSucceeded evs + written st <= 1 /\
    Forall (answeredBy env) evs /\
    (forall st1, f = Next st1 ->
       written st1 = written st + count addSucceeded evs /\
       (dnsRecordAdded st1 = true -> lastRecordDomain st1 = L)).
Proof.
  intros HL. run_iteration. split_iteration; pair_inv; ex_events.
  all: try match goal with
    | Hs : String.eqb (provider.Status ?s) "domain_verify" = true,
      He : orb _ _ = false,
      Hp : getCertificateStatus _ _ _ = inl ?s |- _ =>
        assert (provider.RecordDomain s = L)
          by (apply (Hlabel _ _ Hp); unfold hasChallenge; now rewrite Hs, He)
    end.
  all: try match goal with
    | Hg : orb (negb (dnsRecordAdded ?x)) _ = true, HR : provider.RecordDomain _ = _ |- _ =>
        destruct (dnsRecordAdded x) eqn:D;
        [ rewrite HR, (HL eq_refl), String.eqb_refl in Hg; discriminate Hg | ]
    end.
  all: split; [|split; [repeat constructor; cbn; eauto|]].
  all: try (unfold written; cbn; try rewrite D; destruct (dnsRecordAdded st); cbn; lia).
  all: intros st1 E; first [discriminate E | injection E as <-].
  all: unfold written; cbn; try rewrite D; split; try lia; auto.
  all: try (destruct (dnsRecordAdded st); lia).
  all: intros; discriminate.
Qed.

Lemma iterate_single_label n : forall st w f w1,
  (dnsRecordAdded st = true -> lastRecordDomain st = L) ->
  iterate env domain orderID n st w = (f, w1) ->
  exists evs, trace w1 = trace w ++ evs /\
    count addSucceeded evs + written st <= 1 /\
    Forall (answeredBy env) evs.
Proof.
  induction n as [|n IH]; intros st w f w1 HL.
  - cbn. unfold ret. pair_inv. ex_events. cbn. split; [|constructor].
    unfold written. destruct (dnsRecordAdded st); lia.
  - rewrite iterate_step.
    destruct (iteration env domain orderID st w) as [f0 w0] eqn:E.
    apply (iteration_single_label _ _ _ _ HL) in E as (evs0 & T0 & C0 & A0 & N0).
    destruct f0 as [st0|err].
    + destruct (N0 _ eq_refl) as [W0 HL0].
      intros H. apply (IH _ _ _ _ HL0) in H as (evs1 & T1 & C1 & A1).
      exists (evs0 ++ evs1). split; [now rewrite T1, T0, app_assoc|].
      rewrite count_app. split; [lia|]. now apply Forall_app.
    + pair_inv. exists evs0. auto.
Qed.
End SingleLabel.

Lemma answered_all_succeed evs :
  (forall n d rr t v, addRecord env n d rr t v = None) ->
  Forall (answeredBy env) evs ->
  count isAddRecord evs = count addSucceeded evs.
Proof.
  intros Hok. unfold count. induction 1 as [|e evs He _ IH]; [reflexivity|].
  destruct e; cbn; try exact IH.
  destruct He as [n ->]. rewrite Hok. cbn. now rewrite IH.
Qed.

Lemma iteration_quiet st w :
  ctxDone env (checks w) = None ->
  (forall s, getCertificateStatus env (polls w) orderID = inl s ->
     provider.Status s <> "certificate" /\ provider.Status s <> "failed") ->
  (pollFailed (getCertificateStatus env (polls w) orderID) = true ->
     consecutiveErrors st < 2) ->
  exists st1 w1,
    iteration env domain orderID st w = (Next st1, w1) /\
    checks w1 = S (checks w) /\ polls w1 = S (polls w) /\
    consecutiveErrors st1 =
      if pollFailed (getCertificateStatus env (polls w) orderID)
      then S (consecutiveErrors st) else 0.
Proof.
  intros Hc Hs He. run_iteration. rewrite Hc; norm.
  destruct (getCertificateStatus env (polls w) orderID) as [s|e];
    cbn [pollFailed] in *; norm.
  - destruct (Hs s eq_refl) as [Hcert Hfail].
    apply String.eqb_neq in Hcert, Hfail. rewrite Hcert, Hfail.
    split_iteration; do 2 eexists; (split; [reflexivity|]); cbn; repeat split.
  - specialize (He eq_refl).
    destruct (Nat.leb_spec 3 (S (consecutiveErrors st))); [lia|]; norm.
    do 2 eexists; (split; [reflexivity|]); cbn; repeat split.
Qed.

Lemma iterate_quiet n : forall i st w w0,
  quiet env orderID w0 (i + n) ->
  checks w = checks w0 + i -> polls w = polls w0 + i ->
  consecutiveErrors st <= i -> consecutiveErrors st <= 2 ->
  (forall j, j < consecutiveErrors st ->
     pollFailed (getCertificateStatus env (polls w0 + (i - 1 - j)) orderID) = true) ->
  exists st1 w1,
    iterate env domain orderID n st w = (Next st1, w1) /\
    checks w1 = checks w + n /\ polls w1 = polls w + n.
Proof.
  induction n as [|n IH]; intros i st w w0 Q Hc Hp Hi H2 Hf.
  - exists st, w. cbn. unfold ret. repeat split; lia.
  - destruct Q as (Qc & Qs & Qe).
    rewrite iterate_step.
    destruct (iteration_quiet st w) as (st1 & w1 & E & Hc1 & Hp1 & Hn).
    + rewrite Hc. apply Qc. lia.
    + intros s. rewrite Hp. apply Qs. lia.
    + intros F. destruct (Nat.lt_ge_cases (consecutiveErrors st) 2) as [|G]; [lia|].
      exfalso. assert (consecutiveErrors st = 2) as C2 by lia.
      apply (Qe (i - 2)); [lia|]. repeat split.
      * replace (i - 2) with (i - 1 - 1) by lia. apply Hf. lia.
      * replace (polls w0 + (i - 2) + 1) with (polls w0 + (i - 1 - 0)) by lia.
        apply Hf. lia.
      * replace (polls w0 + (i - 2) + 2) with (polls w) by lia. exact F.
    + rewrite E.
      destruct (IH (S i) st1 w1 w0) as (st2 & w2 & E2 & Hc2 & Hp2).
      * replace (S i + n) with (i + S n) by lia. exact (conj Qc (conj Qs Qe)).
      * lia.
      * lia.
      * rewrite Hn. destruct (pollFailed _); lia.
      * rewrite Hn. destruct (pollFailed _) eqn:F; [|lia].
        destruct (Nat.lt_ge_cases (consecutiveErrors st) 2) as [|G]; [lia|].
        exfalso. assert (consecutiveErrors st = 2) as C2 by lia.
        apply (Qe (i - 2)); [lia|]. repeat split.
        -- replace (i - 2) with (i - 1 - 1) by lia. apply Hf. lia.
        -- replace (polls w0 + (i - 2) + 1) with (polls w0 + (i - 1 - 0)) by lia.
           apply Hf. lia.
        -- replace (polls w0 + (i - 2) + 2) with (polls w) by lia. exact F.
      * rewrite Hn. intros j Hj. destruct (pollFailed _) eqn:F; [|lia].
        destruct j as [|j].
        -- replace (polls w0 + (S i - 1 - 0)) with (polls w) by lia. exact F.
        -- replace (S i - 1 - S j) with (i - 1 - j) by lia. apply Hf. lia.
      * exists st2, w2. repeat split; [exact E2|lia|lia].
Qed.

Lemma iteration_next_bound st w st1 w1 :
  iteration env domain orderID st w = (Next st1, w1) -> consecutiveErrors st1 <= 2.
Proof.
  run_iteration. split_iteration; pair_inv; cbn; try lia.
  apply Nat.leb_gt in Heqb. lia.
Qed.

Lemma iterate_return n : forall st w err w1,
  consecutiveErrors st <= 2 ->
  iterate env domain orderID n st w = (Return err, w1) ->
  exists evs, trace w1 = trace w ++ evs /\
    exitReason env orderID w n (consecutiveErrors st) evs err.
Proof.
  induction n as [|n IH]; intros st w err w1 Hc.
  - cbn. unfold ret. discriminate.
  - rewrite iterate_step.
    destruct (iteration env domain orderID st w) as [f0 w0] eqn:E.
    destruct f0 as [st0|err0].
    + intros H.
      pose proof (iteration_next_bound _ _ _ _ E) as Hc0.
      destruct (iteration_world _ _ _ _ E) as (evs0 & T0 & C0 & _).
      destruct (iteration_effect _ _ _ _ E) as (evs0' & T0' & _ & N0).
      assert (evs0' = evs0) as -> by
        (apply (app_inv_head (trace w)); now rewrite <- T0, <- T0').
      destruct (N0 _ eq_refl) as [S0 _].
      apply (IH _ _ _ _ Hc0) in H as (evs1 & T1 & R).
      exists (evs0 ++ evs1). split; [now rewrite T1, T0, app_assoc|].
      destruct R as [(e & k & -> & Hk & Hr)|[(s & pre & -> & Hs & ->)|
                    [(s & pre & -> & Hs & ->)|(e & pre & -> & -> & Hf)]]].
      * left. exists e, k. repeat split; [assumption|lia|lia].
      * right; left. exists s, (evs0 ++ pre). now rewrite app_assoc.
      * right; right; left. exists s, (evs0 ++ pre). now rewrite app_assoc.
      * right; right; right. exists e, (evs0 ++ pre).
        repeat split; [now rewrite app_assoc|].
        now rewrite failStreak_app, <- S0.
    + pair_inv.
      apply iteration_return in E
        as [(e & Hd & -> & T)|(Hd & [(s & Hp & Hs & -> & T)|
                                    [(s & Hp & Hs & -> & T)|(e & Hp & H2 & -> & T)]])].
      * exists []. split; [now rewrite app_nil_r|].
        left. exists e, (checks w). repeat split; [assumption|lia|lia].
      * eexists. split; [exact T|]. right; left. exists s, []. auto.
      * eexists. split; [exact T|]. right; right; left. exists s, []. auto.
      * eexists. split; [exact T|]. right; right; right. exists e, [].
        repeat split. cbn. lia.
Qed.

Lemma iterate_world n : forall st w f w1,
  iterate env domain orderID n st w = (f, w1) ->
  exists evs, trace w1 = trace w ++ evs /\
    checks w1 <= checks w + n /\
    polls w1 = polls w + count isPoll evs /\
    adds w1 = adds w + count isAddRecord evs /\
    fsops w1 = fsops w /\
    count isPoll evs <= n /\
    (forall st1, f = Next st1 -> count isPoll evs = n /\ checks w1 = checks w + n) /\
    Forall (fun e => loopEvent e = true) evs.
Proof.
  induction n as [|n IH]; intros st w f w1.
  - cbn. unfold ret. pair_inv. ex_events. cbn. repeat split; auto; lia.
  - rewrite iterate_step.
    destruct (iteration env domain orderID st w) as [f0 w0] eqn:E.
    apply iteration_world in E as (evs0 & T0 & C0 & P0 & A0 & F0 & B0 & N0 & K0).
    destruct f0 as [st0|err].
    + intros H. apply IH in H as (evs1 & T1 & C1 & P1 & A1 & F1 & B1 & N1 & K1).
      exists (evs0 ++ evs1). rewrite !count_app.
      specialize (N0 _ eq_refl).
      repeat split; try lia.
      * now rewrite T1, T0, app_assoc.
      * destruct (N1 _ H); lia.
      * destruct (N1 _ H); lia.
      * now apply Forall_app.
    + pair_inv. exists evs0. repeat split; try lia; try assumption; discriminate.
Qed.

End Loop.

Section LoopTheorems.
Variable env : Env.
Variables domain orderID : string.

Lemma waitForDNSValidation_iterate w :
  waitForDNSValidation env domain orderID w =
  let (f, w1) := iterate env domain orderID maxRetries initLoopState w in
  match f with
  | Return err => (err, w1)
  | Next _ => (Some (timeoutError orderID), w1)
  end.
Proof.
  unfold waitForDNSValidation, bind.
  destruct (iterate env domain orderID maxRetries initLoopState w) as [[st|err] w1];
    reflexivity.
Qed.

Lemma three_failed_polls w e0 e1 e2 :
  ctxDone env (checks w) = None ->
  ctxDone env (S (checks w)) = None ->
  ctxDone env (S (S (checks w))) = None ->
  getCertificateStatus env (polls w) orderID = inr e0 ->
  getCertificateStatus env (S (polls w)) orderID = inr e1 ->
  getCertificateStatus env (S (S (polls w))) orderID = inr e2 ->
  waitForDNSValidation env domain orderID w =
  (Some (wrapError "连续获取证书状态失败: " e2),
   {| polls := S (S (S (polls w))); adds := adds w;
      checks := S (S (S (checks w))); fsops := fsops w;
      trace := trace w ++
        [EvGetCertificateStatus orderID (inr e0); EvSleep 10;
         EvGetCertificateStatus orderID (inr e1); EvSleep 10;
         EvGetCertificateStatus orderID (inr e2)] |}).
Proof.
  intros C0 C1 C2 P0 P1 P2.
  rewrite waitForDNSValidation_iterate. unfold maxRetries.
  rewrite iterate_step, (iteration_poll_failed _ _ _ _ _ e0 C0 P0). norm. cbn [Nat.leb consecutiveErrors initLoopState].
  rewrite iterate_step, (iteration_poll_failed _ _ _ _ _ e1); [|exact C1|exact P1].
  norm. cbn [Nat.leb consecutiveErrors].
  rewrite iterate_step, (iteration_poll_failed _ _ _ _ _ e2); [|exact C2|exact P2].
  norm. cbn [Nat.leb consecutiveErrors].
  now rewrite <- !app_assoc.
Qed.

End LoopTheorems.

(** ** Persistence *)

Ltac run_save :=
  unfold storage.SaveCertificate, bind, ret, MkdirAll, WriteFile; norm.

Lemma eqb_append_same (d a b : string) :
  String.eqb (d ++ a) (d ++ b) = String.eqb a b.
Proof.
  induction d as [|c d IH]; [reflexivity|].
  cbn. now rewrite Ascii.eqb_refl.
Qed.

(** *** Paths *)

Lemma append_assoc (a b c : string) : ((a ++ b) ++ c)%string = (a ++ b ++ c)%string.
Proof. induction a as [|x a IH]; cbn; [reflexivity|now rewrite IH]. Qed.

Lemma SplitSlash_nonempty (s : string) : storage.SplitSlash s <> [].
Proof.
  destruct s as [|c r]; cbn; [discriminate|].
  destruct (Ascii.eqb c "/"); [discriminate|].
  destruct (storage.SplitSlash r); discriminate.
Qed.

Lemma SplitSlash_app (a b : string) :
  storage.SplitSlash (a ++ "/" ++ b) = storage.SplitSlash a ++ storage.SplitSlash b.
Proof.
  induction a as [|c r IH]; [reflexivity|].
  cbn [append storage.SplitSlash] in IH |- *. rewrite IH.
  destruct (Ascii.eqb c "/"); [reflexivity|].
  pose proof (SplitSlash_nonempty r) as H.
  destruct (storage.SplitSlash r); [contradiction|reflexivity].
Qed.

Lemma SplitSlash_element (x : string) :
  lacks "/" x = true -> storage.SplitSlash x = [x].
Proof.
  induction x as [|c r IH]; [reflexivity|].
  cbn. destruct (Ascii.eqb c "/"); [discriminate|].
  cbn. intros H. now rewrite (IH H).
Qed.

Lemma SplitSlash_lacks (s : string) :
  Forall (fun x => lacks "/" x = true) (storage.SplitSlash s).
Proof.
  induction s as [|c r IH]; [repeat constructor|].
  cbn [storage.SplitSlash]. destruct (Ascii.eqb c "/") eqn:E.
  - constructor; [reflexivity|exact IH].
  - destruct (storage.SplitSlash r) as [|x xs]; [repeat constructor; cbn; now rewrite E|].
    inversion IH; subst. constructor; [|assumption]. cbn. now rewrite E.
Qed.

Lemma SplitSlash_concat (l : list string) :
  l <> [] -> Forall (fun x => lacks "/" x = true) l ->
  storage.SplitSlash (String.concat "/" l) = l.
Proof.
  induction l as [|x [|y l] IH]; intros Hne Hl; [contradiction| |].
  - inversion Hl; subst. now apply SplitSlash_element.
  - inversion Hl; subst.
    change (String.concat "/" (x :: y :: l))
      with (x ++ "/" ++ String.concat "/" (y :: l))%string.
    rewrite SplitSlash_app, SplitSlash_element by assumption.
    cbn [app]. f_equal. apply IH; [discriminate|assumption].
Qed.

Lemma cleanStep_plain (r : bool) (st : list string) (c : string) :
  plainName c = true -> storage.cleanStep r st c = c :: st.
Proof.
  unfold plainName, storage.cleanStep. intros H.
  apply andb_prop in H as [H H3]. apply andb_prop in H as [H H2].
  apply andb_prop in H as [_ H1].
  apply negb_true_iff in H1, H2, H3. now rewrite H1, H2, H3.
Qed.

Lemma cleanStep_cleanStack (r : bool) (st : list string) (x : string) :
  lacks "/" x = true -> cleanStack r st -> cleanStack r (storage.cleanStep r st x).
Proof.
  intros Hx Hst. unfold storage.cleanStep.
  destruct (String.eqb_spec x "") as [->|H0]; [exact Hst|].
  destruct (String.eqb_spec x ".") as [->|H1]; [exact Hst|]. cbn [orb].
  destruct (String.eqb_spec x "..") as [->|H2].
  - destruct st as [|top rest].
    + destruct r; cbn; [exact I|]. repeat split; try discriminate. constructor.
    + destruct (String.eqb_spec top "..") as [->|Ht].
      * cbn in Hst. destruct Hst as (_ & _ & _ & Hd & Hrest).
        destruct (Hd eq_refl) as [Hr Hall].
        cbn [cleanStack].
        split; [reflexivity|]. split; [discriminate|]. split; [discriminate|].
        split; [intros _; split; [exact Hr|now constructor]|].
        split; [reflexivity|]. split; [discriminate|]. split; [discriminate|].
        split; [exact Hd|exact Hrest].
      * cbn in Hst. tauto.
  - cbn [cleanStack]. split; [exact Hx|]. split; [exact H0|]. split; [exact H1|].
    split; [intros E; contradiction|exact Hst].
Qed.

Lemma fold_cleanStep_cleanStack (r : bool) (l st : list string) :
  Forall (fun x => lacks "/" x = true) l -> cleanStack r st ->
  cleanStack r (fold_left (storage.cleanStep r) l st).
Proof.
  revert st. induction l as [|x l IH]; intros st Hl Hst; [exact Hst|].
  inversion Hl; subst. cbn. apply IH; [assumption|].
  now apply cleanStep_cleanStack.
Qed.

Lemma cleanStack_lacks (r : bool) (st : list string) :
  cleanStack r st -> Forall (fun x => lacks "/" x = true) st.
Proof.
  induction st as [|x st IH]; [constructor|].
  cbn. intros (H & _ & _ & _ & Hrest). constructor; [exact H|now apply IH].
Qed.

(** Reading the elements of a cleaned path again gives them back. *)
Lemma fold_cleanStep_rev (r : bool) (st : list string) :
  cleanStack r st -> fold_left (storage.cleanStep r) (rev st) [] = st.
Proof.
  induction st as [|x st IH]; [reflexivity|].
  cbn [cleanStack rev]. intros (Hx & H0 & H1 & Hd & Hrest).
  rewrite fold_left_app, (IH Hrest). cbn [fold_left].
  unfold storage.cleanStep.
  apply String.eqb_neq in H0, H1. rewrite H0, H1. cbn [orb].
  destruct (String.eqb_spec x "..") as [->|H2]; [|reflexivity].
  destruct (Hd eq_refl) as [-> Hall].
  destruct st as [|top rest]; [reflexivity|].
  inversion Hall; subst. reflexivity.
Qed.

Lemma rooted_append (s t : string) :
  s <> "" -> storage.rooted (s ++ t) = storage.rooted s.
Proof. destruct s; [contradiction|reflexivity]. Qed.

Lemma concat_snoc (l : list string) (c : string) :
  String.concat "/" (l ++ [c]) =
  ((match l with [] => "" | _ => String.concat "/" l ++ "/" end) ++ c)%string.
Proof.
  induction l as [|x [|y l] IH]; [reflexivity| |].
  { change (x ++ "/" ++ c = (x ++ "/") ++ c)%string. symmetry. apply append_assoc. }
  change (String.concat "/" ((x :: y :: l) ++ [c]))
    with (x ++ "/" ++ String.concat "/" ((y :: l) ++ [c]))%string.
  rewrite IH.
  change (String.concat "/" (x :: y :: l))
    with (x ++ "/" ++ String.concat "/" (y :: l))%string.
  now rewrite !append_assoc.
Qed.

(** The directory part of a rendered path, up to its last separator. *)
Definition renderDir (r : bool) (st : list string) : string :=
  ((if r then "/" else "") ++
   match st with [] => "" | _ => String.concat "/" (rev st) ++ "/" end)%string.

Lemma render_push (r : bool) (st : list string) (c : string) :
  storage.render r (c :: st) = (renderDir r st ++ c)%string.
Proof.
  unfold storage.render, renderDir. cbn [rev].
  rewrite concat_snoc, append_assoc.
  destruct (rev st) eqn:E.
  - apply (f_equal (@rev string)) in E. rewrite rev_involutive in E. subst. reflexivity.
  - destruct st; [discriminate|reflexivity].
Qed.

Lemma concat_first (x : string) (l : list string) :
  x <> "" -> lacks "/" x = true ->
  String.concat "/" (x :: l) <> "" /\ storage.rooted (String.concat "/" (x :: l)) = false.
Proof.
  intros H0 Hx. destruct x as [|c x]; [contradiction|].
  cbn in Hx. apply andb_prop in Hx as [Hc _]. apply negb_true_iff in Hc.
  destruct l; cbn; (split; [discriminate|exact Hc]).
Qed.

Lemma cleanStack_last (r : bool) (st : list string) :
  cleanStack r st -> st <> [] ->
  exists x l, rev st = x :: l /\ x <> "" /\ lacks "/" x = true.
Proof.
  intros Hst Hne.
  assert (H : Forall (fun x => x <> "" /\ lacks "/" x = true) (rev st)).
  { apply Forall_rev. induction st as [|x st IH]; [constructor|].
    cbn in Hst. destruct Hst as (Hx & H0 & _ & _ & Hrest).
    constructor; [tauto|]. destruct st; [constructor|]. apply IH; [exact Hrest|discriminate]. }
  destruct (rev st) as [|x l] eqn:E.
  - apply (f_equal (@rev string)) in E. rewrite rev_involutive in E. contradiction.
  - inversion H; subst. exists x, l. tauto.
Qed.

Lemma render_rooted (r : bool) (st : list string) :
  cleanStack r st ->
  storage.render r st <> "" /\ storage.rooted (storage.render r st) = r.
Proof.
  intros Hst. unfold storage.render.
  destruct st as [|x st].
  - destruct r; cbn; (split; [discriminate|reflexivity]).
  - destruct r; [cbn; split; [discriminate|reflexivity]|].
    destruct (cleanStack_last false (x :: st) Hst) as (y & l & E & H0 & Hy);
      [discriminate|].
    rewrite E. cbn [append]. now apply concat_first.
Qed.

Lemma render_read (r : bool) (st : list string) :
  cleanStack r st ->
  fold_left (storage.cleanStep r) (storage.SplitSlash (storage.render r st)) [] = st.
Proof.
  intros Hst. unfold storage.render.
  destruct st as [|x st].
  - destruct r; reflexivity.
  - assert (Hsplit : storage.SplitSlash (String.concat "/" (rev (x :: st)))
                     = rev (x :: st)).
    { apply SplitSlash_concat.
      - intros H. apply (f_equal (@rev string)) in H.
        rewrite rev_involutive in H. discriminate.
      - apply Forall_rev. now apply (cleanStack_lacks r). }
    destruct r.
    + change ("/" ++ String.concat "/" (rev (x :: st)))%string
        with ("" ++ "/" ++ String.concat "/" (rev (x :: st)))%string.
      rewrite SplitSlash_app, Hsplit. cbn [storage.SplitSlash app fold_left].
      change (storage.cleanStep true [] "") with (@nil string).
      now apply fold_cleanStep_rev.
    + cbn [append]. rewrite Hsplit. now apply fold_cleanStep_rev.
Qed.

(** The elements kept after reading a path. *)
Definition kept (path : string) : list string :=
  fold_left (storage.cleanStep (storage.rooted path)) (storage.SplitSlash path) [].

Lemma kept_cleanStack (path : string) : cleanStack (storage.rooted path) (kept path).
Proof.
  apply fold_cleanStep_cleanStack; [apply SplitSlash_lacks|exact I].
Qed.

Lemma Clean_file (path c : string) :
  path <> "" -> plainName c = true ->
  storage.Clean (path ++ "/" ++ c) =
  (renderDir (storage.rooted path) (kept path) ++ c)%string.
Proof.
  intros Hne Hc. unfold storage.Clean.
  rewrite rooted_append by exact Hne.
  rewrite SplitSlash_app, fold_left_app.
  assert (Hl : lacks "/" c = true).
  { unfold plainName in Hc. now repeat (apply andb_prop in Hc as [Hc _]). }
  rewrite (SplitSlash_element c Hl). cbn [fold_left].
  rewrite cleanStep_plain by exact Hc.
  apply render_push.
Qed.

Lemma Clean_plain (c : string) : plainName c = true -> storage.Clean c = c.
Proof.
  intros Hc. unfold storage.Clean.
  assert (Hl : lacks "/" c = true).
  { unfold plainName in Hc. now repeat (apply andb_prop in Hc as [Hc _]). }
  rewrite (SplitSlash_element c Hl). cbn [fold_left].
  rewrite cleanStep_plain by exact Hc.
  rewrite render_push.
  destruct c as [|a c]; [discriminate|].
  cbn in Hl. apply andb_prop in Hl as [Ha _]. apply negb_true_iff in Ha.
  unfold renderDir. cbn. now rewrite Ha.
Qed.

Lemma Clean_Clean_file (path c : string) :
  path <> "" -> plainName c = true ->
  storage.Clean (storage.Clean path ++ "/" ++ c) = storage.Clean (path ++ "/" ++ c).
Proof.
  intros Hne Hc.
  pose proof (kept_cleanStack path) as Hst.
  destruct (render_rooted _ _ Hst) as [Hr0 Hr].
  rewrite (Clean_file path c Hne Hc).
  unfold storage.Clean at 2. fold (kept path).
  rewrite (Clean_file _ c Hr0 Hc).
  assert (K : kept (storage.render (storage.rooted path) (kept path)) = kept path).
  { unfold kept at 1. rewrite Hr. now apply render_read. }
  now rewrite K, Hr.
Qed.

Lemma Clean_nonempty (path : string) : storage.Clean path <> "".
Proof. apply (render_rooted _ _ (kept_cleanStack path)). Qed.

Lemma Join_skip (l : list string) : storage.Join ("" :: l) = storage.Join l.
Proof. reflexivity. Qed.

Lemma Join_cons (a : string) (l : list string) :
  a <> "" -> storage.Join (a :: l) = storage.Clean (String.concat "/" (a :: l)).
Proof.
  intros Ha. unfold storage.Join. cbn [storage.dropEmpty].
  apply String.eqb_neq in Ha. now rewrite Ha.
Qed.

(** A file name joined to a joined directory is the three elements joined. *)
Lemma Join_nested (a b c : string) :
  plainName c = true ->
  storage.Join [storage.Join [a; b]; c] = storage.Join [a; b; c].
Proof.
  intros Hc.
  destruct (String.eqb_spec a "") as [->|Ha].
  - destruct (String.eqb_spec b "") as [->|Hb]; [reflexivity|].
    rewrite !Join_skip, (Join_cons b [c] Hb), (Join_cons b [] Hb).
    rewrite Join_cons by apply Clean_nonempty.
    change (String.concat "/" [b]) with b.
    change (String.concat "/" [storage.Clean b; c])
      with (storage.Clean b ++ "/" ++ c)%string.
    now apply Clean_Clean_file.
  - assert (Hp : (a ++ "/" ++ b)%string <> "") by (destruct a; [contradiction|discriminate]).
    rewrite (Join_cons a [b; c] Ha), (Join_cons a [b] Ha).
    rewrite Join_cons by apply Clean_nonempty.
    change (String.concat "/" [a; b]) with (a ++ "/" ++ b)%string.
    change (String.concat "/" [a; b; c]) with (a ++ "/" ++ b ++ "/" ++ c)%string.
    change (String.concat "/" [storage.Clean (a ++ "/" ++ b); c])
      with (storage.Clean (a ++ "/" ++ b) ++ "/" ++ c)%string.
    rewrite Clean_Clean_file by assumption.
    now rewrite !append_assoc.
Qed.

(** The paths of the files of one domain share their directory part. *)
Lemma Join_file (a b : string) :
  exists dir, forall c, plainName c = true -> storage.Join [a; b; c] = (dir ++ c)%string.
Proof.
  destruct (String.eqb_spec a "") as [->|Ha].
  - destruct (String.eqb_spec b "") as [->|Hb].
    + exists "". intros c Hc.
      assert (Hc0 : c <> "") by (intros ->; discriminate).
      rewrite !Join_skip, (Join_cons c [] Hc0).
      now apply Clean_plain.
    + exists (renderDir (storage.rooted b) (kept b)). intros c Hc.
      rewrite Join_skip, (Join_cons b [c] Hb).
      now apply Clean_file.
  - exists (renderDir (storage.rooted (a ++ "/" ++ b)) (kept (a ++ "/" ++ b))).
    intros c Hc. rewrite (Join_cons a [b; c] Ha).
    change (String.concat "/" [a; b; c]) with (a ++ "/" ++ b ++ "/" ++ c)%string.
    replace (a ++ "/" ++ b ++ "/" ++ c)%string with ((a ++ "/" ++ b) ++ "/" ++ c)%string
      by now rewrite !append_assoc.
    apply Clean_file; [|exact Hc]. destruct a; [contradiction|discriminate].
Qed.

Example Join_examples :
  storage.Join ["./certs"; "www.example.com"; "cert.pem"]
    = "certs/www.example.com/cert.pem" /\
  storage.Join ["/etc/ssl/"; "example.com"; "key.pem"] = "/etc/ssl/example.com/key.pem" /\
  storage.Join [""; "example.com"] = "example.com" /\
  storage.Join [""; ""] = "" /\
  storage.Join ["a/b"; "../../../xyz"] = "../xyz" /\
  storage.Join ["/"; ".."; "certs//"; "."] = "/certs".
Proof. repeat split. Qed.

Lemma cert_path_is_not_key_path (s : storage.FileStorage) (domain : string) :
  String.eqb (storage.GetCertPath s domain) (storage.GetKeyPath s domain) = false.
Proof.
  unfold storage.GetCertPath, storage.GetKeyPath.
  destruct (Join_file (storage.baseDir s) domain) as [dir H].
  rewrite !H by reflexivity. now rewrite eqb_append_same.
Qed.

Lemma fullchain_path_is_not_key_path (s : storage.FileStorage) (domain : string) :
  String.eqb (storage.GetFullchainPath s domain) (storage.GetKeyPath s domain) = false.
Proof.
  unfold storage.GetFullchainPath, storage.GetKeyPath.
  destruct (Join_file (storage.baseDir s) domain) as [dir H].
  rewrite !H by reflexivity. now rewrite eqb_append_same.
Qed.

Lemma SaveCertificate_effect (env : Env) (s : storage.FileStorage) (domain : string)
    (cert : provider.Certificate) (w : World) :
  exists evs,
    trace (snd (storage.SaveCertificate env s domain cert w)) = trace w ++ evs /\
    sameCalls w (snd (storage.SaveCertificate env s domain cert w)) /\
    Forall (fun e => fsEvent e = true) evs /\
    (fst (storage.SaveCertificate env s domain cert w) = None <->
       mkdirAll env (fsops w) (storage.GetCertDir s domain) = None /\
       writeFile env (S (fsops w)) (storage.GetCertPath s domain) = None /\
       (provider.PrivateKey cert <> "" ->
        writeFile env (S (S (fsops w))) (storage.GetKeyPath s domain) = None)) /\
    (provider.PrivateKey cert = "" ->
       count (isWriteTo (storage.GetKeyPath s domain)) evs = 0) /\
    (fst (storage.SaveCertificate env s domain cert w) = None ->
       evs = [EvMkdirAll (storage.GetCertDir s domain) 493 None;
              EvWriteFile (storage.GetCertPath s domain)
                (provider.CertificatePEM cert) 420 None] ++
             (if String.eqb (provider.PrivateKey cert) "" then []
              else [EvWriteFile (storage.GetKeyPath s domain)
                      (provider.PrivateKey cert) 384 None]) ++
             [EvWriteFile (storage.GetFullchainPath s domain)
                (if String.eqb (provider.Chain cert) ""
                 then provider.CertificatePEM cert else provider.Chain cert) 420
                (writeFile env
                   (if String.eqb (provider.PrivateKey cert) ""
                    then S (S (fsops w)) else S (S (S (fsops w))))
                   (storage.GetFullchainPath s domain))]).
Proof.
  pose proof (cert_path_is_not_key_path s domain) as Kc.
  pose proof (fullchain_path_is_not_key_path s domain) as Kf.
  run_save. rewrite !Join_nested by reflexivity.
  change (storage.Join [storage.baseDir s; domain]) with (storage.GetCertDir s domain).
  change (storage.Join [storage.baseDir s; domain; "cert.pem"])
    with (storage.GetCertPath s domain) in *.
  change (storage.Join [storage.baseDir s; domain; "key.pem"])
    with (storage.GetKeyPath s domain) in *.
  change (storage.Join [storage.baseDir s; domain; "fullchain.pem"])
    with (storage.GetFullchainPath s domain) in *.
  unfold sameCalls.
  destruct (mkdirAll env (fsops w) (storage.GetCertDir s domain)) eqn:Hm; norm;
    [|destruct (writeFile env (S (fsops w)) (storage.GetCertPath s domain)) eqn:Hc; norm;
      [|destruct (String.eqb_spec (provider.PrivateKey cert) "") as [Hk|Hk];
        norm; cbn [negb]; norm;
        [|destruct (writeFile env (S (S (fsops w))) (storage.GetKeyPath s domain))
            eqn:Hw; norm]]].
  all: ex_events; repeat split.
  all: try (repeat constructor; fail).
  all: try discriminate; try congruence.
  all: try (intros _; unfold count; cbn [app filter isWriteTo]; rewrite ?Kc, ?Kf;
            reflexivity).
  all: intros; intuition (try congruence; try discriminate).
Qed.

(** ** The online validator *)

Lemma existsb_false_iff {A : Type} (f : A -> bool) (l : list A) :
  existsb f l = false <-> forall x, In x l -> f x = false.
Proof.
  induction l as [|a l IH]; cbn.
  - split; [intros _ x []|reflexivity].
  - rewrite orb_false_iff, IH. split.
    + intros [Ha Hl] x [<-|Hx]; auto.
    + intros H. split; [apply H; now left|intros x Hx; apply H; now right].
Qed.

Ltac run_validator :=
  unfold NeedRenew, CheckCertExpiry, bind, ret, TLSDial, emit; norm.

Lemma NeedRenew_effect (env : Env) (domain : string) (renewDays : Z) (w : World) :
  exists evs,
    trace (snd (NeedRenew env domain renewDays w)) = trace w ++ evs /\
    polls (snd (NeedRenew env domain renewDays w)) = polls w /\
    adds (snd (NeedRenew env domain renewDays w)) = adds w /\
    checks (snd (NeedRenew env domain renewDays w)) = checks w /\
    fsops (snd (NeedRenew env domain renewDays w)) = fsops w /\
    evs = [EvTLSDial (domain ++ ":443") (tlsDial env (domain ++ ":443"))].
Proof.
  run_validator.
  destruct (tlsDial env (domain ++ ":443")) as [[|cert rest]|e]; norm;
    try destruct (negb _); norm; eexists; repeat split.
Qed.

(** ** Kinds of events a computation leaves *)

Lemma emitsOnly_ret {A : Type} (P : Event -> bool) (a : A) : emitsOnly P (ret a).
Proof. intros w. exists []. cbn. now rewrite app_nil_r. Qed.

Lemma emitsOnly_bind {A B : Type} (P : Event -> bool) (m : M A) (f : A -> M B) :
  emitsOnly P m -> (forall a, emitsOnly P (f a)) -> emitsOnly P (bind m f).
Proof.
  intros Hm Hf w. unfold bind. destruct (Hm w) as (evs0 & T0 & F0).
  destruct (m w) as [a w0]. cbn [snd] in T0.
  destruct (Hf a w0) as (evs1 & T1 & F1).
  exists (evs0 ++ evs1). split.
  - now rewrite T1, T0, app_assoc.
  - now rewrite forallb_app, F0, F1.
Qed.

Lemma emitsOnly_count {A : Type} (P Q : Event -> bool) (m : M A) :
  emitsOnly P m -> (forall e, P e = true -> Q e = false) ->
  forall w, exists evs, trace (snd (m w)) = trace w ++ evs /\ count Q evs = 0.
Proof.
  intros Hm HPQ w. destruct (Hm w) as (evs & T & F). exists evs. split; [exact T|].
  clear T. unfold count. induction evs as [|e evs IH]; [reflexivity|].
  cbn in F. apply andb_prop in F as [Fe F]. cbn. rewrite (HPQ e Fe). now apply IH.
Qed.

Ltac emits_step :=
  first
    [ apply emitsOnly_ret
    | apply emitsOnly_bind; [|intros ?]
    | match goal with
      | |- emitsOnly _ (match ?x with _ => _ end) => destruct x
      | |- emitsOnly _ (let '(_, _) := ?x in _) => destruct x
      end
    | progress (cbv beta zeta) ].

Section EventKinds.
Variable env : Env.
Variable P : Event -> bool.
Hypothesis HP : forall e, isExec e = false -> P e = true.

Ltac emits_call :=
  let w := fresh "w" in
  intros w; eexists; split; [reflexivity|]; cbn; rewrite HP; reflexivity.

Lemma polls_kind orderID : emitsOnly P (GetCertificateStatus env orderID).
Proof. emits_call. Qed.
Lemma adds_kind d rr t v : emitsOnly P (AddRecord env d rr t v).
Proof. emits_call. Qed.
Lemma ctx_kind : emitsOnly P (CtxDone env).
Proof. intros w. exists []. cbn. now rewrite app_nil_r. Qed.
Lemma range_kind vars : emitsOnly P (RangeVars env vars).
Proof. intros w. exists []. cbn. now rewrite app_nil_r. Qed.
Lemma cachedCert_kind name : emitsOnly P (CachedCertProvider name).
Proof. intros w. exists []. cbn. now rewrite app_nil_r. Qed.
Lemma cachedDNS_kind name : emitsOnly P (CachedDNSProvider name).
Proof. intros w. exists []. cbn. now rewrite app_nil_r. Qed.
Lemma sleep_kind n : emitsOnly P (Sleep n).
Proof. emits_call. Qed.
Lemma download_kind orderID : emitsOnly P (DownloadCertificate env orderID).
Proof. emits_call. Qed.
Lemma mkdir_kind path perm : emitsOnly P (MkdirAll env path perm).
Proof. emits_call. Qed.
Lemma write_kind path data perm : emitsOnly P (WriteFile env path data perm).
Proof. emits_call. Qed.
Lemma newCert_kind name : emitsOnly P (NewCertProvider env name).
Proof. emits_call. Qed.
Lemma newDNS_kind name : emitsOnly P (NewDNSProvider env name).
Proof. emits_call. Qed.
Lemma find_kind domain minDays : emitsOnly P (FindValidCertificate env domain minDays).
Proof. emits_call. Qed.
Lemma detail_kind certID : emitsOnly P (GetCertificateDetail env certID).
Proof. emits_call. Qed.
Lemma apply_kind domain : emitsOnly P (ApplyCertificate env domain).
Proof. emits_call. Qed.
Lemma dial_kind addr : emitsOnly P (TLSDial env addr).
Proof. emits_call. Qed.

Ltac emits_prim :=
  first [ apply polls_kind | apply adds_kind | apply ctx_kind
        | apply cachedCert_kind | apply cachedDNS_kind | apply range_kind
        | apply sleep_kind | apply download_kind | apply mkdir_kind
        | apply write_kind | apply newCert_kind | apply newDNS_kind
        | apply find_kind | apply detail_kind | apply apply_kind
        | apply dial_kind ].

Ltac emits := repeat first [emits_prim | emits_step].

Lemma iteration_kind domain orderID st :
  emitsOnly P (iteration env domain orderID st).
Proof. unfold iteration. emits. Qed.

Lemma iterate_kind domain orderID n : forall st,
  emitsOnly P (iterate env domain orderID n st).
Proof.
  induction n as [|n IH]; intros st; cbn [iterate]; [apply emitsOnly_ret|].
  apply emitsOnly_bind; [apply iteration_kind|].
  intros [st1|err]; [apply IH|apply emitsOnly_ret].
Qed.

Lemma waitForDNSValidation_kind domain orderID :
  emitsOnly P (waitForDNSValidation env domain orderID).
Proof.
  unfold waitForDNSValidation. apply emitsOnly_bind; [apply iterate_kind|].
  intros [st|err]; apply emitsOnly_ret.
Qed.

Lemma SaveCertificate_kind s domain cert :
  emitsOnly P (storage.SaveCertificate env s domain cert).
Proof. unfold storage.SaveCertificate. emits. Qed.

Lemma GetCertProvider_kind cfg name : emitsOnly P (GetCertProvider env cfg name).
Proof. unfold GetCertProvider. emits. Qed.

Lemma GetDNSProvider_kind cfg name : emitsOnly P (GetDNSProvider env cfg name).
Proof. unfold GetDNSProvider. emits. Qed.

Lemma NeedRenew_kind domain renewDays : emitsOnly P (NeedRenew env domain renewDays).
Proof. unfold NeedRenew, CheckCertExpiry. emits. Qed.

Lemma ContinueOrder_kind m orderID domain certProviderName dnsProviderName :
  emitsOnly P (ContinueOrder env m orderID domain certProviderName dnsProviderName).
Proof.
  unfold ContinueOrder.
  repeat first
    [ apply GetCertProvider_kind | apply GetDNSProvider_kind
    | apply waitForDNSValidation_kind | apply SaveCertificate_kind
    | emits_prim | emits_step ].
Qed.

(** The rest of [ProcessDomain] once the reuse of a certificate has been
    given up leaves its events after those already there, if the post command
    may leave its own. *)
Hypothesis HX : forall e, isExec e = true -> P e = true.

Lemma runPostCommand_kind m domainCfg : emitsOnly P (runPostCommand env m domainCfg).
Proof.
  unfold runPostCommand, RunPostCommand.
  repeat first
    [ apply range_kind | emits_step
    | (intros w; eexists; split; [reflexivity|]; cbn; rewrite HX; reflexivity) ].
Qed.

Lemma ProcessDomain_kind m domainCfg : emitsOnly P (ProcessDomain env m domainCfg).
Proof.
  unfold ProcessDomain, acquireNew, GetProvidersForDomain.
  repeat first
    [ apply GetCertProvider_kind | apply GetDNSProvider_kind
    | apply waitForDNSValidation_kind | apply SaveCertificate_kind
    | apply NeedRenew_kind | apply runPostCommand_kind
    | emits_prim | emits_step ].
Qed.

End EventKinds.

Lemma notExec_kind (e : Event) : isExec e = false -> notExec e = true.
Proof. unfold notExec. now intros ->. Qed.

(** ** Resuming an order *)

Ltac run_resume :=
  unfold ContinueOrder, bind, ret, GetCertificateStatus, DownloadCertificate, emit; norm.

(** X28: the resume entry point, once the two providers are there, polls
    first; a failed poll ends the run; on the status [certificate] it goes
    straight to the fetch and the persistence, without another poll; on any
    other status it runs the validation polling loop from its initial state
    and then fetches and persists.  No run of the resume entry point invokes
    the post command. *)
Theorem resume_polls_then_fetches (env : Env) (m : Manager)
    (orderID domain certProviderName dnsProviderName : string) (w wa wb : World) :
  GetCertProvider env (config_ m) certProviderName w = (None, wa) ->
  GetDNSProvider env (config_ m) dnsProviderName wa = (None, wb) ->
  (forall err,
     getCertificateStatus env (polls wb) orderID = inr err ->
     ContinueOrder env m orderID domain certProviderName dnsProviderName w =
     (Some (wrapError "获取订单状态失败: " err),
      snd (GetCertificateStatus env orderID wb))) /\
  (forall status,
     getCertificateStatus env (polls wb) orderID = inl status ->
     provider.Status status = "certificate" ->
     ContinueOrder env m orderID domain certProviderName dnsProviderName w =
     let (c, w1) := DownloadCertificate env orderID
                      (snd (GetCertificateStatus env orderID wb)) in
     match c with
     | inr err => (Some (wrapError "下载证书失败: " err), w1)
     | inl cert => storage.SaveCertificate env (storage_ m) domain cert w1
     end) /\
  (forall status,
     getCertificateStatus env (polls wb) orderID = inl status ->
     provider.Status status <> "certificate" ->
     ContinueOrder env m orderID domain certProviderName dnsProviderName w =
     let (v, w1) := waitForDNSValidation env domain orderID
                      (snd (GetCertificateStatus env orderID wb)) in
     match v with
     | Some err => (Some (wrapError "域名验证失败: " err), w1)
     | None =>
       let (c, w2) := DownloadCertificate env orderID w1 in
       match c with
       | inr err => (Some (wrapError "下载证书失败: " err), w2)
       | inl cert =>
         let (sv, w3) := storage.SaveCertificate env (storage_ m) domain cert w2 in
         match sv with
         | Some err => (Some (wrapError "保存证书失败: " err), w3)
         | None => (None, w3)
         end
       end
     end) /\
  (exists evs,
     trace (snd (ContinueOrder env m orderID domain certProviderName dnsProviderName w))
       = trace w ++ evs /\
     count isExec evs = 0).
Proof.
  intros Ha Hb. repeat split.
  - intros err Hp. run_resume. rewrite Ha; norm. rewrite Hb; norm. now rewrite Hp.
  - intros status Hp Hs. run_resume. rewrite Ha; norm. rewrite Hb; norm.
    rewrite Hp; norm. rewrite Hs. cbn [String.eqb Ascii.eqb Bool.eqb]; norm.
    destruct (downloadCertificate env orderID); reflexivity.
  - intros status Hp Hs. run_resume. rewrite Ha; norm. rewrite Hb; norm.
    rewrite Hp; norm. apply String.eqb_neq in Hs. rewrite Hs; norm.
    destruct (waitForDNSValidation _ _ _ _) as [[err|] w1]; norm; [reflexivity|].
    destruct (downloadCertificate env orderID); norm; [|reflexivity].
    destruct (storage.SaveCertificate _ _ _ _ _) as [[err|] w3]; reflexivity.
  - apply (emitsOnly_count notExec);
      [apply ContinueOrder_kind, notExec_kind|].
    intros e. unfold notExec. now destruct (isExec e).
Qed.

(** ** Reusing an issued certificate *)

Lemma count_none (Q R : Event -> bool) (evs : list Event) :
  Forall (fun e => Q e = true) evs ->
  (forall e, Q e = true -> R e = false) ->
  count R evs = 0.
Proof.
  intros F HQR. unfold count. induction F as [|e evs He _ IH]; [reflexivity|].
  cbn. now rewrite (HQR e He).
Qed.

Lemma GetProvidersForDomain_effect (env : Env) (cfg : config.Config)
    (domainCfg : config.DomainConfig) (w : World) :
  exists evs,
    trace (snd (GetProvidersForDomain env cfg domainCfg w)) = trace w ++ evs /\
    sameCalls w (snd (GetProvidersForDomain env cfg domainCfg w)) /\
    fsops (snd (GetProvidersForDomain env cfg domainCfg w)) = fsops w /\
    Forall (fun e => providerEvent e = true) evs.
Proof.
  unfold GetProvidersForDomain, GetCertProvider, GetDNSProvider, bind, ret,
    CachedCertProvider, CachedDNSProvider, NewCertProvider, NewDNSProvider, emit,
    sameCalls.
  repeat match goal with
  | |- context [if ?b then _ else _] => destruct b; norm
  | |- context [match ?x with Some _ => _ | None => _ end] => destruct x; norm
  end.
  all: ex_events; repeat split; repeat constructor.
Qed.

Lemma runPostCommand_effect (env : Env) (m : Manager)
    (domainCfg : config.DomainConfig) (w : World) :
  exists evs,
    trace (snd (runPostCommand env m domainCfg w)) = trace w ++ evs /\
    Forall (fun e => isExec e = true) evs.
Proof.
  unfold runPostCommand, RunPostCommand, RangeVars, bind, ret, ExecCommand, emit.
  repeat match goal with
  | |- context [if ?b then _ else _] => destruct b; norm
  | |- context [match ?x with Some _ => _ | None => _ end] => destruct x; norm
  end.
  all: ex_events; repeat constructor.
Qed.

Ltac run_process :=
  unfold ProcessDomain, bind, ret, FindValidCertificate, GetCertificateDetail, emit;
  norm.


(** ** The loop body, status by status *)

Section Statuses.
Variable env : Env.
Variables domain orderID : string.

Lemma hasChallenge_inv (s : provider.CertificateStatus) :
  hasChallenge s = true ->
  String.eqb (provider.Status s) "domain_verify" = true /\
  String.eqb (provider.RecordDomain s) "" || String.eqb (provider.RecordValue s) ""
    = false.
Proof.
  unfold hasChallenge. intros H. apply andb_prop in H as [H1 H2].
  split; [exact H1|]. now apply negb_true_iff in H2.
Qed.

Lemma iteration_write st w s res :
  ctxDone env (checks w) = None ->
  getCertificateStatus env (polls w) orderID = inl s ->
  mustWrite st s = true ->
  addRecord env (adds w) domain (provider.RecordDomain s) (provider.RecordType s)
    (provider.RecordValue s) = res ->
  iteration env domain orderID st w =
  (Next (match res with
         | None => {| dnsRecordAdded := true;
                      lastRecordDomain := provider.RecordDomain s;
                      consecutiveErrors := 0 |}
         | Some _ => {| dnsRecordAdded := dnsRecordAdded st;
                        lastRecordDomain := lastRecordDomain st;
                        consecutiveErrors := 0 |}
         end),
   {| polls := S (polls w); adds := S (adds w); checks := S (checks w);
      fsops := fsops w;
      trace := trace w ++
        [EvGetCertificateStatus orderID (inl s);
         EvAddRecord domain (provider.RecordDomain s) (provider.RecordType s)
           (provider.RecordValue s) res;
         EvSleep (match res with None => 20 | Some _ => 10 end)] |}).
Proof.
  intros Hc Hp Hm Ha. unfold mustWrite in Hm. apply andb_prop in Hm as [Hh Hg].
  apply hasChallenge_inv in Hh as [Hs He].
  run_iteration. rewrite Hc; norm. rewrite Hp; norm. rewrite Hs, He, Hg; norm.
  rewrite Ha. destruct res; norm; now rewrite <- !app_assoc.
Qed.

Lemma iteration_written st w s :
  ctxDone env (checks w) = None ->
  getCertificateStatus env (polls w) orderID = inl s ->
  hasChallenge s = true ->
  mustWrite st s = false ->
  iteration env domain orderID st w =
  (Next {| dnsRecordAdded := dnsRecordAdded st;
           lastRecordDomain := lastRecordDomain st;
           consecutiveErrors := 0 |},
   {| polls := S (polls w); adds := adds w; checks := S (checks w);
      fsops := fsops w;
      trace := trace w ++ [EvGetCertificateStatus orderID (inl s); EvSleep 20] |}).
Proof.
  intros Hc Hp Hh Hm. unfold mustWrite in Hm. rewrite Hh in Hm. cbn in Hm.
  apply hasChallenge_inv in Hh as [Hs He].
  run_iteration. rewrite Hc; norm. rewrite Hp; norm. rewrite Hs, He, Hm; norm.
  now rewrite <- !app_assoc.
Qed.

Lemma iteration_process st w s :
  ctxDone env (checks w) = None ->
  getCertificateStatus env (polls w) orderID = inl s ->
  provider.Status s = "process" ->
  iteration env domain orderID st w =
  (Next {| dnsRecordAdded := dnsRecordAdded st;
           lastRecordDomain := lastRecordDomain st;
           consecutiveErrors := 0 |},
   {| polls := S (polls w); adds := adds w; checks := S (checks w);
      fsops := fsops w;
      trace := trace w ++ [EvGetCertificateStatus orderID (inl s); EvSleep 20] |}).
Proof.
  intros Hc Hp Hs. run_iteration. rewrite Hc; norm. rewrite Hp; norm. rewrite Hs.
  cbn [String.eqb Ascii.eqb Bool.eqb]; norm. now rewrite <- !app_assoc.
Qed.

Lemma iteration_certificate st w s :
  ctxDone env (checks w) = None ->
  getCertificateStatus env (polls w) orderID = inl s ->
  provider.Status s = "certificate" ->
  iteration env domain orderID st w =
  (Return None,
   {| polls := S (polls w); adds := adds w; checks := S (checks w);
      fsops := fsops w;
      trace := trace w ++ [EvGetCertificateStatus orderID (inl s)] |}).
Proof.
  intros Hc Hp Hs. run_iteration. rewrite Hc; norm. rewrite Hp; norm. rewrite Hs.
  cbn [String.eqb Ascii.eqb Bool.eqb]; norm. reflexivity.
Qed.

End Statuses.

(** ** Resumed and uninterrupted runs over one status sequence *)

Lemma filter_none (Q R : Event -> bool) (evs : list Event) :
  Forall (fun e => Q e = true) evs ->
  (forall e, Q e = true -> R e = false) ->
  filter R evs = [].
Proof.
  intros F HQR. induction F as [|e evs He _ IH]; [reflexivity|].
  cbn. now rewrite (HQR e He).
Qed.

Lemma GetProvidersForDomain_ok (env : Env) (cfg : config.Config)
    (domainCfg : config.DomainConfig) (w wa wb : World) :
  GetCertProvider env cfg (config.GetCertProvider domainCfg) w = (None, wa) ->
  GetDNSProvider env cfg (config.GetDNSProvider domainCfg) wa = (None, wb) ->
  GetProvidersForDomain env cfg domainCfg w = (None, wb).
Proof.
  intros Ha Hb. unfold GetProvidersForDomain, bind, ret. now rewrite Ha, Hb.
Qed.

Lemma SaveCertificate_succeeds (env : Env) (s : storage.FileStorage) (domain : string)
    (cert : provider.Certificate) (w : World) :
  mkdirAll env (fsops w) (storage.GetCertDir s domain) = None ->
  writeFile env (S (fsops w)) (storage.GetCertPath s domain) = None ->
  (provider.PrivateKey cert <> "" ->
   writeFile env (S (S (fsops w))) (storage.GetKeyPath s domain) = None) ->
  exists evs w1,
    storage.SaveCertificate env s domain cert w = (None, w1) /\
    trace w1 = trace w ++ evs /\ Forall (fun e => fsEvent e = true) evs.
Proof.
  intros Hm Hc Hk.
  destruct (SaveCertificate_effect env s domain cert w) as (evs & T & _ & F & R & _).
  exists evs, (snd (storage.SaveCertificate env s domain cert w)).
  repeat split; try assumption.
  destruct (storage.SaveCertificate env s domain cert w) as [r w1]. cbn in *.
  f_equal. apply R. auto.
Qed.

Section Scenario.
Variable env : Env.
Variable m : Manager.
Variable domainCfg : config.DomainConfig.
Variable orderID : string.
Variables w wa wb : World.
Variables sA sP sC : provider.CertificateStatus.
Variable cert : provider.Certificate.
Variable derr : error.

Hypothesis Ha :
  GetCertProvider env (config_ m) (config.GetCertProvider domainCfg) w = (None, wa).
Hypothesis Hb :
  GetDNSProvider env (config_ m) (config.GetDNSProvider domainCfg) wa = (None, wb).
Hypothesis Hfind :
  fst (findValidCertificate env (config.Domain domainCfg) (config.RenewDays domainCfg))
    = None.
Hypothesis Hdial : tlsDial env (config.Domain domainCfg ++ ":443") = inr derr.
Hypothesis Happly : applyCertificate env (config.Domain domainCfg) = inl orderID.
Hypothesis P0 : getCertificateStatus env (polls wb) orderID = inl sA.
Hypothesis P1 : getCertificateStatus env (S (polls wb)) orderID = inl sA.
Hypothesis P2 : getCertificateStatus env (S (S (polls wb))) orderID = inl sP.
Hypothesis P3 : getCertificateStatus env (S (S (S (polls wb)))) orderID = inl sC.
Hypothesis HA : hasChallenge sA = true.
Hypothesis HP : provider.Status sP = "process".
Hypothesis HC : provider.Status sC = "certificate".
Hypothesis C0 : ctxDone env (checks wb) = None.
Hypothesis C1 : ctxDone env (S (checks wb)) = None.
Hypothesis C2 : ctxDone env (S (S (checks wb))) = None.
Hypothesis C3 : ctxDone env (S (S (S (checks wb)))) = None.
Hypothesis Hadd :
  addRecord env (adds wb) (config.Domain domainCfg) (provider.RecordDomain sA)
    (provider.RecordType sA) (provider.RecordValue sA) = None.
Hypothesis Hdl : downloadCertificate env orderID = inl cert.
Hypothesis Hmk :
  mkdirAll env (fsops wb) (storage.GetCertDir (storage_ m) (config.Domain domainCfg))
    = None.
Hypothesis Hwc :
  writeFile env (S (fsops wb))
    (storage.GetCertPath (storage_ m) (config.Domain domainCfg)) = None.
Hypothesis Hwk :
  provider.PrivateKey cert <> "" ->
  writeFile env (S (S (fsops wb)))
    (storage.GetKeyPath (storage_ m) (config.Domain domainCfg)) = None.

Lemma sA_not_certificate : String.eqb (provider.Status sA) "certificate" = false.
Proof.
  destruct (hasChallenge_inv sA HA) as [Hs _]. apply String.eqb_eq in Hs.
  now rewrite Hs.
Qed.

Lemma resumed_run :
  exists sevs w1,
    ContinueOrder env m orderID (config.Domain domainCfg)
      (config.GetCertProvider domainCfg) (config.GetDNSProvider domainCfg) w
      = (None, w1) /\
    trace w1 = trace wb ++
      [EvGetCertificateStatus orderID (inl sA);
       EvGetCertificateStatus orderID (inl sA);
       EvAddRecord (config.Domain domainCfg) (provider.RecordDomain sA)
         (provider.RecordType sA) (provider.RecordValue sA) None;
       EvSleep 20;
       EvGetCertificateStatus orderID (inl sP); EvSleep 20;
       EvGetCertificateStatus orderID (inl sC);
       EvDownloadCertificate orderID (inl cert)] ++ sevs /\
    Forall (fun e => fsEvent e = true) sevs.
Proof.
  run_resume. rewrite Ha; norm. rewrite Hb; norm. rewrite P0; norm.
  rewrite sA_not_certificate; norm.
  rewrite waitForDNSValidation_iterate. unfold maxRetries.
  rewrite iterate_step.
  erewrite iteration_write; [|exact C0|exact P1| |exact Hadd].
  2:{ unfold mustWrite. now rewrite HA. }
  norm.
  rewrite iterate_step.
  erewrite iteration_process; [|exact C1|exact P2|exact HP]. norm.
  rewrite iterate_step.
  erewrite iteration_certificate; [|exact C2|exact P3|exact HC]. norm.
  rewrite Hdl; norm.
  match goal with
  | |- context [storage.SaveCertificate env ?s ?d ?c ?w0] =>
      destruct (SaveCertificate_succeeds env s d c w0 Hmk Hwc Hwk)
        as (sevs & w1 & E & T & F)
  end.
  rewrite E. exists sevs, w1. repeat split; [|exact F].
  rewrite T. cbn [trace]. now rewrite <- !app_assoc.
Qed.

Lemma uninterrupted_run :
  exists sevs xevs w1,
    ProcessDomain env m domainCfg w = (None, w1) /\
    trace w1 = trace wb ++
      [EvFindValidCertificate (config.Domain domainCfg) (config.RenewDays domainCfg)
         (findValidCertificate env (config.Domain domainCfg)
            (config.RenewDays domainCfg));
       EvTLSDial (config.Domain domainCfg ++ ":443") (inr derr);
       EvApplyCertificate (config.Domain domainCfg) (inl orderID);
       EvGetCertificateStatus orderID (inl sA);
       EvAddRecord (config.Domain domainCfg) (provider.RecordDomain sA)
         (provider.RecordType sA) (provider.RecordValue sA) None;
       EvSleep 20;
       EvGetCertificateStatus orderID (inl sA); EvSleep 20;
       EvGetCertificateStatus orderID (inl sP); EvSleep 20;
       EvGetCertificateStatus orderID (inl sC);
       EvDownloadCertificate orderID (inl cert)] ++ sevs ++ xevs /\
    Forall (fun e => fsEvent e = true) sevs /\
    Forall (fun e => isExec e = true) xevs.
Proof.
  run_process. rewrite (GetProvidersForDomain_ok _ _ _ _ _ _ Ha Hb); norm.
  rewrite Hfind; norm. cbn [negb]; norm.
  unfold acquireNew, bind, ret, ApplyCertificate, DownloadCertificate, emit.
  run_validator. rewrite Hdial; norm. cbn [negb]; norm. rewrite Happly; norm.
  rewrite waitForDNSValidation_iterate. unfold maxRetries.
  rewrite iterate_step.
  erewrite iteration_write; [|exact C0|exact P0| |exact Hadd].
  2:{ unfold mustWrite. now rewrite HA. }
  norm.
  rewrite iterate_step.
  erewrite iteration_written; [|exact C1|exact P1|exact HA|].
  2:{ unfold mustWrite. cbn. rewrite String.eqb_refl. apply andb_false_r. }
  norm.
  rewrite iterate_step.
  erewrite iteration_process; [|exact C2|exact P2|exact HP]. norm.
  rewrite iterate_step.
  erewrite iteration_certificate; [|exact C3|exact P3|exact HC]. norm.
  rewrite Hdl; norm.
  match goal with
  | |- context [storage.SaveCertificate env ?s ?d ?c ?w0] =>
      destruct (SaveCertificate_succeeds env s d c w0 Hmk Hwc Hwk)
        as (sevs & w1 & E & T & F)
  end.
  rewrite E.
  destruct (runPostCommand_effect env m domainCfg w1) as (xevs & Tx & Fx).
  destruct (runPostCommand env m domainCfg w1) as [u w2]. cbn [snd] in Tx.
  exists sevs, xevs, w2. repeat split; [|exact F|exact Fx].
  rewrite Tx, T. cbn [trace]. now rewrite <- !app_assoc.
Qed.

End Scenario.

(** ** Two polls with different labels *)

Lemma two_labels_two_writes (env : Env) (domain orderID : string) (w : World)
    (sA sB : provider.CertificateStatus) :
  ctxDone env (checks w) = None ->
  ctxDone env (S (checks w)) = None ->
  getCertificateStatus env (polls w) orderID = inl sA ->
  getCertificateStatus env (S (polls w)) orderID = inl sB ->
  hasChallenge sA = true -> hasChallenge sB = true ->
  provider.RecordDomain sA <> provider.RecordDomain sB ->
  exists st1 w1 resA resB,
    iterate env domain orderID 2 initLoopState w = (Next st1, w1) /\
    filter isAddRecord (eventsSince w w1) =
      [EvAddRecord domain (provider.RecordDomain sA) (provider.RecordType sA)
         (provider.RecordValue sA) resA;
       EvAddRecord domain (provider.RecordDomain sB) (provider.RecordType sB)
         (provider.RecordValue sB) resB].
Proof.
  intros C0 C1 PA PB HA HB Hne.
  rewrite iterate_step.
  erewrite iteration_write; [|exact C0|exact PA| |reflexivity].
  2:{ unfold mustWrite. now rewrite HA. }
  norm. rewrite iterate_step.
  erewrite iteration_write; [|exact C1|exact PB| |reflexivity].
  2:{ unfold mustWrite. rewrite HB.
      destruct (addRecord env (adds w) domain _ _ _); cbn; [reflexivity|].
      apply String.eqb_neq in Hne. now rewrite Hne. }
  norm. cbn [iterate]. unfold ret.
  do 4 eexists. split; [reflexivity|].
  unfold eventsSince. cbn [trace].
  rewrite <- !app_assoc, skipn_app, skipn_all, Nat.sub_diag.
  reflexivity.
Qed.

Lemma iterate_next_bound (env : Env) (domain orderID : string) (n : nat) :
  forall st w st1 w1,
  consecutiveErrors st <= 2 ->
  iterate env domain orderID n st w = (Next st1, w1) ->
  consecutiveErrors st1 <= 2.
Proof.
  induction n as [|n IH]; intros st w st1 w1 Hc.
  - cbn. unfold ret. now intros [= <- <-].
  - rewrite iterate_step.
    destruct (iteration env domain orderID st w) as [[st2|err] w2] eqn:E;
      [|discriminate].
    apply iteration_next_bound in E. now apply IH.
Qed.

Lemma eventsSince_app (w w1 : World) (evs : list Event) :
  trace w1 = trace w ++ evs -> eventsSince w w1 = evs.
Proof.
  intros T. unfold eventsSince.
  now rewrite T, skipn_app, skipn_all, Nat.sub_diag.
Qed.

(** * The claims *)

(** C2, as stated, fails on its second example: the wildcard is compared
    with the last two labels of the target, so a name two levels below the
    wildcard's domain matches as well. *)
Lemma wildcard_matches_deeper_subdomain :
  domainpkg.MatchDomain "*.example.com" "api.sub.example.com" <> false.
Proof. rewrite (proj2 (MatchDomain_spec _ _)); [discriminate|]. right. now eexists. Qed.

(** C2 (as amended): [MatchDomain "*.example.com"] is true of
    ["api.example.com"] and of ["api.sub.example.com"] alike; in general
    [MatchDomain certName target] is true exactly when [certName] equals
    [target], or [certName] is [*.X] and [X] is the main domain of [target],
    which for a target of two labels or more is its last two labels. *)
Theorem MatchDomain_exact_or_wildcard_of_main_domain :
  domainpkg.MatchDomain "*.example.com" "api.example.com" = true /\
  domainpkg.MatchDomain "*.example.com" "api.sub.example.com" = true /\
  (forall certName target,
     domainpkg.MatchDomain certName target = true <->
     certName = target \/
     exists X, certName = ("*." ++ X)%string /\
               X = domainpkg.ExtractMainDomain target) /\
  (forall pre a b,
     forallb nodot (pre ++ [a; b]) = true ->
     domainpkg.ExtractMainDomain (String.concat "." (pre ++ [a; b]))
       = (a ++ "." ++ b)%string).
Proof.
  split; [|split; [|split]].
  - apply MatchDomain_spec. right. now eexists.
  - apply MatchDomain_spec. right. now eexists.
  - apply MatchDomain_spec.
  - apply ExtractMainDomain_last_two.
Qed.

Lemma MatchDomain_exact_or_wildcard_of_main_domain_witness :
  domainpkg.ExtractMainDomain "api.sub.example.com" = "example.com" /\
  domainpkg.MatchDomain "*.example.com" "www.example.com" = true.
Proof.
  destruct MatchDomain_exact_or_wildcard_of_main_domain as (_ & _ & Hm & Hl).
  split.
  - apply (Hl ["api"; "sub"] "example" "com"). reflexivity.
  - apply Hm. right. exists "example.com". split; reflexivity.
Defined.

(** C3: in the validation polling loop a failed poll puts the count of
    consecutive failures up by one; when the count reaches 3 the loop returns
    an error at once, with no sleep and no further poll, otherwise it sleeps
    10 seconds and goes on; a poll that succeeds puts the count back to zero,
    so the count is the number of failed polls in a row at the end of the
    trace.  When the first three polls fail the run is three polls and two
    sleeps long and ends in the error wrapping the third failure. *)
Theorem consecutive_poll_failures_abort (env : Env) (domain orderID : string)
    (st : LoopState) (w : World) :
  ctxDone env (checks w) = None ->
  (forall err,
     getCertificateStatus env (polls w) orderID = inr err ->
     iteration env domain orderID st w =
     if Nat.leb 3 (S (consecutiveErrors st))
     then (Return (Some (wrapError "连续获取证书状态失败: " err)),
           {| polls := S (polls w); adds := adds w; checks := S (checks w);
              fsops := fsops w;
              trace := trace w ++ [EvGetCertificateStatus orderID (inr err)] |})
     else (Next {| dnsRecordAdded := dnsRecordAdded st;
                   lastRecordDomain := lastRecordDomain st;
                   consecutiveErrors := S (consecutiveErrors st) |},
           {| polls := S (polls w); adds := adds w; checks := S (checks w);
              fsops := fsops w;
              trace := trace w ++
                [EvGetCertificateStatus orderID (inr err); EvSleep 10] |})) /\
  (forall status st1 w1,
     getCertificateStatus env (polls w) orderID = inl status ->
     iteration env domain orderID st w = (Next st1, w1) ->
     consecutiveErrors st1 = 0) /\
  (forall n st1 w1,
     iterate env domain orderID n initLoopState w = (Next st1, w1) ->
     consecutiveErrors st1 = failStreak (eventsSince w w1) 0 /\
     consecutiveErrors st1 < 3) /\
  (forall e0 e1 e2,
     ctxDone env (S (checks w)) = None ->
     ctxDone env (S (S (checks w))) = None ->
     getCertificateStatus env (polls w) orderID = inr e0 ->
     getCertificateStatus env (S (polls w)) orderID = inr e1 ->
     getCertificateStatus env (S (S (polls w))) orderID = inr e2 ->
     waitForDNSValidation env domain orderID w =
     (Some (wrapError "连续获取证书状态失败: " e2),
      {| polls := S (S (S (polls w))); adds := adds w;
         checks := S (S (S (checks w))); fsops := fsops w;
         trace := trace w ++
           [EvGetCertificateStatus orderID (inr e0); EvSleep 10;
            EvGetCertificateStatus orderID (inr e1); EvSleep 10;
            EvGetCertificateStatus orderID (inr e2)] |})).
Proof.
  intros C0. split; [|split; [|split]].
  - intros err Hp. now apply iteration_poll_failed.
  - intros status st1 w1 Hp H. exact (iteration_poll_ok _ _ _ _ _ _ _ _ Hp H).
  - intros n st1 w1 H.
    destruct (iterate_effect _ _ _ _ _ _ _ _ H) as (evs & T & N).
    destruct (N _ eq_refl) as [Hs _].
    rewrite (eventsSince_app _ _ _ T). split; [exact Hs|].
    apply iterate_next_bound in H; [lia|cbn; lia].
  - intros e0 e1 e2 C1 C2 P0 P1 P2. now apply three_failed_polls.
Qed.

Lemma consecutive_poll_failures_abort_witness :
  waitForDNSValidation failingEnv "www.example.com" "order-1" World0 =
  (Some (wrapError "连续获取证书状态失败: " pollError),
   {| polls := 3; adds := 0; checks := 3; fsops := 0;
      trace := [EvGetCertificateStatus "order-1" (inr pollError); EvSleep 10;
                EvGetCertificateStatus "order-1" (inr pollError); EvSleep 10;
                EvGetCertificateStatus "order-1" (inr pollError)] |}).
Proof.
  apply (proj2 (proj2 (proj2
    (consecutive_poll_failures_abort failingEnv "www.example.com" "order-1"
       initLoopState World0 eq_refl))));
    reflexivity.
Defined.

(** C4, as stated, fails where a DNS write fails: the loop has then written
    nothing yet, so the next poll with the same label writes again. *)
Lemma unchanged_label_written_twice :
  (forall n s,
     getCertificateStatus retryEnv n "order-1" = inl s ->
     hasChallenge s = true -> provider.RecordDomain s = labelA) /\
  count isAddRecord
    (trace (snd (waitForDNSValidation retryEnv "www.example.com" "order-1" World0)))
    = 2.
Proof.
  split; [|vm_compute; reflexivity].
  intros n s. destruct n as [|[|[|n]]]; cbn.
  - now intros [= <-].
  - now intros [= <-].
  - now intros [= <-].
  - destruct n; now intros [= <-].
Qed.

(** C4 (as amended): a pass of the polling loop calls [AddRecord], once and
    with the challenge of the polled status, exactly when that status is
    [domain_verify] with challenge data and either the loop has not yet
    written a record with success in this run or the label differs from the
    one of its last successful write; a [domain_verify] status without
    challenge data writes nothing.  When the label never changes, at most one
    write succeeds, and at most one write is made if none fails (a failed
    write is made again on the next poll).  For [domain_verify(A)] then
    [domain_verify(B)] with different labels the first two passes make
    exactly two writes. *)
Theorem dns_write_only_when_needed (env : Env) (domain orderID : string) :
  (forall st w f w1,
     iteration env domain orderID st w = (f, w1) ->
     filter isAddRecord (eventsSince w w1) =
       match ctxDone env (checks w), getCertificateStatus env (polls w) orderID with
       | None, inl s =>
           if mustWrite st s
           then [EvAddRecord domain (provider.RecordDomain s) (provider.RecordType s)
                   (provider.RecordValue s)
                   (addRecord env (adds w) domain (provider.RecordDomain s)
                      (provider.RecordType s) (provider.RecordValue s))]
           else []
       | _, _ => []
       end) /\
  (forall n w st1 w1,
     iterate env domain orderID n initLoopState w = (Next st1, w1) ->
     stateLabel st1 = lastWritten (eventsSince w w1) None) /\
  (forall L w r w1,
     (forall n s, getCertificateStatus env n orderID = inl s ->
                  hasChallenge s = true -> provider.RecordDomain s = L) ->
     waitForDNSValidation env domain orderID w = (r, w1) ->
     count addSucceeded (eventsSince w w1) <= 1 /\
     ((forall n d rr t v, addRecord env n d rr t v = None) ->
      count isAddRecord (eventsSince w w1) <= 1)) /\
  (forall w sA sB,
     ctxDone env (checks w) = None ->
     ctxDone env (S (checks w)) = None ->
     getCertificateStatus env (polls w) orderID = inl sA ->
     getCertificateStatus env (S (polls w)) orderID = inl sB ->
     hasChallenge sA = true -> hasChallenge sB = true ->
     provider.RecordDomain sA <> provider.RecordDomain sB ->
     exists st1 w1 resA resB,
       iterate env domain orderID 2 initLoopState w = (Next st1, w1) /\
       filter isAddRecord (eventsSince w w1) =
         [EvAddRecord domain (provider.RecordDomain sA) (provider.RecordType sA)
            (provider.RecordValue sA) resA;
          EvAddRecord domain (provider.RecordDomain sB) (provider.RecordType sB)
            (provider.RecordValue sB) resB]).
Proof.
  split; [|split; [|split]].
  - intros st w f w1 H.
    destruct (iteration_effect _ _ _ _ _ _ _ H) as (evs & T & A & _).
    now rewrite (eventsSince_app _ _ _ T).
  - intros n w st1 w1 H.
    destruct (iterate_effect _ _ _ _ _ _ _ _ H) as (evs & T & N).
    rewrite (eventsSince_app _ _ _ T). now destruct (N _ eq_refl).
  - intros L w r w1 Hlabel H. rewrite waitForDNSValidation_iterate in H.
    destruct (iterate env domain orderID maxRetries initLoopState w) as [f w2] eqn:E.
    apply (iterate_single_label env domain orderID L Hlabel) in E
      as (evs & T & C & A); [|discriminate].
    assert (w1 = w2) as -> by (destruct f; now injection H).
    rewrite (eventsSince_app _ _ _ T). split; [lia|].
    intros Hok. rewrite (answered_all_succeed env evs Hok A). lia.
  - intros w sA sB. apply two_labels_two_writes.
Qed.

Lemma dns_write_only_when_needed_witness :
  exists st1 w1 resA resB,
    iterate relabelEnv "www.example.com" "order-1" 2 initLoopState World0
      = (Next st1, w1) /\
    filter isAddRecord (eventsSince World0 w1) =
      [EvAddRecord "www.example.com" labelA "TXT" "token-a" resA;
       EvAddRecord "www.example.com" labelB "TXT" "token-b" resB].
Proof.
  apply (proj2 (proj2 (proj2
    (dns_write_only_when_needed relabelEnv "www.example.com" "order-1")))
    World0 (mkStatus "domain_verify" labelA "token-a")
    (mkStatus "domain_verify" labelB "token-b"));
    try reflexivity.
  discriminate.
Defined.

(** C6: the validation polling loop makes at most 60 passes, each with one
    cancellation check and at most one poll; when, within those 60 passes,
    no check finds the run cancelled, no poll reports [certificate] or
    [failed], and no three polls in a row fail, the loop has polled 60 times
    and returns the timeout error, whose message ends with the order id. *)
Theorem polling_loop_is_bounded (env : Env) (domain orderID : string)
    (w : World) (r : option error) (w1 : World) :
  waitForDNSValidation env domain orderID w = (r, w1) ->
  maxRetries = 60 /\
  count isPoll (eventsSince w w1) <= maxRetries /\
  checks w1 <= checks w + maxRetries /\
  (quiet env orderID w maxRetries ->
   r = Some (timeoutError orderID) /\
   count isPoll (eventsSince w w1) = maxRetries /\
   Error (timeoutError orderID)
     = ("等待超时，请检查云平台控制台，订单ID: " ++ orderID)%string).
Proof.
  intros H. rewrite waitForDNSValidation_iterate in H.
  destruct (iterate env domain orderID maxRetries initLoopState w) as [f w2] eqn:E.
  assert (w1 = w2) as -> by (destruct f; now injection H).
  destruct (iterate_world _ _ _ _ _ _ _ _ E) as (evs & T & Hc & _ & _ & _ & Hn & HN & _).
  rewrite (eventsSince_app _ _ _ T).
  split; [reflexivity|]. split; [exact Hn|]. split; [exact Hc|].
  intros Q.
  destruct (iterate_quiet env domain orderID maxRetries 0 initLoopState w w)
    as (st1 & w3 & E3 & _);
    cbn [initLoopState consecutiveErrors];
    try first [exact Q | lia | (intros j Hj; lia)].
  rewrite E in E3. injection E3 as -> <-.
  injection H as <-. destruct (HN _ eq_refl) as [Hp _].
  repeat split. exact Hp.
Qed.

Lemma polling_loop_is_bounded_witness :
  fst (waitForDNSValidation pendingEnv "www.example.com" "order-1" World0)
    = Some (timeoutError "order-1") /\
  count isPoll
    (eventsSince World0
       (snd (waitForDNSValidation pendingEnv "www.example.com" "order-1" World0)))
    = 60.
Proof.
  destruct (polling_loop_is_bounded pendingEnv "www.example.com" "order-1" World0
              _ _ (surjective_pairing _)) as (_ & _ & _ & Hq).
  destruct Hq as (Hr & Hp & _); [|split; [exact Hr|exact Hp]].
  split; [reflexivity|split].
  - intros i s _. cbn. destruct i; intros [= <-]; split; discriminate.
  - intros i _ (F & _). cbn in F. destruct i; discriminate.
Defined.

(** C8: a poll whose status is none of [domain_verify], [process],
    [certificate], [failed] never ends the loop: the pass sleeps 15 seconds
    and goes on, with the failure count at zero and the DNS state untouched.
    Whenever the loop returns, it is by cancellation, by a poll reporting
    [certificate] (success), by a poll reporting [failed], by the third
    failed poll in a row, or by exhaustion of its 60 passes. *)
Theorem unknown_status_is_transient (env : Env) (domain orderID : string) :
  (forall st w status,
     ctxDone env (checks w) = None ->
     getCertificateStatus env (polls w) orderID = inl status ->
     knownStatus (provider.Status status) = false ->
     iteration env domain orderID st w =
     (Next {| dnsRecordAdded := dnsRecordAdded st;
              lastRecordDomain := lastRecordDomain st;
              consecutiveErrors := 0 |},
      {| polls := S (polls w); adds := adds w; checks := S (checks w);
         fsops := fsops w;
         trace := trace w ++
           [EvGetCertificateStatus orderID (inl status); EvSleep 15] |})) /\
  (forall w r w1,
     waitForDNSValidation env domain orderID w = (r, w1) ->
     exitReason env orderID w maxRetries 0 (eventsSince w w1) r \/
     (r = Some (timeoutError orderID) /\
      count isPoll (eventsSince w w1) = maxRetries)).
Proof.
  split.
  - intros st w status. apply iteration_unknown_status.
  - intros w r w1 H. rewrite waitForDNSValidation_iterate in H.
    destruct (iterate env domain orderID maxRetries initLoopState w)
      as [[st2|err] w2] eqn:E; injection H as <- <-.
    + right. split; [reflexivity|].
      destruct (iterate_world _ _ _ _ _ _ _ _ E) as (evs & T & _ & _ & _ & _ & _ & HN & _).
      rewrite (eventsSince_app _ _ _ T). now destruct (HN _ eq_refl).
    + left. apply iterate_return in E as (evs & T & R); [|cbn; lia].
      now rewrite (eventsSince_app _ _ _ T).
Qed.

Lemma unknown_status_is_transient_witness :
  iteration pendingEnv "www.example.com" "order-1" initLoopState World0 =
  (Next initLoopState,
   {| polls := 1; adds := 0; checks := 1; fsops := 0;
      trace := [EvGetCertificateStatus "order-1" (inl (mkStatus "pending" "" ""));
                EvSleep 15] |}).
Proof.
  apply (proj1 (unknown_status_is_transient pendingEnv "www.example.com" "order-1")
           initLoopState World0 (mkStatus "pending" "" ""));
    reflexivity.
Defined.

(** C7: [NeedRenew] never returns an error.  When the probe of the live
    endpoint fails (no connection, or no certificate served) it answers
    "renew" with the zero expiry, whatever [renewDays] is.  When the probe
    succeeds, the covered names are the common name, if any, followed by the
    subject-alternative names, and the answer is "renew" exactly when no
    covered name matches the domain or the days until the expiry are at most
    [renewDays]; the expiry is handed back.  A name matches the domain when
    it is the domain itself, or [*.] followed by the last two of the
    dot-separated labels of the domain ([coveredBy]). *)
Theorem NeedRenew_decision (env : Env) (domain : string) (renewDays : Z) (w : World)
    (expiry : Time) (names : list string) (err : option error) :
  fst (CheckCertExpiry env domain w) = (expiry, names, err) ->
  (err <> None ->
   fst (NeedRenew env domain renewDays w) = (true, zeroTime, None)) /\
  (err = None ->
   exists b,
     fst (NeedRenew env domain renewDays w) = (b, expiry, None) /\
     (b = true <->
      (forall name, In name names -> ~ coveredBy name domain) \/
      (daysUntil env expiry <= renewDays)%Z)) /\
  match tlsDial env (domain ++ ":443") with
  | inl (leaf :: _) =>
      err = None /\ expiry = LeafNotAfter leaf /\
      names = (if negb (String.eqb (CommonName leaf) "")
               then [CommonName leaf] else []) ++ DNSNames leaf
  | _ => err <> None
  end.
Proof.
  run_validator.
  destruct (tlsDial env (domain ++ ":443")) as [[|leaf rest]|e]; norm;
    intros [= <- <- <-].
  - split; [intros _; reflexivity|split; discriminate].
  - split; [now intros []|]. split; [|auto]. intros _.
    unfold matchDomain.
    destruct (existsb _ _) eqn:M; cbn [negb]; norm.
    + exists (Z.leb (daysUntil env (LeafNotAfter leaf)) renewDays).
      split; [reflexivity|]. split.
      * intros H. right. now apply Z.leb_le.
      * intros [N|D]; [|now apply Z.leb_le].
        apply existsb_exists in M as (name & Hin & Hm).
        elim (N name Hin). now apply MatchDomain_coveredBy.
    + exists true. split; [reflexivity|]. split; [|reflexivity].
      intros _. left. intros name Hin Hc.
      apply MatchDomain_coveredBy in Hc.
      rewrite existsb_false_iff in M. rewrite (M name Hin) in Hc. discriminate.
  - split; [intros _; reflexivity|split; discriminate].
Qed.

Lemma NeedRenew_decision_witness :
  fst (NeedRenew pendingEnv "www.example.com" 30 World0) = (true, zeroTime, None) /\
  exists b,
    fst (NeedRenew healthyEnv "www.example.com" 30 World0)
      = (b, LeafNotAfter liveLeaf, None) /\
    (b = true <->
     (forall name, In name ["*.example.com"; "example.com"]%string ->
                   ~ coveredBy name "www.example.com") \/
     (daysUntil healthyEnv (LeafNotAfter liveLeaf) <= 30)%Z).
Proof.
  split.
  - apply (proj1 (NeedRenew_decision pendingEnv "www.example.com" 30 World0
                    zeroTime []
                    (Some (wrapError "连接失败: "
                             (errorString "dial tcp: connection refused")))
                    eq_refl)).
    discriminate.
  - exact (proj1 (proj2 (NeedRenew_decision healthyEnv "www.example.com" 30 World0
                           (LeafNotAfter liveLeaf)
                           ["*.example.com"; "example.com"]%string None eq_refl))
             eq_refl).
Defined.

(** C10: [SaveCertificate] returns success exactly when the directory could
    be made, [cert.pem] could be written and, for a non-empty private key,
    [key.pem] could be written.  With an empty private key no write to
    [key.pem] is made at all.  On success the write of [fullchain.pem] (the
    chain, or the certificate when there is no chain) has been attempted, and
    its outcome, failure included, does not change the result. *)
Theorem SaveCertificate_partial_success (env : Env) (s : storage.FileStorage)
    (domain : string) (cert : provider.Certificate) (w : World) :
  let run := storage.SaveCertificate env s domain cert w in
  let evs := eventsSince w (snd run) in
  (fst run = None <->
     mkdirAll env (fsops w) (storage.GetCertDir s domain) = None /\
     writeFile env (S (fsops w)) (storage.GetCertPath s domain) = None /\
     (provider.PrivateKey cert <> "" ->
      writeFile env (S (S (fsops w))) (storage.GetKeyPath s domain) = None)) /\
  (provider.PrivateKey cert = "" ->
     count (isWriteTo (storage.GetKeyPath s domain)) evs = 0) /\
  (fst run = None ->
     evs = [EvMkdirAll (storage.GetCertDir s domain) 493 None;
            EvWriteFile (storage.GetCertPath s domain)
              (provider.CertificatePEM cert) 420 None] ++
           (if String.eqb (provider.PrivateKey cert) "" then []
            else [EvWriteFile (storage.GetKeyPath s domain)
                    (provider.PrivateKey cert) 384 None]) ++
           [EvWriteFile (storage.GetFullchainPath s domain)
              (if String.eqb (provider.Chain cert) ""
               then provider.CertificatePEM cert else provider.Chain cert) 420
              (writeFile env
                 (if String.eqb (provider.PrivateKey cert) ""
                  then S (S (fsops w)) else S (S (S (fsops w))))
                 (storage.GetFullchainPath s domain))]).
Proof.
  intros run evs. subst run evs.
  destruct (SaveCertificate_effect env s domain cert w)
    as (evs & T & _ & _ & R & K & E).
  rewrite (eventsSince_app _ _ _ T). auto.
Qed.

Lemma SaveCertificate_partial_success_witness :
  fst (storage.SaveCertificate noChainEnv (storage.NewFileStorage "./certs")
         "www.example.com" keylessCert World0) = None /\
  writeFile noChainEnv 2 "certs/www.example.com/fullchain.pem" <> None.
Proof.
  split; [|discriminate].
  apply (proj1 (SaveCertificate_partial_success noChainEnv
                  (storage.NewFileStorage "./certs") "www.example.com"
                  keylessCert World0)).
  repeat split; intros K; now elim K.
Defined.

(** C5 (as amended): let the CA answer the successive polls of an order by
    [domain_verify(A)], [domain_verify(A)], [process], [certificate], with
    the DNS write, the download and the persistence working.  The resume
    entry point, given the order id, then calls [AddRecord] exactly once and
    ends with success after exactly one download, which succeeds.  A run of
    [ProcessDomain] that places the order and goes through the polling loop
    uninterrupted over the same answers makes the same polls, the same DNS
    write and the same download, with the same results, and succeeds too.
    The order of the calls is not the same: the first poll of the resumed run
    is the check made before the loop, so its DNS write comes after the
    second poll, where the uninterrupted run writes after the first; and the
    resumed run sleeps twice, the uninterrupted one three times. *)
Theorem resume_converges_like_uninterrupted_run (env : Env) (m : Manager)
    (domainCfg : config.DomainConfig) (orderID : string) (w wa wb : World)
    (sA sP sC : provider.CertificateStatus) (cert : provider.Certificate)
    (derr : error) :
  GetCertProvider env (config_ m) (config.GetCertProvider domainCfg) w = (None, wa) ->
  GetDNSProvider env (config_ m) (config.GetDNSProvider domainCfg) wa = (None, wb) ->
  fst (findValidCertificate env (config.Domain domainCfg) (config.RenewDays domainCfg))
    = None ->
  tlsDial env (config.Domain domainCfg ++ ":443") = inr derr ->
  applyCertificate env (config.Domain domainCfg) = inl orderID ->
  getCertificateStatus env (polls wb) orderID = inl sA ->
  getCertificateStatus env (S (polls wb)) orderID = inl sA ->
  getCertificateStatus env (S (S (polls wb))) orderID = inl sP ->
  getCertificateStatus env (S (S (S (polls wb)))) orderID = inl sC ->
  hasChallenge sA = true ->
  provider.Status sP = "process" ->
  provider.Status sC = "certificate" ->
  ctxDone env (checks wb) = None ->
  ctxDone env (S (checks wb)) = None ->
  ctxDone env (S (S (checks wb))) = None ->
  ctxDone env (S (S (S (checks wb)))) = None ->
  addRecord env (adds wb) (config.Domain domainCfg) (provider.RecordDomain sA)
    (provider.RecordType sA) (provider.RecordValue sA) = None ->
  downloadCertificate env orderID = inl cert ->
  mkdirAll env (fsops wb) (storage.GetCertDir (storage_ m) (config.Domain domainCfg))
    = None ->
  writeFile env (S (fsops wb))
    (storage.GetCertPath (storage_ m) (config.Domain domainCfg)) = None ->
  (provider.PrivateKey cert <> "" ->
   writeFile env (S (S (fsops wb)))
     (storage.GetKeyPath (storage_ m) (config.Domain domainCfg)) = None) ->
  let resumed :=
    ContinueOrder env m orderID (config.Domain domainCfg)
      (config.GetCertProvider domainCfg) (config.GetDNSProvider domainCfg) w in
  let uninterrupted := ProcessDomain env m domainCfg w in
  let evsR := eventsSince w (snd resumed) in
  let evsU := eventsSince w (snd uninterrupted) in
  fst resumed = None /\ fst uninterrupted = None /\
  count isAddRecord evsR = 1 /\
  count isDownload evsR = 1 /\ count downloadSucceeded evsR = 1 /\
  filter isPoll evsR =
    [EvGetCertificateStatus orderID (inl sA); EvGetCertificateStatus orderID (inl sA);
     EvGetCertificateStatus orderID (inl sP); EvGetCertificateStatus orderID (inl sC)] /\
  filter isPoll evsR = filter isPoll evsU /\
  filter isAddRecord evsR = filter isAddRecord evsU /\
  filter isDownload evsR = filter isDownload evsU /\
  let write :=
    EvAddRecord (config.Domain domainCfg) (provider.RecordDomain sA)
      (provider.RecordType sA) (provider.RecordValue sA) None in
  filter observable evsR =
    [EvGetCertificateStatus orderID (inl sA); EvGetCertificateStatus orderID (inl sA);
     write;
     EvGetCertificateStatus orderID (inl sP); EvGetCertificateStatus orderID (inl sC);
     EvDownloadCertificate orderID (inl cert)] /\
  filter observable evsU =
    [EvGetCertificateStatus orderID (inl sA); write;
     EvGetCertificateStatus orderID (inl sA);
     EvGetCertificateStatus orderID (inl sP); EvGetCertificateStatus orderID (inl sC);
     EvDownloadCertificate orderID (inl cert)] /\
  filter isSleep evsR = [EvSleep 20; EvSleep 20] /\
  filter isSleep evsU = [EvSleep 20; EvSleep 20; EvSleep 20].
Proof.
  intros Ha Hb Hfind Hdial Happly P0 P1 P2 P3 HA HP HC C0 C1 C2 C3 Hadd Hdl Hmk Hwc Hwk
    resumed uninterrupted evsR evsU.
  destruct (resumed_run env m domainCfg orderID w wa wb sA sP sC cert
              Ha Hb P0 P1 P2 P3 HA HP HC C0 C1 C2 Hadd Hdl Hmk Hwc Hwk)
    as (sevsR & wR & ER & TR & FR).
  destruct (uninterrupted_run env m domainCfg orderID w wa wb sA sP sC cert derr
              Ha Hb Hfind Hdial Happly P0 P1 P2 P3 HA HP HC C0 C1 C2 C3 Hadd Hdl
              Hmk Hwc Hwk)
    as (sevsU & xevs & wU & EU & TU & FU & FX).
  destruct (GetProvidersForDomain_effect env (config_ m) domainCfg w)
    as (pevs & Tp & _ & _ & Fp).
  rewrite (GetProvidersForDomain_ok _ _ _ _ _ _ Ha Hb) in Tp. cbn [snd] in Tp.
  rewrite Tp, <- app_assoc in TR, TU.
  subst evsR evsU resumed uninterrupted. rewrite ER, EU. cbn [fst snd].
  rewrite (eventsSince_app _ _ _ TR), (eventsSince_app _ _ _ TU).
  unfold count. rewrite !filter_app.
  rewrite (filter_none providerEvent isAddRecord pevs Fp) by (now intros []).
  rewrite (filter_none providerEvent isDownload pevs Fp) by (now intros []).
  rewrite (filter_none providerEvent downloadSucceeded pevs Fp) by (now intros []).
  rewrite (filter_none providerEvent isPoll pevs Fp) by (now intros []).
  rewrite (filter_none fsEvent isAddRecord sevsR FR) by (now intros []).
  rewrite (filter_none fsEvent isDownload sevsR FR) by (now intros []).
  rewrite (filter_none fsEvent downloadSucceeded sevsR FR) by (now intros []).
  rewrite (filter_none fsEvent isPoll sevsR FR) by (now intros []).
  rewrite (filter_none fsEvent isAddRecord sevsU FU) by (now intros []).
  rewrite (filter_none fsEvent isDownload sevsU FU) by (now intros []).
  rewrite (filter_none fsEvent isPoll sevsU FU) by (now intros []).
  rewrite (filter_none isExec isAddRecord xevs FX) by (now intros []).
  rewrite (filter_none isExec isDownload xevs FX) by (now intros []).
  rewrite (filter_none isExec isPoll xevs FX) by (now intros []).
  rewrite (filter_none providerEvent observable pevs Fp) by (now intros []).
  rewrite (filter_none fsEvent observable sevsR FR) by (now intros []).
  rewrite (filter_none fsEvent observable sevsU FU) by (now intros []).
  rewrite (filter_none isExec observable xevs FX) by (now intros []).
  rewrite (filter_none providerEvent isSleep pevs Fp) by (now intros []).
  rewrite (filter_none fsEvent isSleep sevsR FR) by (now intros []).
  rewrite (filter_none fsEvent isSleep sevsU FU) by (now intros []).
  rewrite (filter_none isExec isSleep xevs FX) by (now intros []).
  cbn. repeat split; reflexivity.
Qed.

Lemma resume_converges_like_uninterrupted_run_witness :
  fst (ContinueOrder issuingEnv (NewManager sampleConfig) "order-1"
         "www.example.com" "aliyun" "aliyun" World0) = None /\
  count isAddRecord
    (eventsSince World0
       (snd (ContinueOrder issuingEnv (NewManager sampleConfig) "order-1"
               "www.example.com" "aliyun" "aliyun" World0))) = 1 /\
  fst (ProcessDomain issuingEnv (NewManager sampleConfig) sampleDomain World0) = None.
Proof.
  pose proof (resume_converges_like_uninterrupted_run issuingEnv
                (NewManager sampleConfig) sampleDomain "order-1" World0
                (snd (GetCertProvider issuingEnv sampleConfig "aliyun" World0))
                (snd (GetDNSProvider issuingEnv sampleConfig "aliyun"
                        (snd (GetCertProvider issuingEnv sampleConfig "aliyun" World0))))
                (mkStatus "domain_verify" labelA "token-a")
                (mkStatus "process" "" "") (mkStatus "certificate" "" "")
                sampleCert (errorString "dial tcp: connection refused")
                eq_refl eq_refl eq_refl eq_refl eq_refl eq_refl eq_refl eq_refl
                eq_refl eq_refl eq_refl eq_refl eq_refl eq_refl eq_refl eq_refl
                eq_refl eq_refl eq_refl eq_refl (fun _ => eq_refl)) as H.
  cbv zeta in H. destruct H as (R & U & A & _).
  split; [exact R|split; [exact A|exact U]].
Defined.

(** C5, as stated, fails on the order of the calls: over the answers
    [domain_verify(A)], [domain_verify(A)], [process], [certificate] the
    resumed run polls twice before it writes the DNS record, the
    uninterrupted run once, so the two sequences of polls, DNS writes and
    fetches are not the same. *)
Lemma resumed_write_follows_second_poll :
  let resumed :=
    eventsSince World0
      (snd (ContinueOrder issuingEnv (NewManager sampleConfig) "order-1"
              "www.example.com" "aliyun" "aliyun" World0)) in
  let uninterrupted :=
    eventsSince World0
      (snd (ProcessDomain issuingEnv (NewManager sampleConfig) sampleDomain World0)) in
  filter observable resumed <> filter observable uninterrupted /\
  map isAddRecord (filter observable resumed)
    = [false; false; true; false; false; false] /\
  map isAddRecord (filter observable uninterrupted)
    = [false; true; false; false; false; false].
Proof.
  cbv zeta. split; [|split]; [|vm_compute; reflexivity|vm_compute; reflexivity].
  intros H. apply (f_equal (map isAddRecord)) in H. vm_compute in H. discriminate H.
Qed.

(** C1: the resume entry point stops short of the post command.  With the
    global post command [nginx -s reload] configured and an order the CA
    reports as [certificate], [ContinueOrder] downloads the certificate
    once, saves it and returns success, and the shell is never called;
    [ProcessDomain], in the same environment and after the same download and
    persistence, calls it once. *)
Lemma resume_leaves_post_command_out :
  config.PostCommand (config_ (NewManager sampleConfig)) <> "" /\
  fst (ContinueOrder issuedEnv (NewManager sampleConfig) "order-1"
         "www.example.com" "aliyun" "aliyun" World0) = None /\
  count downloadSucceeded
    (trace (snd (ContinueOrder issuedEnv (NewManager sampleConfig) "order-1"
                   "www.example.com" "aliyun" "aliyun" World0))) = 1 /\
  count isExec
    (trace (snd (ContinueOrder issuedEnv (NewManager sampleConfig) "order-1"
                   "www.example.com" "aliyun" "aliyun" World0))) = 0 /\
  count isExec
    (trace (snd (ProcessDomain issuedEnv (NewManager sampleConfig) sampleDomain
                   World0))) = 1.
Proof. split; [discriminate|]. repeat split; vm_compute; reflexivity. Qed.

Lemma resume_polls_then_fetches_witness :
  exists evs,
    trace (snd (ContinueOrder issuedEnv (NewManager sampleConfig) "order-1"
                  "www.example.com" "aliyun" "aliyun" World0)) = trace World0 ++ evs /\
    count isExec evs = 0.
Proof.
  exact (proj2 (proj2 (proj2
    (resume_polls_then_fetches issuedEnv (NewManager sampleConfig) "order-1"
       "www.example.com" "aliyun" "aliyun" World0
       (snd (GetCertProvider issuedEnv sampleConfig "aliyun" World0))
       (snd (GetDNSProvider issuedEnv sampleConfig "aliyun"
               (snd (GetCertProvider issuedEnv sampleConfig "aliyun" World0))))
       eq_refl eq_refl)))).
Defined.



(** * Further properties *)

(** ** Byte strings *)

Lemma append_nil_r (s : string) : (s ++ "")%string = s.
Proof. induction s as [|c s IH]; cbn; [reflexivity|now rewrite IH]. Qed.

Lemma length_append (a b : string) :
  String.length (a ++ b) = String.length a + String.length b.
Proof. induction a as [|x a IH]; cbn; [reflexivity|now rewrite IH]. Qed.

Lemma substring_append_right (a b : string) :
  substring (String.length a) (String.length b) (a ++ b) = b.
Proof. induction a as [|x a IH]; cbn; [apply substring_whole|exact IH]. Qed.

Lemma substring_append_left (a b : string) :
  substring 0 (String.length a) (a ++ b) = a.
Proof.
  induction a as [|x a IH]; cbn; [now destruct b|now rewrite IH].
Qed.

Lemma substring_split (s : string) (n : nat) :
  n <= String.length s ->
  s = (substring 0 n s ++ substring n (String.length s - n) s)%string.
Proof.
  revert n. induction s as [|c s IH]; intros n Hn.
  - cbn in Hn. assert (n = 0) as -> by lia. reflexivity.
  - destruct n as [|n]; cbn.
    + now rewrite substring_whole.
    + f_equal. apply IH. cbn in Hn. lia.
Qed.

Lemma HasSuffix_spec (s p : string) :
  domainpkg.HasSuffix s p = true <-> exists pre, s = (pre ++ p)%string.
Proof.
  unfold domainpkg.HasSuffix. split.
  - intros H. apply andb_prop in H as [Hl He].
    apply Nat.leb_le in Hl. apply String.eqb_eq in He.
    exists (substring 0 (String.length s - String.length p) s).
    pose proof (substring_split s (String.length s - String.length p)) as Hs.
    replace (String.length s - (String.length s - String.length p))
      with (String.length p) in Hs by lia.
    rewrite He in Hs. apply Hs. lia.
  - intros [pre ->]. rewrite length_append.
    replace (Nat.leb (String.length p) (String.length pre + String.length p))
      with true by (symmetry; apply Nat.leb_le; lia).
    replace (String.length pre + String.length p - String.length p)
      with (String.length pre) by lia.
    rewrite substring_append_right. cbn. apply String.eqb_refl.
Qed.

Lemma TrimSuffix_append (pre p : string) :
  domainpkg.TrimSuffix (pre ++ p) p = pre.
Proof.
  unfold domainpkg.TrimSuffix.
  rewrite (proj2 (HasSuffix_spec (pre ++ p) p)) by now exists pre.
  rewrite length_append.
  replace (String.length pre + String.length p - String.length p)
    with (String.length pre) by lia.
  apply substring_append_left.
Qed.

(** ** Domain utilities, further *)

Section DomainMore.
Import domainpkg.

Lemma last_two_split {A : Type} (l : list A) (d : A) :
  2 <= List.length l ->
  l = firstn (List.length l - 2) l ++
      [nth (List.length l - 2) l d; nth (List.length l - 1) l d].
Proof.
  induction l as [|x [|y [|z l]] IH]; cbn [List.length]; intros H; try lia.
  - reflexivity.
  - specialize (IH ltac:(cbn; lia)).
    replace (S (S (S (List.length l))) - 2) with (S (List.length (y :: z :: l) - 2))
      by (cbn; lia).
    replace (S (S (S (List.length l))) - 1) with (S (List.length (y :: z :: l) - 1))
      by (cbn; lia).
    cbn [firstn nth app]. f_equal. exact IH.
Qed.

Lemma concat_last_two (pre : list string) (a b : string) :
  String.concat "." (pre ++ [a; b]) =
  match pre with
  | [] => (a ++ "." ++ b)%string
  | _ => (String.concat "." pre ++ "." ++ a ++ "." ++ b)%string
  end.
Proof.
  induction pre as [|x [|y pre] IH]; [reflexivity|reflexivity|].
  change (String.concat "." ((x :: y :: pre) ++ [a; b]))
    with (x ++ "." ++ String.concat "." ((y :: pre) ++ [a; b]))%string.
  rewrite IH.
  change (String.concat "." (x :: y :: pre))
    with (x ++ "." ++ String.concat "." (y :: pre))%string.
  now rewrite !append_assoc.
Qed.

(** A name is its main domain, or ends with a dot and its main domain. *)
Lemma ExtractMainDomain_suffix (d : string) :
  d = domainpkg.ExtractMainDomain d \/
  exists sub, d = (sub ++ "." ++ domainpkg.ExtractMainDomain d)%string.
Proof.
  unfold domainpkg.ExtractMainDomain.
  destruct (Nat.leb_spec 2 (List.length (SplitDot d))) as [H|H]; [|now left].
  pose proof (last_two_split (SplitDot d) ""%string H) as L.
  pose proof (concat_SplitDot d) as C. rewrite L in C at 1.
  rewrite concat_last_two in C.
  destruct (firstn (List.length (SplitDot d) - 2) (SplitDot d)) as [|x pre].
  - left. now symmetry.
  - right. eexists. symmetry. exact C.
Qed.

(** X1: the main domain of a main domain is itself, and every name counts
    as a sub-domain of its own main domain. *)
Theorem ExtractMainDomain_idempotent (d : string) :
  ExtractMainDomain (ExtractMainDomain d) = ExtractMainDomain d /\
  IsSubDomain d (ExtractMainDomain d) = true.
Proof.
  split.
  - unfold ExtractMainDomain at 2 3.
    destruct (Nat.leb_spec 2 (List.length (SplitDot d))) as [H|H].
    + pose proof (SplitDot_nodot d) as F. rewrite forallb_forall in F.
      apply (ExtractMainDomain_last_two []). cbn.
      rewrite !F; [reflexivity| |]; apply nth_In; lia.
    + unfold ExtractMainDomain.
      now replace (Nat.leb 2 (List.length (SplitDot d))) with false
        by (symmetry; apply Nat.leb_gt; lia).
  - unfold IsSubDomain. apply orb_true_iff.
    destruct (ExtractMainDomain_suffix d) as [E|[sub E]].
    + right. rewrite <- E. apply String.eqb_refl.
    + left. apply HasSuffix_spec. exists sub. exact E.
Qed.

(** X2: [ExtractSubDomain] takes a trailing dot and main domain off a record
    name, and leaves a name that does not end that way as it is. *)
Theorem ExtractSubDomain_strips_main_domain (full main : string) :
  (forall sub, full = (sub ++ "." ++ main)%string ->
               ExtractSubDomain full main = sub) /\
  ((forall sub, full <> (sub ++ "." ++ main)%string) ->
   ExtractSubDomain full main = full).
Proof.
  unfold ExtractSubDomain. split.
  - intros sub ->.
    rewrite (proj2 (HasSuffix_spec _ _)) by now exists sub.
    apply TrimSuffix_append.
  - intros H. destruct (HasSuffix full ("." ++ main)) eqn:E; [|reflexivity].
    apply HasSuffix_spec in E as [sub E]. now elim (H sub).
Qed.

Lemma ExtractSubDomain_strips_main_domain_witness :
  ExtractSubDomain "_dnsauth.www.example.com" "example.com" = "_dnsauth.www" /\
  ExtractSubDomain "other.com" "example.com" = "other.com".
Proof.
  split.
  - apply (proj1 (ExtractSubDomain_strips_main_domain
                    "_dnsauth.www.example.com" "example.com")).
    reflexivity.
  - apply (proj2 (ExtractSubDomain_strips_main_domain "other.com" "example.com")).
    intros sub E. apply (f_equal String.length) in E.
    cbn in E. rewrite length_append in E. cbn in E. lia.
Defined.

Lemma IsSubDomain_spec (d main : string) :
  IsSubDomain d main = true <->
  d = main \/ exists sub, d = (sub ++ "." ++ main)%string.
Proof.
  unfold IsSubDomain. rewrite orb_true_iff, HasSuffix_spec, String.eqb_eq.
  tauto.
Qed.

(** X3: [IsSubDomain] orders the names: every name is a subdomain of itself,
    a subdomain of a subdomain is a subdomain, and two names that are
    subdomains of each other are the same name.  It agrees with the two
    other functions of the file: what [ExtractSubDomain] takes off a proper
    subdomain, put back before a dot and the main domain, is the subdomain
    again, and a name that a wildcard [*.X] matches is a subdomain of [X]. *)
Theorem IsSubDomain_orders_names :
  (forall d, IsSubDomain d d = true) /\
  (forall a b c,
     IsSubDomain a b = true -> IsSubDomain b c = true -> IsSubDomain a c = true) /\
  (forall a b, IsSubDomain a b = true -> IsSubDomain b a = true -> a = b) /\
  (forall d main,
     IsSubDomain d main = true -> d <> main ->
     (ExtractSubDomain d main ++ "." ++ main)%string = d) /\
  (forall X d, MatchDomain ("*." ++ X) d = true -> IsSubDomain d X = true).
Proof.
  split; [|split; [|split; [|split]]].
  - intros d. apply IsSubDomain_spec. now left.
  - intros a b c Hab Hbc. apply IsSubDomain_spec in Hab, Hbc. apply IsSubDomain_spec.
    destruct Hab as [->|[s1 ->]]; [exact Hbc|].
    destruct Hbc as [->|[s2 ->]]; [right; now exists s1|].
    right. exists (s1 ++ "." ++ s2)%string.
    now rewrite !append_assoc.
  - intros a b Hab Hba. apply IsSubDomain_spec in Hab, Hba.
    destruct Hab as [->|[s1 Ea]]; [reflexivity|].
    destruct Hba as [->|[s2 Eb]]; [reflexivity|].
    exfalso. apply (f_equal String.length) in Ea, Eb.
    rewrite !length_append in Ea, Eb. cbn in Ea, Eb. lia.
  - intros d main H Hne. apply IsSubDomain_spec in H.
    destruct H as [->|[sub ->]]; [contradiction|].
    unfold ExtractSubDomain.
    rewrite (proj2 (HasSuffix_spec _ _)) by now exists sub.
    now rewrite TrimSuffix_append.
  - intros X d H. apply MatchDomain_spec in H. apply IsSubDomain_spec.
    destruct H as [<-|(Y & E & HY)].
    + right. now exists "*"%string.
    + injection E as E. rewrite E, HY.
      destruct (ExtractMainDomain_suffix d) as [E'|E']; [now left|now right].
Qed.

Lemma IsSubDomain_orders_names_witness :
  IsSubDomain "api.example.com" "example.com" = true /\
  IsSubDomain "example.com" "api.example.com" = false /\
  (ExtractSubDomain "_dnsauth.www.example.com" "example.com" ++ "." ++ "example.com")%string
    = "_dnsauth.www.example.com" /\
  IsSubDomain "api.sub.example.com" "example.com" = true.
Proof.
  destruct IsSubDomain_orders_names as (_ & _ & _ & Hx & Hw).
  split; [reflexivity|]. split; [reflexivity|].
  split; [apply Hx; [reflexivity|discriminate]|].
  apply Hw. reflexivity.
Defined.

End DomainMore.

(** ** Classes of events *)

Lemma emitsOnly_weaken {A : Type} (P Q : Event -> bool) (m : M A) :
  (forall e, P e = true -> Q e = true) -> emitsOnly P m -> emitsOnly Q m.
Proof.
  intros HPQ Hm w. destruct (Hm w) as (evs & T & F). exists evs. split; [exact T|].
  rewrite forallb_forall in *. auto.
Qed.

Lemma emitsOnly_filter {A : Type} (P Q : Event -> bool) (m : M A) (w : World) :
  emitsOnly P m -> (forall e, P e = true -> Q e = false) ->
  filter Q (eventsSince w (snd (m w))) = [].
Proof.
  intros Hm HPQ. destruct (Hm w) as (evs & T & F).
  rewrite (eventsSince_app _ _ _ T). clear T.
  induction evs as [|e evs IH]; [reflexivity|].
  cbn in F. apply andb_prop in F as [Fe F]. cbn. rewrite (HPQ e Fe). now apply IH.
Qed.

Section Emits.
Variable env : Env.
Variable P : Event -> bool.

Ltac one_event H :=
  let w := fresh "w" in
  intros w; eexists; split; [reflexivity|]; cbn; rewrite H; reflexivity.

Lemma emits_poll o :
  (forall r, P (EvGetCertificateStatus o r) = true) ->
  emitsOnly P (GetCertificateStatus env o).
Proof. intros H. one_event H. Qed.
Lemma emits_add d rr t v :
  (forall r, P (EvAddRecord d rr t v r) = true) -> emitsOnly P (AddRecord env d rr t v).
Proof. intros H. one_event H. Qed.
Lemma emits_ctx : emitsOnly P (CtxDone env).
Proof. intros w. exists []. cbn. now rewrite app_nil_r. Qed.
Lemma emits_range vars : emitsOnly P (RangeVars env vars).
Proof. intros w. exists []. cbn. now rewrite app_nil_r. Qed.
Lemma emits_cachedCert name : emitsOnly P (CachedCertProvider name).
Proof. intros w. exists []. cbn. now rewrite app_nil_r. Qed.
Lemma emits_cachedDNS name : emitsOnly P (CachedDNSProvider name).
Proof. intros w. exists []. cbn. now rewrite app_nil_r. Qed.
Lemma emits_sleep n : P (EvSleep n) = true -> emitsOnly P (Sleep n).
Proof. intros H. one_event H. Qed.
Lemma emits_download o :
  (forall r, P (EvDownloadCertificate o r) = true) ->
  emitsOnly P (DownloadCertificate env o).
Proof. intros H. one_event H. Qed.
Lemma emits_mkdir path perm :
  (forall r, P (EvMkdirAll path perm r) = true) -> emitsOnly P (MkdirAll env path perm).
Proof. intros H. one_event H. Qed.
Lemma emits_write path data perm :
  (forall r, P (EvWriteFile path data perm r) = true) ->
  emitsOnly P (WriteFile env path data perm).
Proof. intros H. one_event H. Qed.
Lemma emits_newCert name :
  (forall r, P (EvNewCertProvider name r) = true) -> emitsOnly P (NewCertProvider env name).
Proof. intros H. one_event H. Qed.
Lemma emits_newDNS name :
  (forall r, P (EvNewDNSProvider name r) = true) -> emitsOnly P (NewDNSProvider env name).
Proof. intros H. one_event H. Qed.
Lemma emits_find d n :
  (forall r, P (EvFindValidCertificate d n r) = true) ->
  emitsOnly P (FindValidCertificate env d n).
Proof. intros H. one_event H. Qed.
Lemma emits_detail id :
  (forall r, P (EvGetCertificateDetail id r) = true) ->
  emitsOnly P (GetCertificateDetail env id).
Proof. intros H. one_event H. Qed.
Lemma emits_apply d :
  (forall r, P (EvApplyCertificate d r) = true) -> emitsOnly P (ApplyCertificate env d).
Proof. intros H. one_event H. Qed.
Lemma emits_dial addr :
  (forall r, P (EvTLSDial addr r) = true) -> emitsOnly P (TLSDial env addr).
Proof. intros H. one_event H. Qed.
Lemma emits_exec c :
  (forall r, P (EvExecCommand c r) = true) -> emitsOnly P (ExecCommand env c).
Proof. intros H. one_event H. Qed.

End Emits.

(** Solves [emitsOnly P m] for a concrete class [P] and a computation built
    from the calls above. *)
Ltac emits_one :=
  first
    [ apply emits_poll | apply emits_add | apply emits_ctx
    | apply emits_cachedCert | apply emits_cachedDNS | apply emits_range
    | apply emits_sleep
    | apply emits_download | apply emits_mkdir | apply emits_write
    | apply emits_newCert | apply emits_newDNS | apply emits_find
    | apply emits_detail | apply emits_apply | apply emits_dial
    | apply emits_exec ];
  try (intros; reflexivity).

Ltac emits_all := repeat first [emits_one | emits_step].

Lemma waitForDNSValidation_emits (env : Env) (domain orderID : string) :
  emitsOnly loopEvent (waitForDNSValidation env domain orderID).
Proof.
  unfold waitForDNSValidation. apply emitsOnly_bind.
  - generalize initLoopState. generalize maxRetries.
    induction n as [|n IH]; intros st; cbn [iterate]; [apply emitsOnly_ret|].
    apply emitsOnly_bind; [unfold iteration; emits_all|].
    intros [st1|err]; [apply IH|apply emitsOnly_ret].
  - intros [st|err]; apply emitsOnly_ret.
Qed.

Lemma SaveCertificate_emits (env : Env) (s : storage.FileStorage) (domain : string)
    (cert : provider.Certificate) :
  emitsOnly fsEvent (storage.SaveCertificate env s domain cert).
Proof. unfold storage.SaveCertificate. emits_all. Qed.

Lemma GetProvidersForDomain_emits (env : Env) (cfg : config.Config)
    (domainCfg : config.DomainConfig) :
  emitsOnly providerEvent (GetProvidersForDomain env cfg domainCfg).
Proof. unfold GetProvidersForDomain, GetCertProvider, GetDNSProvider. emits_all. Qed.

Lemma NeedRenew_emits (env : Env) (domain : string) (renewDays : Z) :
  emitsOnly isDial (NeedRenew env domain renewDays).
Proof. unfold NeedRenew, CheckCertExpiry. emits_all. Qed.

Lemma runPostCommand_emits (env : Env) (m : Manager) (domainCfg : config.DomainConfig) :
  emitsOnly isExec (runPostCommand env m domainCfg).
Proof. unfold runPostCommand, RunPostCommand. emits_all. Qed.

Lemma acquireNew_emits (env : Env) (m : Manager) (domainCfg : config.DomainConfig) :
  emitsOnly acquireEvent (acquireNew env m domainCfg).
Proof.
  unfold acquireNew.
  repeat first
    [ (apply (emitsOnly_weaken isDial); [now intros []|apply NeedRenew_emits])
    | (apply (emitsOnly_weaken loopEvent); [now intros []|apply waitForDNSValidation_emits])
    | (apply (emitsOnly_weaken fsEvent); [now intros []|apply SaveCertificate_emits])
    | (apply (emitsOnly_weaken isExec); [now intros []|apply runPostCommand_emits])
    | emits_one | emits_step ].
Qed.

Lemma afterReuseCheck_emits (env : Env) (m : Manager) (domainCfg : config.DomainConfig)
    (found : option provider.CertificateInfo * option error) :
  emitsOnly afterFindEvent (afterReuseCheck env m domainCfg found).
Proof.
  unfold afterReuseCheck.
  repeat first
    [ (apply (emitsOnly_weaken acquireEvent); [now intros []|apply acquireNew_emits])
    | (apply (emitsOnly_weaken fsEvent); [now intros []|apply SaveCertificate_emits])
    | (apply (emitsOnly_weaken isExec); [now intros []|apply runPostCommand_emits])
    | emits_one | emits_step ].
Qed.

Lemma ProcessDomain_afterReuseCheck (env : Env) (m : Manager)
    (domainCfg : config.DomainConfig) (w : World) :
  ProcessDomain env m domainCfg w =
  let (p, w0) := GetProvidersForDomain env (config_ m) domainCfg w in
  match p with
  | Some err => (Some (wrapError "获取提供商失败: " err), w0)
  | None =>
    afterReuseCheck env m domainCfg
      (findValidCertificate env (config.Domain domainCfg) (config.RenewDays domainCfg))
      (emit (EvFindValidCertificate (config.Domain domainCfg)
               (config.RenewDays domainCfg)
               (findValidCertificate env (config.Domain domainCfg)
                  (config.RenewDays domainCfg))) w0)
  end.
Proof.
  unfold ProcessDomain, bind at 1.
  destruct (GetProvidersForDomain env (config_ m) domainCfg w) as [[err|] w0];
    reflexivity.
Qed.

(** ** The batch run *)

Lemma eventsSince_trans (w w1 w2 : World) (evs1 evs2 : list Event) :
  trace w1 = trace w ++ evs1 -> trace w2 = trace w1 ++ evs2 ->
  eventsSince w w2 = evs1 ++ evs2.
Proof.
  intros T1 T2. apply eventsSince_app. now rewrite T2, T1, app_assoc.
Qed.

Lemma filter_none_b (Q R : Event -> bool) (evs : list Event) :
  forallb Q evs = true -> (forall e, Q e = true -> R e = false) ->
  filter R evs = [].
Proof.
  intros F HQR. induction evs as [|e evs IH]; [reflexivity|].
  cbn in F. apply andb_prop in F as [Fe F]. cbn. rewrite (HQR e Fe). now apply IH.
Qed.

Lemma ProcessDomain_reuse_check_once (env : Env) (m : Manager)
    (domainCfg : config.DomainConfig) (w : World) :
  fst (GetProvidersForDomain env (config_ m) domainCfg w) = None ->
  exists evs,
    trace (snd (ProcessDomain env m domainCfg w)) = trace w ++ evs /\
    filter isFind evs = [reuseCheckOf env domainCfg].
Proof.
  intros Hp. rewrite ProcessDomain_afterReuseCheck.
  destruct (GetProvidersForDomain_emits env (config_ m) domainCfg w) as (pevs & Tp & Fp).
  destruct (GetProvidersForDomain env (config_ m) domainCfg w) as [p w0].
  cbn in Hp, Tp. subst p.
  match goal with
  | |- context [afterReuseCheck env m domainCfg ?f ?w1] =>
      destruct (afterReuseCheck_emits env m domainCfg f w1) as (evs & T & F)
  end.
  cbn [trace emit] in T. rewrite Tp, <- !app_assoc in T.
  eexists. split; [exact T|].
  rewrite !filter_app.
  rewrite (filter_none_b providerEvent isFind pevs Fp) by (now intros []).
  rewrite (filter_none_b afterFindEvent isFind evs F) by (now intros []).
  reflexivity.
Qed.

Lemma processDomains_reuse_checks (env : Env) (m : Manager)
    (domains : list config.DomainConfig) :
  (forall d w, In d domains ->
               fst (GetProvidersForDomain env (config_ m) d w) = None) ->
  forall w, exists evs,
    trace (snd (processDomains env m domains w)) = trace w ++ evs /\
    filter isFind evs = map (reuseCheckOf env) domains.
Proof.
  induction domains as [|d rest IH]; intros Hp w.
  - exists []. cbn. now rewrite app_nil_r.
  - cbn [processDomains]. unfold bind.
    destruct (ProcessDomain_reuse_check_once env m d w (Hp d w (or_introl eq_refl)))
      as (evs1 & T1 & F1).
    destruct (ProcessDomain env m d w) as [r w1]. cbn [snd] in T1.
    destruct (IH (fun d' w' H => Hp d' w' (or_intror H)) w1) as (evs2 & T2 & F2).
    exists (evs1 ++ evs2). split; [now rewrite T2, T1, app_assoc|].
    now rewrite filter_app, F1, F2.
Qed.

(** X4: [Run] never returns an error, and a failing domain does not keep the
    later ones from being processed: when the providers of every configured
    domain can be had, the reuse checks made during the run are those of the
    configured domains, one each, in their order. *)
Theorem Run_processes_every_domain (env : Env) (m : Manager) (w : World) :
  (forall d w', In d (config.Domains (config_ m)) ->
                fst (GetProvidersForDomain env (config_ m) d w') = None) ->
  fst (Run env m w) = None /\
  filter isFind (eventsSince w (snd (Run env m w))) =
    map (reuseCheckOf env) (config.Domains (config_ m)).
Proof.
  intros Hp. unfold Run, bind, ret.
  destruct (processDomains_reuse_checks env m _ Hp w) as (evs & T & F).
  destruct (processDomains env m (config.Domains (config_ m)) w) as [u w1].
  cbn [fst snd] in *. split; [reflexivity|].
  now rewrite (eventsSince_app _ _ _ T).
Qed.

Lemma Run_processes_every_domain_witness :
  fst (ProcessDomain batchEnv (NewManager batchConfig) failedDomain World0) <> None /\
  fst (Run batchEnv (NewManager batchConfig) World0) = None /\
  filter isFind (eventsSince World0 (snd (Run batchEnv (NewManager batchConfig) World0)))
    = [reuseCheckOf batchEnv failedDomain; reuseCheckOf batchEnv sampleDomain].
Proof.
  split; [vm_compute; discriminate|].
  apply (Run_processes_every_domain batchEnv (NewManager batchConfig) World0).
  intros d w' [<-|[<-|[]]];
    unfold GetProvidersForDomain, GetCertProvider, GetDNSProvider, bind, ret,
      CachedCertProvider, CachedDNSProvider, NewCertProvider, NewDNSProvider;
    cbn;
    repeat match goal with
    | |- context [if ?b then _ else _] => destruct b; cbn
    end; reflexivity.
Defined.

(** ** A certificate that needs nothing *)

(** X5: when the CA offers nothing to reuse and the certificate served by
    the live endpoint covers the domain and has more than [RenewDays] days
    left, [ProcessDomain] succeeds after the reuse check and the probe alone:
    no order is placed, nothing is polled, written or executed. *)
Theorem healthy_certificate_is_left_alone (env : Env) (m : Manager)
    (domainCfg : config.DomainConfig) (w w0 : World)
    (leaf : PeerCertificate) (rest : list PeerCertificate) :
  GetProvidersForDomain env (config_ m) domainCfg w = (None, w0) ->
  fst (findValidCertificate env (config.Domain domainCfg) (config.RenewDays domainCfg))
    = None ->
  tlsDial env (config.Domain domainCfg ++ ":443") = inl (leaf :: rest) ->
  matchDomain ((if negb (String.eqb (CommonName leaf) "") then [CommonName leaf] else [])
                 ++ DNSNames leaf) (config.Domain domainCfg) = true ->
  (config.RenewDays domainCfg < daysUntil env (LeafNotAfter leaf))%Z ->
  ProcessDomain env m domainCfg w =
  (None,
   emit (EvTLSDial (config.Domain domainCfg ++ ":443") (inl (leaf :: rest)))
     (emit (reuseCheckOf env domainCfg) w0)).
Proof.
  intros Hp Hf Hd Hm Hdays.
  rewrite ProcessDomain_afterReuseCheck, Hp.
  unfold afterReuseCheck, bind, ret. rewrite Hf. cbn [negb].
  unfold acquireNew, bind, ret. run_validator. rewrite Hd; norm.
  rewrite Hm. cbn [negb]; norm.
  replace (Z.leb (daysUntil env (LeafNotAfter leaf)) (config.RenewDays domainCfg))
    with false by (symmetry; apply Z.leb_gt; lia).
  reflexivity.
Qed.

Lemma healthy_certificate_is_left_alone_witness :
  ProcessDomain healthyEnv (NewManager sampleConfig) sampleDomain World0 =
  (None,
   {| polls := 0; adds := 0; checks := 0; fsops := 0;
      trace := [EvNewCertProvider "aliyun" None; EvNewDNSProvider "aliyun" None;
                reuseCheckOf healthyEnv sampleDomain;
                EvTLSDial "www.example.com:443" (inl [liveLeaf])] |}).
Proof.
  apply (healthy_certificate_is_left_alone healthyEnv (NewManager sampleConfig)
           sampleDomain World0
           (snd (GetProvidersForDomain healthyEnv sampleConfig sampleDomain World0))
           liveLeaf []);
    reflexivity.
Defined.

(** ** The post command cannot fail a run *)

Lemma runPostCommand_leaves_the_rest (env : Env) (m : Manager)
    (domainCfg : config.DomainConfig) (w : World) :
  filter notExec (trace (snd (runPostCommand env m domainCfg w)))
    = filter notExec (trace w).
Proof.
  destruct (runPostCommand_emits env m domainCfg w) as (evs & T & F).
  rewrite T, filter_app.
  rewrite (filter_none_b isExec notExec evs F).
  - apply app_nil_r.
  - intros e He. unfold notExec. now rewrite He.
Qed.

Lemma acquireNew_withExec (env : Env) (exec : string -> option error) (m : Manager)
    (domainCfg : config.DomainConfig) (w : World) :
  fst (acquireNew (withExec env exec) m domainCfg w) = fst (acquireNew env m domainCfg w) /\
  filter notExec (trace (snd (acquireNew (withExec env exec) m domainCfg w)))
    = filter notExec (trace (snd (acquireNew env m domainCfg w))).
Proof.
  unfold acquireNew, bind, ret.
  change (NeedRenew (withExec env exec)) with (NeedRenew env).
  change (ApplyCertificate (withExec env exec)) with (ApplyCertificate env).
  change (waitForDNSValidation (withExec env exec)) with (waitForDNSValidation env).
  change (DownloadCertificate (withExec env exec)) with (DownloadCertificate env).
  change (storage.SaveCertificate (withExec env exec))
    with (storage.SaveCertificate env).
  destruct (NeedRenew env _ _ w) as [[[needRenew expiry] nerr] w1].
  destruct (negb needRenew); [now split|].
  destruct (ApplyCertificate env _ w1) as [[orderID|err] w2]; [|now split].
  destruct (waitForDNSValidation env _ orderID w2) as [[err|] w3]; [now split|].
  destruct (DownloadCertificate env orderID w3) as [[cert|err] w4]; [|now split].
  destruct (storage.SaveCertificate env _ _ cert w4) as [[err|] w5]; [now split|].
  pose proof (runPostCommand_leaves_the_rest (withExec env exec) m domainCfg w5) as A.
  pose proof (runPostCommand_leaves_the_rest env m domainCfg w5) as B.
  destruct (runPostCommand (withExec env exec) m domainCfg w5) as [u1 w6].
  destruct (runPostCommand env m domainCfg w5) as [u2 w7].
  cbn [fst snd] in *. split; [reflexivity|congruence].
Qed.

(** X6: the post command cannot change the outcome of [ProcessDomain]:
    whatever the shell answers, the result is the same and so is everything
    the run does apart from the command itself. *)
Theorem post_command_never_fails_a_run (env : Env) (exec : string -> option error)
    (m : Manager) (domainCfg : config.DomainConfig) (w : World) :
  fst (ProcessDomain (withExec env exec) m domainCfg w)
    = fst (ProcessDomain env m domainCfg w) /\
  filter notExec (trace (snd (ProcessDomain (withExec env exec) m domainCfg w)))
    = filter notExec (trace (snd (ProcessDomain env m domainCfg w))).
Proof.
  rewrite !ProcessDomain_afterReuseCheck.
  change (GetProvidersForDomain (withExec env exec))
    with (GetProvidersForDomain env).
  change (findValidCertificate (withExec env exec)) with (findValidCertificate env).
  destruct (GetProvidersForDomain env (config_ m) domainCfg w) as [[err|] w0];
    [now split|].
  unfold afterReuseCheck, bind, ret.
  change (GetCertificateDetail (withExec env exec)) with (GetCertificateDetail env).
  change (storage.SaveCertificate (withExec env exec))
    with (storage.SaveCertificate env).
  assert (forall w1,
    fst (let (_, w2) := runPostCommand (withExec env exec) m domainCfg w1 in
         (@None error, w2)) =
    fst (let (_, w2) := runPostCommand env m domainCfg w1 in (@None error, w2)) /\
    filter notExec
      (trace (snd (let (_, w2) := runPostCommand (withExec env exec) m domainCfg w1 in
                   (@None error, w2)))) =
    filter notExec
      (trace (snd (let (_, w2) := runPostCommand env m domainCfg w1 in
                   (@None error, w2))))) as Hpost.
  { intros w1.
    pose proof (runPostCommand_leaves_the_rest (withExec env exec) m domainCfg w1) as A.
    pose proof (runPostCommand_leaves_the_rest env m domainCfg w1) as B.
    destruct (runPostCommand (withExec env exec) m domainCfg w1) as [u1 w6].
    destruct (runPostCommand env m domainCfg w1) as [u2 w7].
    cbn [fst snd] in *. split; [reflexivity|congruence]. }
  destruct (fst (findValidCertificate env _ _)) as [existing|]; cbn [negb].
  - destruct (GetCertificateDetail env _ _) as [[cert|derr] w1]; cbn [negb].
    + destruct (storage.SaveCertificate env _ _ cert w1) as [[serr|] w2]; cbn [negb].
      * apply acquireNew_withExec.
      * apply Hpost.
    + apply acquireNew_withExec.
  - apply acquireNew_withExec.
Qed.

(** ** Cancellation *)

Lemma iterate_add (env : Env) (domain orderID : string) (a b : nat) :
  forall st w,
  iterate env domain orderID (a + b) st w =
  let (f, w1) := iterate env domain orderID a st w in
  match f with
  | Next st1 => iterate env domain orderID b st1 w1
  | Return err => (Return err, w1)
  end.
Proof.
  induction a as [|a IH]; intros st w.
  - reflexivity.
  - cbn [Nat.add]. rewrite !iterate_step.
    destruct (iteration env domain orderID st w) as [[st0|err] w0]; [apply IH|reflexivity].
Qed.

(** X7: a cancellation found by the check at the start of a pass ends the
    polling loop there: when [k < 60] passes have gone by and the next check
    finds the context done, [waitForDNSValidation] returns [ctx.Err()] itself,
    and no poll, DNS write or sleep follows the events of those [k] passes. *)
Theorem cancellation_ends_the_loop (env : Env) (domain orderID : string)
    (k : nat) (w w1 : World) (st1 : LoopState) (ctxErr : error) :
  k < maxRetries ->
  iterate env domain orderID k initLoopState w = (Next st1, w1) ->
  ctxDone env (checks w + k) = Some ctxErr ->
  fst (waitForDNSValidation env domain orderID w) = Some ctxErr /\
  trace (snd (waitForDNSValidation env domain orderID w)) = trace w1.
Proof.
  intros Hk E Hc.
  destruct (iterate_world _ _ _ _ _ _ _ _ E) as (evs & _ & _ & _ & _ & _ & _ & HN & _).
  destruct (HN _ eq_refl) as [_ Hchecks]. rewrite <- Hchecks in Hc.
  rewrite waitForDNSValidation_iterate.
  replace maxRetries with (k + S (maxRetries - S k)) by lia.
  rewrite iterate_add, E, iterate_step.
  unfold iteration, bind, ret, CtxDone. norm. rewrite Hc. norm.
  split; reflexivity.
Qed.

Lemma cancellation_ends_the_loop_witness :
  fst (waitForDNSValidation cancelledEnv "www.example.com" "order-1" World0)
    = Some (errorString "context canceled") /\
  count isPoll
    (trace (snd (waitForDNSValidation cancelledEnv "www.example.com" "order-1" World0)))
    = 1.
Proof.
  destruct (cancellation_ends_the_loop cancelledEnv "www.example.com" "order-1" 1
              World0 _ _ (errorString "context canceled")
              ltac:(unfold maxRetries; lia) eq_refl eq_refl) as [R T].
  split; [exact R|]. rewrite T. reflexivity.
Defined.

(** ** The time spent waiting *)

Lemma totalSleep_app (t1 t2 : list Event) :
  totalSleep (t1 ++ t2) = totalSleep t1 + totalSleep t2.
Proof.
  induction t1 as [|e t1 IH]; [reflexivity|].
  destruct e; cbn; rewrite IH; lia.
Qed.

Lemma iteration_sleep (env : Env) (domain orderID : string) (st : LoopState)
    (w : World) (f : Flow) (w1 : World) :
  iteration env domain orderID st w = (f, w1) ->
  exists evs, trace w1 = trace w ++ evs /\
    count isPoll evs <= 1 /\
    match f with
    | Next _ => count isPoll evs = 1 /\ 10 <= totalSleep evs <= 20
    | Return _ => totalSleep evs = 0
    end.
Proof.
  run_iteration. split_iteration; pair_inv; ex_events; cbn; lia.
Qed.

Lemma iterate_sleep (env : Env) (domain orderID : string) (n : nat) :
  forall st w f w1,
  iterate env domain orderID n st w = (f, w1) ->
  exists evs, trace w1 = trace w ++ evs /\
    count isPoll evs <= n /\
    totalSleep evs <= 20 * count isPoll evs /\
    10 * count isPoll evs <= totalSleep evs + 10.
Proof.
  induction n as [|n IH]; intros st w f w1.
  - cbn. unfold ret. pair_inv. ex_events. cbn. lia.
  - rewrite iterate_step.
    destruct (iteration env domain orderID st w) as [f0 w0] eqn:E.
    apply iteration_sleep in E as (evs0 & T0 & P0 & S0).
    destruct f0 as [st0|err].
    + intros H. apply IH in H as (evs1 & T1 & P1 & U1 & L1).
      exists (evs0 ++ evs1). rewrite T1, T0, app_assoc.
      rewrite count_app, totalSleep_app. repeat split; lia.
    + pair_inv. exists evs0. repeat split; try assumption; lia.
Qed.

(** X8: the pauses the polling loop makes itself, between one pass and the
    next, are bounded by its polls: they add up to at most 20 seconds for
    each poll made, to at least 10 seconds for each poll but the last, and
    to at most 1200 seconds in all.  The time a provider spends inside one
    of its calls (the Aliyun adapter pauses before it asks again after a
    failed request) is not among them. *)
Theorem polling_sleeps_are_bounded (env : Env) (domain orderID : string) (w : World) :
  let evs := eventsSince w (snd (waitForDNSValidation env domain orderID w)) in
  totalSleep evs <= 20 * count isPoll evs /\
  10 * count isPoll evs <= totalSleep evs + 10 /\
  totalSleep evs <= 1200.
Proof.
  intros evs. subst evs. rewrite waitForDNSValidation_iterate.
  destruct (iterate env domain orderID maxRetries initLoopState w) as [f w1] eqn:E.
  apply iterate_sleep in E as (evs & T & P & U & L).
  assert (eventsSince w (snd (match f with
                              | Next _ => (Some (timeoutError orderID), w1)
                              | Return err => (err, w1)
                              end)) = evs) as ->.
  { destruct f; cbn [snd]; apply (eventsSince_app _ _ _ T). }
  unfold maxRetries in P. repeat split; lia.
Qed.

(** ** A DNS API that stays down *)

Lemma iterate_dns_failing (env : Env) (domain orderID : string) (n : nat) :
  forall st w,
  dnsRecordAdded st = false ->
  (forall i, i < n -> ctxDone env (checks w + i) = None) ->
  (forall i, i < n ->
     exists s, getCertificateStatus env (polls w + i) orderID = inl s /\
               hasChallenge s = true) ->
  (forall i d rr t v, i < n -> addRecord env (adds w + i) d rr t v <> None) ->
  exists st1 w1 evs,
    iterate env domain orderID n st w = (Next st1, w1) /\
    trace w1 = trace w ++ evs /\
    count isPoll evs = n /\ count isAddRecord evs = n /\
    count addSucceeded evs = 0 /\ totalSleep evs = 10 * n.
Proof.
  induction n as [|n IH]; intros st w Hst Hc Hp Ha.
  - exists st, w, []. cbn. unfold ret. now rewrite app_nil_r.
  - rewrite iterate_step.
    pose proof (Hc 0 ltac:(lia)) as Hc0.
    destruct (Hp 0 ltac:(lia)) as (s & Hp0 & Hs).
    rewrite Nat.add_0_r in Hc0, Hp0.
    apply hasChallenge_inv in Hs as [Hv He].
    run_iteration. rewrite Hc0. norm. rewrite Hp0. norm.
    rewrite Hv. norm. rewrite He. norm. rewrite Hst. norm. cbn [negb orb]. norm.
    pose proof (Ha 0 domain (provider.RecordDomain s) (provider.RecordType s)
                  (provider.RecordValue s) ltac:(lia)) as Ha0.
    rewrite Nat.add_0_r in Ha0.
    destruct (addRecord env (adds w) domain (provider.RecordDomain s)
                (provider.RecordType s) (provider.RecordValue s)) as [aerr|] eqn:Ea;
      [|contradiction]. norm.
    match goal with
    | |- context [iterate env domain orderID n ?st0 ?w0] =>
        destruct (IH st0 w0) as (st1 & w1 & evs & E & T & P & A & S0 & Z0)
    end.
    + reflexivity.
    + intros i Hi. cbn [checks]. rewrite Nat.add_succ_comm. apply Hc. lia.
    + intros i Hi. cbn [polls]. rewrite Nat.add_succ_comm. apply Hp. lia.
    + intros i d rr t v Hi. cbn [adds]. rewrite Nat.add_succ_comm. apply Ha. lia.
    + exists st1, w1. eexists. split; [exact E|]. cbn [trace] in T.
      split; [rewrite T, <- !app_assoc; reflexivity|].
      rewrite !count_app, !totalSleep_app, P, A, S0, Z0. cbn. repeat split; lia.
Qed.

(** X9: a DNS write that keeps failing never ends the polling loop by
    itself: while the CA stays at [domain_verify] with a challenge and nothing
    is cancelled, the write is tried again on every one of the 60 passes, 10
    seconds apart, and the loop ends in the timeout error. *)
Theorem persistent_dns_failure_times_out (env : Env) (domain orderID : string)
    (w : World) :
  (forall i, i < maxRetries -> ctxDone env (checks w + i) = None) ->
  (forall i, i < maxRetries ->
     exists s, getCertificateStatus env (polls w + i) orderID = inl s /\
               hasChallenge s = true) ->
  (forall i d rr t v, i < maxRetries -> addRecord env (adds w + i) d rr t v <> None) ->
  let run := waitForDNSValidation env domain orderID w in
  let evs := eventsSince w (snd run) in
  fst run = Some (timeoutError orderID) /\
  count isAddRecord evs = maxRetries /\
  count addSucceeded evs = 0 /\
  totalSleep evs = 600.
Proof.
  intros Hc Hp Ha run evs. subst run evs.
  destruct (iterate_dns_failing env domain orderID maxRetries initLoopState w
              eq_refl Hc Hp Ha) as (st1 & w1 & evs & E & T & _ & A & S0 & Z0).
  rewrite waitForDNSValidation_iterate, E. cbn [fst snd].
  rewrite (eventsSince_app _ _ _ T).
  repeat split; assumption.
Qed.

Lemma persistent_dns_failure_times_out_witness :
  fst (waitForDNSValidation dnsDownEnv "www.example.com" "order-1" World0)
    = Some (timeoutError "order-1") /\
  count isAddRecord
    (eventsSince World0
       (snd (waitForDNSValidation dnsDownEnv "www.example.com" "order-1" World0)))
    = 60.
Proof.
  destruct (persistent_dns_failure_times_out dnsDownEnv "www.example.com" "order-1"
              World0) as (R & A & _).
  - intros i _. reflexivity.
  - intros i _. eexists. split; reflexivity.
  - intros i d rr t v _. discriminate.
  - split; [exact R|exact A].
Defined.

(** ** Issuance *)

Lemma acquireNew_afterIssuance (env : Env) (m : Manager)
    (domainCfg : config.DomainConfig) (w : World) :
  acquireNew env m domainCfg w =
  let (nr, w1) := NeedRenew env (config.Domain domainCfg) (config.RenewDays domainCfg) w in
  if negb (fst (fst nr)) then (None, w1)
  else
    match applyCertificate env (config.Domain domainCfg) with
    | inr err =>
        (Some (wrapError "申请证书失败: " err),
         emit (EvApplyCertificate (config.Domain domainCfg) (inr err)) w1)
    | inl orderID =>
        afterIssuance env m domainCfg orderID
          (emit (EvApplyCertificate (config.Domain domainCfg) (inl orderID)) w1)
    end.
Proof.
  unfold acquireNew, bind at 1.
  destruct (NeedRenew env _ _ w) as [[[needRenew expiry] nerr] w1]. cbn [fst].
  destruct (negb needRenew); [reflexivity|].
  unfold bind at 1, ApplyCertificate.
  destruct (applyCertificate env (config.Domain domainCfg)); reflexivity.
Qed.

Lemma afterIssuance_emits (env : Env) (m : Manager) (domainCfg : config.DomainConfig)
    (orderID : string) :
  emitsOnly notApply (afterIssuance env m domainCfg orderID).
Proof.
  unfold afterIssuance.
  repeat first
    [ (apply (emitsOnly_weaken loopEvent); [now intros []|apply waitForDNSValidation_emits])
    | (apply (emitsOnly_weaken fsEvent); [now intros []|apply SaveCertificate_emits])
    | (apply (emitsOnly_weaken isExec); [now intros []|apply runPostCommand_emits])
    | emits_one | emits_step ].
Qed.

Lemma issuedOnce_none (env : Env) (domain : string) (w : World)
    (run : option error * World) (evs : list Event) :
  trace (snd run) = trace w ++ evs -> forallb beforeIssuance evs = true ->
  issuedOnce env domain w run.
Proof.
  intros T F. exists evs, []. rewrite app_nil_r. auto.
Qed.

Lemma issuedOnce_prefix (env : Env) (domain : string) (w w0 : World)
    (run : option error * World) (evs0 : list Event) :
  trace w0 = trace w ++ evs0 -> forallb beforeIssuance evs0 = true ->
  issuedOnce env domain w0 run -> issuedOnce env domain w run.
Proof.
  intros T0 F0 (pre & post & T & F & H).
  exists (evs0 ++ pre), post. split; [now rewrite T, T0, <- !app_assoc|].
  split; [now rewrite forallb_app, F0, F|exact H].
Qed.

Lemma acquireNew_issuedOnce (env : Env) (m : Manager)
    (domainCfg : config.DomainConfig) (w : World) :
  issuedOnce env (config.Domain domainCfg) w (acquireNew env m domainCfg w).
Proof.
  rewrite acquireNew_afterIssuance.
  destruct (NeedRenew_emits env (config.Domain domainCfg)
              (config.RenewDays domainCfg) w) as (evs0 & T0 & F0).
  destruct (NeedRenew env _ _ w) as [nr w1]. cbn [snd] in T0.
  assert (forallb beforeIssuance evs0 = true) as B0.
  { rewrite forallb_forall in *. intros e He. apply F0 in He. now destruct e. }
  destruct (negb (fst (fst nr))).
  { now apply (issuedOnce_none _ _ _ _ evs0). }
  exists evs0.
  destruct (applyCertificate env (config.Domain domainCfg)) as [orderID|err] eqn:Ea.
  - destruct (afterIssuance_emits env m domainCfg orderID
                (emit (EvApplyCertificate (config.Domain domainCfg) (inl orderID)) w1))
      as (evs1 & T1 & F1).
    exists (EvApplyCertificate (config.Domain domainCfg) (inl orderID) :: evs1).
    split; [rewrite T1; cbn [emit trace]; rewrite T0, <- !app_assoc; reflexivity|].
    split; [exact B0|]. right. exists evs1. repeat split; try assumption; discriminate.
  - exists [EvApplyCertificate (config.Domain domainCfg) (inr err)].
    split; [cbn [snd emit trace]; rewrite T0, <- !app_assoc; reflexivity|].
    split; [exact B0|]. right. exists []. split; [reflexivity|].
    split; [reflexivity|]. intros err0 [= <-]. split; reflexivity.
Qed.

Lemma ProcessDomain_issuedOnce (env : Env) (m : Manager)
    (domainCfg : config.DomainConfig) (w : World) :
  issuedOnce env (config.Domain domainCfg) w (ProcessDomain env m domainCfg w).
Proof.
  rewrite ProcessDomain_afterReuseCheck.
  destruct (GetProvidersForDomain_emits env (config_ m) domainCfg w) as (evs0 & T0 & F0).
  destruct (GetProvidersForDomain env (config_ m) domainCfg w) as [p w0].
  cbn [snd] in T0.
  assert (forallb beforeIssuance evs0 = true) as B0.
  { rewrite forallb_forall in *. intros e He. apply F0 in He. now destruct e. }
  destruct p as [err|]; [now apply (issuedOnce_none _ _ _ _ evs0)|].
  apply (issuedOnce_prefix _ _ _ _ _ _ T0 B0). clear T0 B0 F0 evs0 w.
  set (found := findValidCertificate env _ _).
  set (w1 := emit _ w0).
  apply (issuedOnce_prefix _ _ _ w1 _
           [EvFindValidCertificate (config.Domain domainCfg)
              (config.RenewDays domainCfg) found]); [reflexivity|reflexivity|].
  clearbody w1. clear w0.
  unfold afterReuseCheck, bind at 1.
  destruct (fst found) as [existing|]; [|unfold ret; apply acquireNew_issuedOnce].
  unfold bind at 1, GetCertificateDetail.
  set (detail := getCertificateDetail env (provider.CertID existing)).
  apply (issuedOnce_prefix _ _ _ (emit (EvGetCertificateDetail
                                          (provider.CertID existing) detail) w1) _
           [EvGetCertificateDetail (provider.CertID existing) detail]);
    [reflexivity|reflexivity|].
  cbv zeta. set (w2 := emit _ w1). clearbody w2. clear w1.
  destruct detail as [cert|derr]; [|unfold ret; apply acquireNew_issuedOnce].
  unfold bind at 1.
  destruct (SaveCertificate_emits env (storage_ m) (config.Domain domainCfg) cert w2)
    as (evs2 & T2 & F2).
  destruct (storage.SaveCertificate env _ _ cert w2) as [s w3]. cbn [snd] in T2.
  assert (forallb beforeIssuance evs2 = true) as B2.
  { rewrite forallb_forall in *. intros e He. apply F2 in He. now destruct e. }
  apply (issuedOnce_prefix _ _ _ _ _ _ T2 B2).
  destruct s as [serr|]; unfold ret; cbn [negb]; [apply acquireNew_issuedOnce|].
  unfold bind.
  destruct (runPostCommand_emits env m domainCfg w3) as (evs3 & T3 & F3).
  destruct (runPostCommand env m domainCfg w3) as [u w4]. cbn [snd] in T3.
  apply (issuedOnce_none _ _ _ _ evs3); [exact T3|].
  rewrite forallb_forall in *. intros e He. apply F3 in He. now destruct e.
Qed.

Lemma count_forallb_none (Q R : Event -> bool) (evs : list Event) :
  forallb Q evs = true -> (forall e, Q e = true -> R e = false) -> count R evs = 0.
Proof.
  intros F H. unfold count. now rewrite (filter_none_b Q R evs F H).
Qed.

(** X10: a run of [ProcessDomain] asks the CA for issuance at most once, and
    a refused request is final: it is the last thing the run does, the run
    returns that error, and no status poll, DNS write or download has been
    made. *)
Theorem issuance_is_never_retried (env : Env) (m : Manager)
    (domainCfg : config.DomainConfig) (w : World) :
  let domain := config.Domain domainCfg in
  let run := ProcessDomain env m domainCfg w in
  let evs := eventsSince w (snd run) in
  count isApply evs <= 1 /\
  (forall err, applyCertificate env domain = inr err ->
     count isPoll evs = 0 /\ count isAddRecord evs = 0 /\ count isDownload evs = 0 /\
     (count isApply evs = 1 ->
        fst run = Some (wrapError "申请证书失败: " err) /\
        exists pre, evs = pre ++ [EvApplyCertificate domain (inr err)])).
Proof.
  intros domain run evs. subst domain run evs.
  destruct (ProcessDomain_issuedOnce env m domainCfg w) as (pre & post & T & B & H).
  rewrite (eventsSince_app _ _ _ T).
  assert (forall R, (forall e, beforeIssuance e = true -> R e = false) ->
                    count R pre = 0) as Hpre.
  { intros R HR. now apply (count_forallb_none beforeIssuance). }
  rewrite !count_app.
  rewrite (Hpre isApply), (Hpre isPoll), (Hpre isAddRecord), (Hpre isDownload);
    try (now intros []).
  destruct H as [->|(rest & -> & N & F)].
  - cbn. split; [lia|]. intros err _. split; [reflexivity|].
    split; [reflexivity|]. split; [reflexivity|]. discriminate.
  - assert (count isApply rest = 0) as Hrest.
    { apply (count_forallb_none notApply); [exact N|].
      intros e He. unfold notApply in He. now destruct (isApply e). }
    split.
    + unfold count in *. cbn. rewrite Hrest. lia.
    + intros err Ea. destruct (F err Ea) as [-> R]. rewrite Ea.
      repeat split; try reflexivity.
      * exact R.
      * exists pre. reflexivity.
Qed.

Lemma issuance_is_never_retried_witness :
  fst (ProcessDomain huaweiEnv (NewManager sampleConfig) sampleDomain World0)
    = Some (wrapError "申请证书失败: "
              (errorString
                 "华为云暂不支持通过API申请免费证书，请在控制台手动申请后使用此工具管理")) /\
  count isPoll
    (eventsSince World0
       (snd (ProcessDomain huaweiEnv (NewManager sampleConfig) sampleDomain World0)))
    = 0.
Proof.
  destruct (issuance_is_never_retried huaweiEnv (NewManager sampleConfig)
              sampleDomain World0) as [_ H].
  destruct (H _ eq_refl) as (P & _ & _ & R).
  split; [|exact P].
  apply R. reflexivity.
Defined.

(** ** Persistence, the failures *)

(** X11: [SaveCertificate] stops at the first step that fails and undoes
    nothing: its error names that step and wraps the cause, no later file is
    touched, and the files written before stay as written (after a failed
    write of [key.pem] the new [cert.pem] is in place). *)
Theorem SaveCertificate_stops_at_first_failure (env : Env) (s : storage.FileStorage)
    (domain : string) (cert : provider.Certificate) (w : World) (err : error) :
  let run := storage.SaveCertificate env s domain cert w in
  let evs := eventsSince w (snd run) in
  let made := EvMkdirAll (storage.GetCertDir s domain) 493 None in
  let leaf := EvWriteFile (storage.GetCertPath s domain)
                (provider.CertificatePEM cert) 420 None in
  fst run = Some err ->
  (exists cause,
     err = wrapError "创建目录失败: " cause /\
     evs = [EvMkdirAll (storage.GetCertDir s domain) 493 (Some cause)]) \/
  (exists cause,
     err = wrapError "保存证书失败: " cause /\
     evs = [made; EvWriteFile (storage.GetCertPath s domain)
                    (provider.CertificatePEM cert) 420 (Some cause)]) \/
  (exists cause,
     err = wrapError "保存私钥失败: " cause /\
     provider.PrivateKey cert <> "" /\
     evs = [made; leaf; EvWriteFile (storage.GetKeyPath s domain)
                          (provider.PrivateKey cert) 384 (Some cause)]).
Proof.
  intros run evs made leaf. subst run evs made leaf.
  unfold storage.GetCertDir, storage.GetCertPath, storage.GetKeyPath.
  rewrite <- (Join_nested _ _ "cert.pem"), <- (Join_nested _ _ "key.pem")
    by reflexivity.
  run_save.
  destruct (mkdirAll env (fsops w) _) as [e0|]; norm.
  { intros [= <-]. left. exists e0. split; [reflexivity|].
    now apply eventsSince_app. }
  destruct (writeFile env (S (fsops w)) _) as [e1|]; norm.
  { intros [= <-]. right. left. exists e1. split; [reflexivity|].
    apply eventsSince_app. cbn [trace]. now rewrite <- app_assoc. }
  destruct (String.eqb (provider.PrivateKey cert) "") eqn:Ek; norm; cbn [negb]; norm.
  { discriminate. }
  destruct (writeFile env (S (S (fsops w))) _) as [e2|]; norm.
  { intros [= <-]. right. right. exists e2. split; [reflexivity|].
    split; [now apply String.eqb_neq|].
    apply eventsSince_app. cbn [trace]. now rewrite <- !app_assoc. }
  discriminate.
Qed.

Lemma SaveCertificate_stops_at_first_failure_witness :
  exists cause,
    eventsSince World0
      (snd (storage.SaveCertificate
              (scriptedEnv [] [] None (inl sampleCert)
                 (fun path => String.eqb path "certs/www.example.com/key.pem"))
              (storage.NewFileStorage "./certs") "www.example.com" sampleCert World0))
    = [EvMkdirAll "certs/www.example.com" 493 None;
       EvWriteFile "certs/www.example.com/cert.pem" "LEAF" 420 None;
       EvWriteFile "certs/www.example.com/key.pem" "KEY" 384 (Some cause)].
Proof.
  destruct (SaveCertificate_stops_at_first_failure
              (scriptedEnv [] [] None (inl sampleCert)
                 (fun path => String.eqb path "certs/www.example.com/key.pem"))
              (storage.NewFileStorage "./certs") "www.example.com" sampleCert World0
              (wrapError "保存私钥失败: " (errorString "permission denied")) eq_refl)
    as [(cause & H & _)|[(cause & H & _)|(cause & _ & _ & H)]];
    [discriminate H|discriminate H|].
  exists cause. exact H.
Defined.

(** ** The post command and its placeholders *)

Lemma prefix_cons (a b : ascii) (s1 s2 : string) :
  String.prefix (String a s1) (String b s2) = Ascii.eqb a b && String.prefix s1 s2.
Proof.
  cbn [String.prefix]. destruct (ascii_dec a b) as [->|Hab].
  - now rewrite Ascii.eqb_refl.
  - apply Ascii.eqb_neq in Hab. now rewrite Hab.
Qed.

Lemma prefix_append (s post : string) : String.prefix s (s ++ post) = true.
Proof.
  induction s as [|a s IH]; [now destruct post|].
  cbn [append]. now rewrite prefix_cons, Ascii.eqb_refl.
Qed.

Lemma lacks_app (c : ascii) (s t : string) :
  lacks c (s ++ t) = lacks c s && lacks c t.
Proof.
  induction s as [|a s IH]; [reflexivity|].
  cbn. now rewrite IH, andb_assoc.
Qed.

Lemma replaceFrom_skip (old new r post : string) :
  replaceFrom old new (String.length r) (r ++ post) = replaceFrom old new 0 post.
Proof.
  induction r as [|a r IH]; [reflexivity|].
  cbn [String.length append]. destruct post; cbn [replaceFrom]; exact IH.
Qed.

Lemma replaceFrom_cons0 (old new : string) (c : ascii) (r : string) :
  replaceFrom old new 0 (String c r) =
  if String.prefix old (String c r)
  then (new ++ replaceFrom old new (String.length old - 1) r)%string
  else String c (replaceFrom old new 0 r).
Proof. reflexivity. Qed.

Lemma replaceFrom_match (c : ascii) (o new post : string) :
  replaceFrom (String c o) new 0 (String c o ++ post)
    = (new ++ replaceFrom (String c o) new 0 post)%string.
Proof.
  pose proof (prefix_append (String c o) post) as Hp.
  cbn [append] in *. cbn [replaceFrom]. rewrite Hp.
  cbn [String.length Nat.sub]. rewrite Nat.sub_0_r.
  now rewrite replaceFrom_skip.
Qed.

Lemma replaceFrom_lacks (c : ascii) (o new s : string) :
  lacks c s = true -> replaceFrom (String c o) new 0 s = s.
Proof.
  induction s as [|a s IH]; [reflexivity|].
  cbn [lacks]. intros H. apply andb_prop in H as [Ha Hs].
  cbn [replaceFrom]. rewrite prefix_cons.
  apply negb_true_iff in Ha. rewrite Ascii.eqb_sym in Ha. rewrite Ha.
  cbn [andb]. now rewrite IH.
Qed.

Lemma replaceFrom_lacks_prefix (c : ascii) (o new pre s : string) :
  lacks c pre = true ->
  replaceFrom (String c o) new 0 (pre ++ s)
    = (pre ++ replaceFrom (String c o) new 0 s)%string.
Proof.
  induction pre as [|a pre IH]; [reflexivity|].
  cbn [lacks]. intros H. apply andb_prop in H as [Ha Hs].
  cbn [append replaceFrom]. rewrite prefix_cons.
  apply negb_true_iff in Ha. rewrite Ascii.eqb_sym in Ha. rewrite Ha.
  cbn [andb]. now rewrite IH.
Qed.

Lemma substitute_lacks (command : string) (kv : string * string) :
  lacks "$" command = true -> substitute command kv = command.
Proof.
  intros H. unfold substitute, ReplaceAll. cbn [append].
  now apply replaceFrom_lacks.
Qed.

Lemma fold_substitute_lacks (vars : list (string * string)) (command : string) :
  lacks "$" command = true -> fold_left substitute vars command = command.
Proof.
  intros H. induction vars as [|kv vars IH]; [reflexivity|].
  cbn [fold_left]. now rewrite substitute_lacks.
Qed.

(** Two placeholders with brace-free names: one is a prefix of the other
    only when the names are equal. *)
Lemma prefix_placeholder (k key post : string) :
  lacks "}" k = true -> lacks "}" key = true ->
  String.prefix (k ++ "}") (key ++ "}" ++ post) = true -> k = key.
Proof.
  revert key. induction k as [|a k IH]; intros [|b key] Hk Hkey.
  - reflexivity.
  - cbn [append]. rewrite prefix_cons. cbn [lacks] in Hkey.
    apply andb_prop in Hkey as [Hb _]. apply negb_true_iff in Hb.
    rewrite Ascii.eqb_sym, Hb. discriminate.
  - cbn [append]. rewrite prefix_cons. cbn [lacks] in Hk.
    apply andb_prop in Hk as [Ha _]. apply negb_true_iff in Ha.
    rewrite Ha. discriminate.
  - cbn [append]. rewrite prefix_cons. cbn [lacks] in Hk, Hkey.
    apply andb_prop in Hk as [_ Hk]. apply andb_prop in Hkey as [_ Hkey].
    intros H. apply andb_prop in H as [Hab H].
    apply Ascii.eqb_eq in Hab. subst b. f_equal. now apply IH.
Qed.

Lemma substitute_placeholder (pre key post : string) (kv : string * string) :
  lacks "$" pre = true -> lacks "$" post = true ->
  lacks "}" key = true -> lacks "$" key = true -> lacks "}" (fst kv) = true ->
  substitute (pre ++ "${" ++ key ++ "}" ++ post) kv =
  if String.eqb (fst kv) key then (pre ++ snd kv ++ post)%string
  else (pre ++ "${" ++ key ++ "}" ++ post)%string.
Proof.
  intros Hpre Hpost Hkey Hkey' Hk. unfold substitute, ReplaceAll.
  cbn [append]. rewrite replaceFrom_lacks_prefix by exact Hpre.
  destruct (String.eqb (fst kv) key) eqn:E.
  - apply String.eqb_eq in E. rewrite E.
    replace (String "$" (String "{" (key ++ String "}" post)))
      with (String "$" (String "{" (key ++ "}")) ++ post)%string.
    + rewrite replaceFrom_match. now rewrite replaceFrom_lacks.
    + cbn [append]. now rewrite append_assoc.
  - f_equal. rewrite replaceFrom_cons0, !prefix_cons.
    destruct (String.prefix (fst kv ++ "}") (key ++ String "}" post)) eqn:P.
    + apply (prefix_placeholder _ _ post Hk Hkey) in P.
      apply String.eqb_neq in E. contradiction.
    + rewrite !andb_false_r. f_equal.
      rewrite replaceFrom_cons0, prefix_cons.
      change (Ascii.eqb "$" "{") with false. cbn [andb]. f_equal.
      apply replaceFrom_lacks.
      rewrite lacks_app, Hkey'. cbn. exact Hpost.
Qed.

Lemma insertAt_Permutation {A : Type} (n : nat) (x : A) (l : list A) :
  Permutation (insertAt n x l) (x :: l).
Proof.
  revert n. induction l as [|y r IH]; intros [|k]; cbn; try reflexivity.
  rewrite IH. apply perm_swap.
Qed.

Lemma shuffleBy_Permutation {A : Type} (code : list nat) (l : list A) :
  Permutation (shuffleBy code l) l.
Proof.
  revert code. induction l as [|x r IH]; intros code; cbn; [reflexivity|].
  rewrite insertAt_Permutation. now constructor.
Qed.

Lemma insertAt_middle {A : Type} (l1 l2 : list A) (x : A) :
  insertAt (List.length l1) x (l1 ++ l2) = l1 ++ x :: l2.
Proof. induction l1 as [|y l1 IH]; [now destruct l2|]. cbn. now rewrite IH. Qed.

(** Every order of the entries is the order of some visit. *)
Lemma shuffleBy_complete {A : Type} (l l' : list A) :
  Permutation l l' -> exists code, shuffleBy code l = l'.
Proof.
  revert l'. induction l as [|x r IH]; intros l' Hp.
  - apply Permutation_nil in Hp. subst. now exists [].
  - assert (Hin : In x l') by (apply (Permutation_in _ Hp); now left).
    apply in_split in Hin as (l1 & l2 & ->).
    apply Permutation_cons_app_inv in Hp.
    destruct (IH _ Hp) as [code E].
    exists (List.length l1 :: code). cbn. rewrite E. apply insertAt_middle.
Qed.

Lemma fold_substitute_placeholder (pre key value post : string) :
  lacks "$" pre = true -> lacks "$" post = true ->
  lacks "}" key = true -> lacks "$" key = true -> lacks "$" value = true ->
  forall vars,
  NoDup (map fst vars) ->
  (forall kv, In kv vars -> lacks "}" (fst kv) = true) ->
  In (key, value) vars ->
  fold_left substitute vars (pre ++ "${" ++ key ++ "}" ++ post)%string
    = (pre ++ value ++ post)%string.
Proof.
  intros Hpre Hpost Hkey Hkey' Hvalue.
  induction vars as [|kv vars IH]; intros Hnd Hk Hin; [destruct Hin|].
  cbn [fold_left].
  rewrite substitute_placeholder; try assumption; [|apply Hk; now left].
  cbn [map] in Hnd. inversion Hnd as [|? ? Hnot Hnd']. subst.
  destruct (String.eqb (fst kv) key) eqn:E.
  - apply String.eqb_eq in E.
    destruct Hin as [->|Hin].
    + cbn [snd]. apply fold_substitute_lacks.
      now rewrite !lacks_app, Hpre, Hvalue, Hpost.
    + exfalso. apply Hnot. rewrite E.
      change key with (fst (key, value)). now apply in_map.
  - destruct Hin as [->|Hin].
    + cbn [fst] in E. now rewrite String.eqb_refl in E.
    + apply IH; [exact Hnd'| |exact Hin]. intros kv0 H0. apply Hk. now right.
Qed.

(** When the value of a variable holds a placeholder, the command the shell
    is handed depends on the order of the visit. *)
Example visiting_order_matters :
  let vars := [("A", "${B}"); ("B", "x")]%string in
  trace (snd (RunPostCommand (withOrder pendingEnv (fun _ => [])) "echo ${A}" vars
                World0))
    = [EvExecCommand "echo x" None] /\
  trace (snd (RunPostCommand (withOrder pendingEnv (fun _ => [1])) "echo ${A}" vars
                World0))
    = [EvExecCommand "echo ${B}" None].
Proof. split; reflexivity. Qed.

(** X12: a post command without a [$] is handed to the shell as it is,
    whatever the variables. *)
Theorem command_without_placeholder_runs_verbatim (env : Env) (command : string)
    (vars : list (string * string)) (w : World) :
  command <> "" -> lacks "$" command = true ->
  RunPostCommand env command vars w =
  (match execCommand env command with
   | Some err => Some (wrapError "执行命令失败: " err)
   | None => None
   end,
   emit (EvExecCommand command (execCommand env command)) w).
Proof.
  intros Hne Hl. unfold RunPostCommand.
  apply String.eqb_neq in Hne. rewrite Hne.
  change (fun (cmd : string) (kv : string * string) =>
            ReplaceAll cmd ("${" ++ fst kv ++ "}") (snd kv)) with substitute.
  unfold bind, RangeVars. cbn [fst snd].
  rewrite fold_substitute_lacks by exact Hl.
  unfold ExecCommand, ret.
  destruct (execCommand env command); reflexivity.
Qed.

Lemma command_without_placeholder_runs_verbatim_witness :
  trace (snd (RunPostCommand pendingEnv "nginx -s reload"
                (BuildVars "www.example.com" "certs/www.example.com"
                   "certs/www.example.com/cert.pem"
                   "certs/www.example.com/key.pem"
                   "certs/www.example.com/fullchain.pem") World0))
    = [EvExecCommand "nginx -s reload" None].
Proof.
  rewrite (command_without_placeholder_runs_verbatim pendingEnv "nginx -s reload");
    [reflexivity|discriminate|reflexivity].
Defined.

(** X13: a placeholder is replaced by the value of its variable, in whatever
    order the variables are visited: when the command is [pre ++ "${key}" ++
    post], the variable names are distinct and without [}], and neither the
    rest of the command nor the name and value of the variable hold a [$],
    the shell is handed [pre ++ value ++ post]. *)
Theorem placeholder_is_substituted (env : Env) (vars : list (string * string))
    (pre key value post : string) (w : World) :
  NoDup (map fst vars) ->
  (forall kv, In kv vars -> lacks "}" (fst kv) = true) ->
  In (key, value) vars ->
  lacks "$" key = true -> lacks "$" value = true ->
  lacks "$" pre = true -> lacks "$" post = true ->
  let command := (pre ++ value ++ post)%string in
  RunPostCommand env (pre ++ "${" ++ key ++ "}" ++ post) vars w =
  (match execCommand env command with
   | Some err => Some (wrapError "执行命令失败: " err)
   | None => None
   end,
   emit (EvExecCommand command (execCommand env command)) w).
Proof.
  intros Hnd Hk Hin Hkey Hvalue Hpre Hpost command. subst command.
  unfold RunPostCommand.
  replace (String.eqb (pre ++ "${" ++ key ++ "}" ++ post) "") with false.
  - change (fun (cmd : string) (kv : string * string) =>
              ReplaceAll cmd ("${" ++ fst kv ++ "}") (snd kv)) with substitute.
    unfold bind, RangeVars. cbn [fst snd].
    set (visited := shuffleBy _ vars).
    assert (Hp : Permutation visited vars) by apply shuffleBy_Permutation.
    rewrite (fold_substitute_placeholder pre key value post); try assumption.
    + unfold ExecCommand, ret.
      destruct (execCommand env (pre ++ value ++ post)); reflexivity.
    + apply (Hk _ Hin).
    + apply (Permutation_NoDup (l := map fst vars)); [|exact Hnd].
      apply Permutation_map. now symmetry.
    + intros kv H. apply Hk. now apply (Permutation_in _ Hp).
    + apply (Permutation_in _ (Permutation_sym Hp)). exact Hin.
  - symmetry. apply String.eqb_neq. destruct pre; discriminate.
Qed.

Lemma placeholder_is_substituted_witness :
  trace (snd (RunPostCommand pendingEnv "cp ${CERT_FILE} /etc/nginx/ssl/"
                (BuildVars "www.example.com" "certs/www.example.com"
                   "certs/www.example.com/cert.pem"
                   "certs/www.example.com/key.pem"
                   "certs/www.example.com/fullchain.pem") World0))
    = [EvExecCommand "cp certs/www.example.com/cert.pem /etc/nginx/ssl/" None].
Proof.
  rewrite (placeholder_is_substituted pendingEnv
             (BuildVars "www.example.com" "certs/www.example.com"
                "certs/www.example.com/cert.pem"
                "certs/www.example.com/key.pem"
                "certs/www.example.com/fullchain.pem")
             "cp " "CERT_FILE" "certs/www.example.com/cert.pem" " /etc/nginx/ssl/").
  - reflexivity.
  - repeat constructor; cbn; intuition discriminate.
  - intros kv H. cbn in H.
    destruct H as [<-|[<-|[<-|[<-|[<-|[]]]]]]; reflexivity.
  - cbn. tauto.
  - reflexivity.
  - reflexivity.
  - reflexivity.
  - reflexivity.
Defined.

(** ** Configuration *)

Lemma validateDomains_In (cfg : config.Config) (domains : list config.DomainConfig)
    (d : config.DomainConfig) :
  config.validateDomains cfg domains = None -> In d domains ->
  config.validateProviderConfig cfg (config.GetCertProvider d) "证书" = None /\
  config.validateProviderConfig cfg (config.GetDNSProvider d) "DNS" = None /\
  (0 < config.RenewDays d)%Z.
Proof.
  induction domains as [|d0 domains IH]; intros Hv Hin; [destruct Hin|].
  cbn [config.validateDomains] in Hv.
  destruct (config.validateProviderConfig cfg (config.GetCertProvider d0) "证书")
    eqn:Ec; [discriminate|].
  destruct (config.validateProviderConfig cfg (config.GetDNSProvider d0) "DNS")
    eqn:Ed; [discriminate|].
  destruct (Z.leb (config.RenewDays d0) 0) eqn:Er; [discriminate|].
  destruct Hin as [<-|Hin]; [|now apply IH].
  apply Z.leb_gt in Er. auto.
Qed.

Lemma validated_cert_provider (env : Env) (cfg : config.Config)
    (name providerType : string) (w : World) :
  config.validateProviderConfig cfg name providerType = None ->
  GetCertProvider env cfg name w = cachedOrNewCertProvider env name w.
Proof.
  unfold config.validateProviderConfig, GetCertProvider, cachedOrNewCertProvider,
    bind, CachedCertProvider.
  destruct (existsb (builtCertProvider name) (trace w)); [reflexivity|].
  destruct (String.eqb name "aliyun").
  { destruct (config.Aliyun (config.Providers cfg)); [reflexivity|discriminate]. }
  destruct (String.eqb name "tencent").
  { destruct (config.Tencent (config.Providers cfg)); [reflexivity|discriminate]. }
  destruct (String.eqb name "huawei").
  { destruct (config.Huawei (config.Providers cfg)); [reflexivity|discriminate]. }
  discriminate.
Qed.

Lemma validated_dns_provider (env : Env) (cfg : config.Config)
    (name providerType : string) (w : World) :
  config.validateProviderConfig cfg name providerType = None ->
  GetDNSProvider env cfg name w = cachedOrNewDNSProvider env name w.
Proof.
  unfold config.validateProviderConfig, GetDNSProvider, cachedOrNewDNSProvider,
    bind, CachedDNSProvider.
  destruct (existsb (builtDNSProvider name) (trace w)); [reflexivity|].
  destruct (String.eqb name "aliyun").
  { destruct (config.Aliyun (config.Providers cfg)); [reflexivity|discriminate]. }
  destruct (String.eqb name "tencent").
  { destruct (config.Tencent (config.Providers cfg)); [reflexivity|discriminate]. }
  destruct (String.eqb name "huawei").
  { destruct (config.Huawei (config.Providers cfg)); [reflexivity|discriminate]. }
  discriminate.
Qed.

(** X14: a configuration that passed [validate] never meets a configuration
    error in the factory: for each of its domains the renewal threshold is
    positive, and [GetProvidersForDomain] takes each of the two providers
    from the cache or, when it has not been built yet, from its constructor;
    so it fails only with the error of a constructor it has just called. *)
Theorem validated_config_reaches_the_constructors (env : Env) (cfg : config.Config)
    (d : config.DomainConfig) (w : World) :
  config.validate cfg = None -> In d (config.Domains cfg) ->
  let certName := config.GetCertProvider d in
  let dnsName := config.GetDNSProvider d in
  (0 < config.RenewDays d)%Z /\
  GetProvidersForDomain env cfg d w =
  (c <- cachedOrNewCertProvider env certName ;;
   match c with
   | Some err => ret (Some (wrapError "获取证书提供商失败: " err))
   | None =>
     x <- cachedOrNewDNSProvider env dnsName ;;
     match x with
     | Some err => ret (Some (wrapError "获取DNS提供商失败: " err))
     | None => ret None
     end
   end)%go w /\
  (forall err,
     fst (GetProvidersForDomain env cfg d w) = Some err ->
     (newCertProvider env certName <> None /\
      err = wrapError "获取证书提供商失败: "
              (match newCertProvider env certName with
               | Some e => e
               | None => err
               end) /\
      existsb (builtCertProvider certName) (trace w) = false) \/
     (newDNSProvider env dnsName <> None /\
      err = wrapError "获取DNS提供商失败: "
              (match newDNSProvider env dnsName with
               | Some e => e
               | None => err
               end))).
Proof.
  intros Hv Hin certName dnsName. subst certName dnsName.
  unfold config.validate in Hv.
  destruct (Nat.eqb (List.length (config.Domains cfg)) 0); [discriminate|].
  destruct (validateDomains_In _ _ _ Hv Hin) as (Hc & Hd & Hr).
  split; [exact Hr|].
  assert (GetProvidersForDomain env cfg d w =
          (c <- cachedOrNewCertProvider env (config.GetCertProvider d) ;;
           match c with
           | Some err => ret (Some (wrapError "获取证书提供商失败: " err))
           | None =>
             x <- cachedOrNewDNSProvider env (config.GetDNSProvider d) ;;
             match x with
             | Some err => ret (Some (wrapError "获取DNS提供商失败: " err))
             | None => ret None
             end
           end)%go w) as E.
  { unfold GetProvidersForDomain, bind at 1 3.
    rewrite (validated_cert_provider env cfg _ _ w Hc).
    destruct (cachedOrNewCertProvider env (config.GetCertProvider d) w) as [[e|] w1];
      [reflexivity|].
    unfold bind. now rewrite (validated_dns_provider env cfg _ _ w1 Hd). }
  split; [exact E|].
  rewrite E. clear E.
  unfold cachedOrNewCertProvider, cachedOrNewDNSProvider, bind, ret,
    CachedCertProvider, CachedDNSProvider, NewCertProvider, NewDNSProvider.
  intros err.
  destruct (existsb (builtCertProvider (config.GetCertProvider d)) (trace w)) eqn:Cc;
    cbv beta iota zeta.
  - destruct (existsb (builtDNSProvider (config.GetDNSProvider d)) (trace w));
      cbv beta iota zeta; [discriminate|].
    destruct (newDNSProvider env (config.GetDNSProvider d)) as [e|];
      cbn [fst]; [|discriminate].
    intros [= <-]. right. split; [discriminate|reflexivity].
  - destruct (newCertProvider env (config.GetCertProvider d)) as [e|];
      cbv beta iota zeta.
    + cbn [fst]. intros [= <-]. left. repeat split. discriminate.
    + match goal with
      | |- context [if ?b then _ else _] => destruct b; cbv beta iota zeta
      end; [discriminate|].
      destruct (newDNSProvider env (config.GetDNSProvider d)) as [e|];
        cbn [fst]; [|discriminate].
      intros [= <-]. right. split; [discriminate|reflexivity].
Qed.

Lemma validated_config_reaches_the_constructors_witness :
  GetProvidersForDomain pendingEnv batchConfig sampleDomain World0 =
  (None, emit (EvNewDNSProvider "aliyun" None)
           (emit (EvNewCertProvider "aliyun" None) World0)) /\
  GetProvidersForDomain pendingEnv batchConfig sampleDomain
    (emit (EvNewDNSProvider "aliyun" None)
       (emit (EvNewCertProvider "aliyun" None) World0)) =
  (None, emit (EvNewDNSProvider "aliyun" None)
           (emit (EvNewCertProvider "aliyun" None) World0)).
Proof.
  assert (In sampleDomain (config.Domains batchConfig)) as Hin by (cbn; tauto).
  split.
  - destruct (validated_config_reaches_the_constructors pendingEnv batchConfig
                sampleDomain World0 eq_refl Hin) as (_ & E & _).
    rewrite E. reflexivity.
  - destruct (validated_config_reaches_the_constructors pendingEnv batchConfig
                sampleDomain
                (emit (EvNewDNSProvider "aliyun" None)
                   (emit (EvNewCertProvider "aliyun" None) World0))
                eq_refl Hin) as (_ & E & _).
    rewrite E. reflexivity.
Defined.

(** X15: what [Load] hands back is the parsed file with its defaults filled
    in, and it is valid.  The Aliyun credentials under the providers are the
    ones given there, and the ones of the old top-level [aliyun] entry only
    when none is given there; the other credentials, the domains and the
    post command are those of the file.  An empty output directory becomes
    [./certs], a check interval of zero becomes 24 (a negative one is kept),
    a concurrency of zero or less becomes 1, and any other value is kept.
    [validate] accepts the result, so there is at least one domain. *)
Theorem Load_fills_in_defaults (read : string + error) (parse : string -> config.File + error)
    (f : config.File) :
  config.Load read parse = inl f ->
  exists data parsed,
    read = inl data /\ parse data = inl parsed /\
    (forall given,
       config.Aliyun (config.Providers (config.Base parsed)) = Some given ->
       config.Aliyun (config.Providers (config.Base f)) = Some given) /\
    (config.Aliyun (config.Providers (config.Base parsed)) = None ->
     config.Aliyun (config.Providers (config.Base f)) = config.LegacyAliyun parsed) /\
    config.Tencent (config.Providers (config.Base f))
      = config.Tencent (config.Providers (config.Base parsed)) /\
    config.Huawei (config.Providers (config.Base f))
      = config.Huawei (config.Providers (config.Base parsed)) /\
    config.Domains (config.Base f) = config.Domains (config.Base parsed) /\
    config.PostCommand (config.Base f) = config.PostCommand (config.Base parsed) /\
    config.LegacyAliyun f = config.LegacyAliyun parsed /\
    (config.OutputDir (config.Base parsed) = "" ->
     config.OutputDir (config.Base f) = "./certs") /\
    (config.OutputDir (config.Base parsed) <> "" ->
     config.OutputDir (config.Base f) = config.OutputDir (config.Base parsed)) /\
    (config.CheckInterval parsed = 0%Z -> config.CheckInterval f = 24%Z) /\
    (config.CheckInterval parsed <> 0%Z ->
     config.CheckInterval f = config.CheckInterval parsed) /\
    ((config.Concurrency parsed <= 0)%Z -> config.Concurrency f = 1%Z) /\
    ((0 < config.Concurrency parsed)%Z ->
     config.Concurrency f = config.Concurrency parsed) /\
    config.OutputDir (config.Base f) <> "" /\
    config.CheckInterval f <> 0%Z /\
    (1 <= config.Concurrency f)%Z /\
    config.validate (config.Base f) = None /\
    config.Domains (config.Base f) <> [].
Proof.
  unfold config.Load.
  destruct read as [data|err]; [|discriminate].
  destruct (parse data) as [parsed|err] eqn:Ep; [|discriminate].
  cbv zeta.
  match goal with
  | |- match config.validate ?b with _ => _ end = _ -> _ =>
      destruct (config.validate b) eqn:Ev; [discriminate|]
  end.
  intros [= <-]. exists data, parsed.
  cbn [config.Base config.CheckInterval config.Concurrency
       config.LegacyAliyun config.OutputDir config.Providers
       config.Domains config.PostCommand] in *.
  split; [reflexivity|]. split; [exact Ep|].
  split.
  { intros given EA. rewrite EA. now destruct (config.LegacyAliyun parsed). }
  split.
  { intros EA. rewrite EA. now destruct (config.LegacyAliyun parsed). }
  split.
  { destruct (config.LegacyAliyun parsed),
             (config.Aliyun (config.Providers (config.Base parsed))); reflexivity. }
  split.
  { destruct (config.LegacyAliyun parsed),
             (config.Aliyun (config.Providers (config.Base parsed))); reflexivity. }
  split; [reflexivity|]. split; [reflexivity|]. split; [reflexivity|].
  split; [intros ->; reflexivity|].
  split; [intros H; apply String.eqb_neq in H; now rewrite H|].
  split; [intros ->; reflexivity|].
  split; [intros H; apply Z.eqb_neq in H; now rewrite H|].
  split; [intros H; apply Z.leb_le in H; now rewrite H|].
  split; [intros H; apply Z.leb_gt in H; now rewrite H|].
  split.
  { destruct (String.eqb (config.OutputDir (config.Base parsed)) "") eqn:E;
      [discriminate|now apply String.eqb_neq]. }
  split.
  { destruct (Z.eqb (config.CheckInterval parsed) 0) eqn:E;
      [discriminate|now apply Z.eqb_neq]. }
  split.
  { destruct (Z.leb (config.Concurrency parsed) 0) eqn:E; [lia|].
    apply Z.leb_gt in E. lia. }
  split; [exact Ev|].
  unfold config.validate in Ev. cbn [config.Domains] in Ev.
  intros H. rewrite H in Ev. discriminate Ev.
Qed.

Lemma Load_fills_in_defaults_witness :
  (exists f,
     config.Load (inl "aliyun: ...") (fun _ => inl legacyFile) = inl f /\
     config.Aliyun (config.Providers (config.Base f)) = config.LegacyAliyun legacyFile /\
     config.OutputDir (config.Base f) = "./certs" /\
     config.CheckInterval f = 24%Z /\ config.Concurrency f = 1%Z /\
     config.validate (config.Base f) = None) /\
  (exists f,
     config.Load (inl "providers: ...") (fun _ => inl bothFile) = inl f /\
     config.Aliyun (config.Providers (config.Base f))
       = config.Aliyun (config.Providers (config.Base bothFile)) /\
     config.Aliyun (config.Providers (config.Base f)) <> config.LegacyAliyun bothFile /\
     config.OutputDir (config.Base f) = "/etc/ssl/managed" /\
     config.CheckInterval f = (-1)%Z /\ config.Concurrency f = 4%Z).
Proof.
  split.
  - eexists. split; [reflexivity|].
    destruct (Load_fills_in_defaults (inl "aliyun: ...") (fun _ => inl legacyFile)
                _ eq_refl)
      as (data & parsed & _ & Hp & _ & HA & _ & _ & _ & _ & _ & HO & _ & HC & _
          & HN & _ & _ & _ & _ & HV & _).
    injection Hp as <-.
    split; [apply HA; reflexivity|]. split; [apply HO; reflexivity|].
    split; [apply HC; reflexivity|]. split; [apply HN; discriminate|exact HV].
  - eexists. split; [reflexivity|].
    destruct (Load_fills_in_defaults (inl "providers: ...") (fun _ => inl bothFile)
                _ eq_refl)
      as (data & parsed & _ & Hp & HG & _ & _ & _ & _ & _ & _ & _ & HO & _ & HC
          & _ & HN & _).
    injection Hp as <-.
    split; [now apply HG|].
    split; [rewrite (HG _ eq_refl); discriminate|].
    split; [apply HO; discriminate|].
    split; [apply HC; discriminate|apply HN; reflexivity].
Defined.

(** ** The reuse check of the certificate adapter *)

Lemma firstValid_spec (daysRemaining : Time -> Z) (certs : list provider.CertificateInfo)
    (domain : string) (minDays : Z) :
  match aliyun.firstValid daysRemaining certs domain minDays with
  | Some cert =>
      exists pre post,
        certs = pre ++ cert :: post /\
        aliyun.certMatches domain cert = true /\
        (minDays < daysRemaining (provider.NotAfter cert))%Z /\
        Forall (fun c => aliyun.certMatches domain c = false \/
                         (daysRemaining (provider.NotAfter c) <= minDays)%Z) pre
  | None =>
      Forall (fun c => aliyun.certMatches domain c = false \/
                       (daysRemaining (provider.NotAfter c) <= minDays)%Z) certs
  end.
Proof.
  induction certs as [|c certs IH]; cbn [aliyun.firstValid]; [constructor|].
  destruct (aliyun.certMatches domain c) eqn:Em; cbn [andb].
  - destruct (Z.ltb minDays (daysRemaining (provider.NotAfter c))) eqn:Ed.
    + exists [], certs. apply Z.ltb_lt in Ed. repeat split; auto.
    + apply Z.ltb_ge in Ed.
      destruct (aliyun.firstValid daysRemaining certs domain minDays) as [cert|].
      * destruct IH as (pre & post & -> & Hm & Hd & Hpre).
        exists (c :: pre), post. repeat split; auto.
      * constructor; auto.
  - destruct (aliyun.firstValid daysRemaining certs domain minDays) as [cert|].
    + destruct IH as (pre & post & -> & Hm & Hd & Hpre).
      exists (c :: pre), post. repeat split; auto.
    + constructor; auto.
Qed.


(** X17: the reuse check and the renewal decision agree: a certificate that
    [FindValidCertificate] accepts for a non-empty domain, once it is the one
    served by the endpoint (its domain as common name, its alternative names
    as DNS names) and read off the same clock, makes [NeedRenew] answer
    no. *)
Theorem reusable_certificate_needs_no_renewal (env : Env)
    (listed : list provider.CertificateInfo + error) (domain : string) (minDays : Z)
    (cert : provider.CertificateInfo) (leaf : PeerCertificate)
    (rest : list PeerCertificate) (w : World) :
  fst (aliyun.FindValidCertificate (daysUntil env) listed domain minDays) = Some cert ->
  domain <> "" ->
  tlsDial env (domain ++ ":443") = inl (leaf :: rest) ->
  CommonName leaf = provider.InfoDomain cert ->
  DNSNames leaf = provider.Sans cert ->
  LeafNotAfter leaf = provider.NotAfter cert ->
  fst (NeedRenew env domain minDays w) = (false, provider.NotAfter cert, None).
Proof.
  intros Hf Hne Hd Hcn Hsan Hna.
  destruct listed as [certs|err]; [|discriminate].
  cbn [aliyun.FindValidCertificate fst] in Hf.
  pose proof (firstValid_spec (daysUntil env) certs domain minDays) as Hs.
  rewrite Hf in Hs. destruct Hs as (pre & post & _ & Hm & Hdays & _).
  run_validator. rewrite Hd. norm. rewrite Hcn, Hsan, Hna.
  assert (matchDomain
            ((if negb (String.eqb (provider.InfoDomain cert) "")
              then [provider.InfoDomain cert] else []) ++ provider.Sans cert)
            domain = true) as Hmatch.
  { unfold matchDomain. rewrite existsb_app.
    unfold aliyun.certMatches in Hm.
    apply orb_prop in Hm as [Hm|Hm]; [apply orb_prop in Hm as [Hm|Hm]|].
    - apply String.eqb_eq in Hm. rewrite Hm.
      apply String.eqb_neq in Hne. rewrite Hne. cbn.
      unfold domainpkg.MatchDomain. now rewrite String.eqb_refl.
    - apply String.eqb_eq in Hm. rewrite Hm. cbn.
      replace (domainpkg.MatchDomain
                 (String "*" (String "." (aliyun.extractMainDomain domain))) domain)
        with true; [reflexivity|].
      symmetry. apply MatchDomain_spec. right.
      exists (aliyun.extractMainDomain domain). split; reflexivity.
    - apply orb_true_iff. right.
      unfold aliyun.containsDomain in Hm.
      apply existsb_exists in Hm as (x & Hx & Ex). apply String.eqb_eq in Ex.
      apply existsb_exists. exists x. split; [exact Hx|].
      unfold domainpkg.MatchDomain. subst x. now rewrite String.eqb_refl. }
  rewrite Hmatch. norm. cbn [negb]. norm.
  apply Z.leb_gt in Hdays. now rewrite Hdays.
Qed.

Lemma reusable_certificate_needs_no_renewal_witness :
  fst (NeedRenew healthyEnv "www.example.com" 30 World0)
    = (false, 4102444800%Z, None).
Proof.
  apply (reusable_certificate_needs_no_renewal healthyEnv (inl [wildcardInfo; reusable])
           "www.example.com" 30 wildcardInfo liveLeaf []);
    try reflexivity.
  discriminate.
Defined.

(** ** The status vocabularies of the adapters *)

(** X18: the Tencent and Huawei adapters map every native status onto one
    of the four statuses the orchestrator knows, and Huawei's never onto
    [domain_verify]; the Aliyun adapter does so for seven native statuses
    and hands any other string on unchanged. *)
Theorem adapters_map_to_canonical_statuses :
  (forall code, knownStatus (tencent.mapTencentStatus code) = true) /\
  (forall status, knownStatus (huawei.mapHuaweiStatus status) = true /\
                  huawei.mapHuaweiStatus status <> "domain_verify") /\
  (forall s, (knownStatus (aliyun.mapAliyunStatus s) = true <->
              In s ["domain_verify"; "process"; "verify"; "payed"; "checking";
                    "certificate"; "failed"]) /\
             (knownStatus (aliyun.mapAliyunStatus s) = false ->
              aliyun.mapAliyunStatus s = s)).
Proof.
  split; [|split].
  - intros code. unfold tencent.mapTencentStatus.
    repeat match goal with
    | |- context [N.eqb code ?c] => destruct (N.eqb code c)
    end; reflexivity.
  - intros [st|]; [|split; [reflexivity|discriminate]].
    unfold huawei.mapHuaweiStatus.
    repeat match goal with
    | |- context [String.eqb st ?c] => destruct (String.eqb st c)
    end; split; first [reflexivity | discriminate].
  - intros s.
    destruct (String.eqb_spec s "domain_verify") as [->|N1];
      [cbn; repeat split; auto 10; discriminate|].
    destruct (String.eqb_spec s "process") as [->|N2];
      [cbn; repeat split; auto 10; discriminate|].
    destruct (String.eqb_spec s "verify") as [->|N3];
      [cbn; repeat split; auto 10; discriminate|].
    destruct (String.eqb_spec s "payed") as [->|N4];
      [cbn; repeat split; auto 10; discriminate|].
    destruct (String.eqb_spec s "checking") as [->|N5];
      [cbn; repeat split; auto 10; discriminate|].
    destruct (String.eqb_spec s "certificate") as [->|N6];
      [cbn; repeat split; auto 10; discriminate|].
    destruct (String.eqb_spec s "failed") as [->|N7];
      [cbn; repeat split; auto 10; discriminate|].
    assert (aliyun.mapAliyunStatus s = s) as ->.
    { unfold aliyun.mapAliyunStatus.
      apply String.eqb_neq in N1, N2, N3, N4, N5, N6.
      now rewrite N1, N2, N3, N4, N5, N6. }
    split; [|reflexivity].
    unfold knownStatus. cbn [In].
    pose proof N1 as E1. pose proof N2 as E2. pose proof N6 as E6. pose proof N7 as E7.
    apply String.eqb_neq in E1, E2, E6, E7. rewrite E1, E2, E6, E7. cbn.
    split; [discriminate|]. intuition congruence.
Qed.

Lemma iterate_without_challenge (env : Env) (domain orderID : string) (n : nat) :
  (forall k s, getCertificateStatus env k orderID = inl s -> hasChallenge s = false) ->
  forall st w f w1,
  iterate env domain orderID n st w = (f, w1) ->
  exists evs, trace w1 = trace w ++ evs /\ filter isAddRecord evs = [].
Proof.
  intros Hno. induction n as [|n IH]; intros st w f w1.
  - cbn. unfold ret. pair_inv. ex_events. reflexivity.
  - rewrite iterate_step.
    destruct (iteration env domain orderID st w) as [f0 w0] eqn:E.
    apply iteration_effect in E as (evs0 & T0 & A0 & _).
    assert (filter isAddRecord evs0 = []) as Z0.
    { rewrite A0. destruct (ctxDone env (checks w)); [reflexivity|].
      destruct (getCertificateStatus env (polls w) orderID) as [s|] eqn:Ep;
        [|reflexivity].
      unfold mustWrite. now rewrite (Hno _ _ Ep). }
    destruct f0 as [st0|err].
    + intros H. apply IH in H as (evs1 & T1 & Z1).
      exists (evs0 ++ evs1). rewrite T1, T0, app_assoc, filter_app, Z0, Z1. auto.
    + pair_inv. exists evs0. auto.
Qed.

(** X19: an order of the Huawei adapter never gets a DNS record written:
    its status carries no challenge, so the polling loop only polls and
    sleeps. *)
Theorem huawei_orders_never_touch_dns (env : Env)
    (showCertificate : nat -> option string + error) (domain orderID : string)
    (w : World) :
  (forall n, getCertificateStatus env n orderID
             = huawei.GetCertificateStatus orderID (showCertificate n)) ->
  count isAddRecord
    (eventsSince w (snd (waitForDNSValidation env domain orderID w))) = 0.
Proof.
  intros Hh. rewrite waitForDNSValidation_iterate.
  destruct (iterate env domain orderID maxRetries initLoopState w) as [f w1] eqn:E.
  apply iterate_without_challenge in E as (evs & T & Z0).
  - assert (eventsSince w (snd (match f with
                                | Next _ => (Some (timeoutError orderID), w1)
                                | Return err => (err, w1)
                                end)) = evs) as ->.
    { destruct f; cbn [snd]; apply (eventsSince_app _ _ _ T). }
    unfold count. now rewrite Z0.
  - intros k s. rewrite Hh. unfold huawei.GetCertificateStatus.
    destruct (showCertificate k) as [status|err]; [|discriminate].
    intros [= <-]. unfold hasChallenge. cbn [provider.RecordDomain provider.Status].
    now rewrite andb_false_r.
Qed.

Lemma huawei_orders_never_touch_dns_witness :
  count isAddRecord
    (eventsSince World0
       (snd (waitForDNSValidation huaweiPollEnv "www.example.com" "cert-1" World0)))
    = 0.
Proof.
  apply (huawei_orders_never_touch_dns huaweiPollEnv
           (fun n => nth n [inl (Some "PAID"); inl (Some "CHECKING")]
                       (inl (Some "ISSUED")))).
  intros n. reflexivity.
Defined.

(** ** What the Aliyun adapter hands to the persistence *)

(** X20: a certificate that the Aliyun adapter downloads by its order comes
    with its private key, and its chain is the certificate itself; so a
    successful [SaveCertificate] of it has made the directory, written
    [cert.pem] and [key.pem], and then made one write to [fullchain.pem]
    with what it wrote to [cert.pem]; whether that last write went through
    is not part of the result. *)
Theorem order_download_brings_key_and_chain
    (response : aliyun.StateResponse + error) (cert : provider.Certificate)
    (env : Env) (s : storage.FileStorage) (domain : string) (w : World) :
  aliyun.DownloadCertificate response = inl cert ->
  fst (storage.SaveCertificate env s domain cert w) = None ->
  provider.CertificatePEM cert <> "" /\ provider.PrivateKey cert <> "" /\
  eventsSince w (snd (storage.SaveCertificate env s domain cert w)) =
    [EvMkdirAll (storage.GetCertDir s domain) 493 None;
     EvWriteFile (storage.GetCertPath s domain) (provider.CertificatePEM cert) 420 None;
     EvWriteFile (storage.GetKeyPath s domain) (provider.PrivateKey cert) 384 None;
     EvWriteFile (storage.GetFullchainPath s domain) (provider.CertificatePEM cert) 420
       (writeFile env (S (S (S (fsops w)))) (storage.GetFullchainPath s domain))].
Proof.
  intros Hd Hs.
  destruct (SaveCertificate_effect env s domain cert w) as (evs & T & _ & _ & _ & _ & E).
  rewrite (eventsSince_app _ _ _ T), (E Hs). clear E T Hs.
  unfold aliyun.DownloadCertificate in Hd.
  destruct response as [body|err]; [|discriminate].
  destruct (negb (String.eqb (aliyun.StateType body) "certificate")); [discriminate|].
  destruct (String.eqb (aliyun.StateCertificate body) "") eqn:Ec; [discriminate|].
  destruct (String.eqb (aliyun.StatePrivateKey body) "") eqn:Ek; [discriminate|].
  cbn [orb] in Hd. injection Hd as <-.
  cbn [provider.CertificatePEM provider.PrivateKey provider.Chain].
  rewrite Ec, Ek. apply String.eqb_neq in Ec, Ek. auto.
Qed.

Lemma order_download_brings_key_and_chain_witness :
  eventsSince World0
    (snd (storage.SaveCertificate pendingEnv (storage.NewFileStorage "./certs")
            "www.example.com"
            {| provider.CertificatePEM := "LEAF"; provider.PrivateKey := "KEY";
               provider.Chain := "LEAF" |} World0)) =
  [EvMkdirAll "certs/www.example.com" 493 None;
   EvWriteFile "certs/www.example.com/cert.pem" "LEAF" 420 None;
   EvWriteFile "certs/www.example.com/key.pem" "KEY" 384 None;
   EvWriteFile "certs/www.example.com/fullchain.pem" "LEAF" 420 None].
Proof.
  apply (order_download_brings_key_and_chain (inl issuedState)
           {| provider.CertificatePEM := "LEAF"; provider.PrivateKey := "KEY";
              provider.Chain := "LEAF" |}
           pendingEnv (storage.NewFileStorage "./certs") "www.example.com" World0
           eq_refl eq_refl).
Defined.

(** X21: a certificate fetched for reuse may come without its private key
    (the Aliyun adapter only asks for the certificate itself), and the run
    still succeeds: with the directory made and [cert.pem] written,
    [ProcessDomain] returns no error although it has written no [key.pem],
    and it has neither looked at the live endpoint nor asked for issuance. *)
Theorem keyless_reuse_reports_success (env : Env) (m : Manager)
    (domainCfg : config.DomainConfig) (w w0 : World)
    (existing : provider.CertificateInfo) (body : aliyun.DetailResponse) :
  let domain := config.Domain domainCfg in
  GetProvidersForDomain env (config_ m) domainCfg w = (None, w0) ->
  fst (findValidCertificate env domain (config.RenewDays domainCfg)) = Some existing ->
  getCertificateDetail env (provider.CertID existing)
    = aliyun.GetCertificateDetail (inl body) ->
  aliyun.DetailCert body <> "" -> aliyun.DetailKey body = "" ->
  mkdirAll env (fsops w0) (storage.GetCertDir (storage_ m) domain) = None ->
  writeFile env (S (fsops w0)) (storage.GetCertPath (storage_ m) domain) = None ->
  let run := ProcessDomain env m domainCfg w in
  let evs := eventsSince w (snd run) in
  fst run = None /\
  count (isWriteTo (storage.GetKeyPath (storage_ m) domain)) evs = 0 /\
  count isDial evs = 0 /\ count isApply evs = 0.
Proof.
  intros domain Hp Hf Hd Hc Hk Hmk Hwr run evs. subst domain run evs.
  destruct (GetProvidersForDomain_effect env (config_ m) domainCfg w)
    as (pevs & Tp & _ & _ & Fp).
  rewrite Hp in Tp. cbn [snd] in Tp.
  unfold aliyun.GetCertificateDetail in Hd.
  apply String.eqb_neq in Hc. rewrite Hc, Hk in Hd.
  run_process. rewrite Hp; norm. rewrite Hf; norm. rewrite Hd; norm.
  match goal with
  | |- context [storage.SaveCertificate env ?s ?d ?cert ?w1] =>
      destruct (SaveCertificate_effect env s d cert w1)
        as (sevs & Ts & _ & Fs & Rs & Ks & _);
      assert (fst (storage.SaveCertificate env s d cert w1) = None) as Hs;
      [apply Rs; cbn [fsops provider.PrivateKey]; repeat split; auto;
       intros H; now contradiction H|];
      specialize (Ks eq_refl);
      destruct (storage.SaveCertificate env s d cert w1) as [sv w2]
  end.
  cbn [fst] in Hs. subst sv. cbn [snd trace] in Ts. norm. cbn [negb]. norm.
  destruct (runPostCommand_effect env m domainCfg w2) as (xevs & Tx & Fx).
  destruct (runPostCommand env m domainCfg w2) as [u w3]. cbn [snd] in Tx. norm.
  split; [reflexivity|].
  assert (trace w3 = trace w ++ pevs ++ [EvFindValidCertificate (config.Domain domainCfg)
                                           (config.RenewDays domainCfg)
                                           (findValidCertificate env
                                              (config.Domain domainCfg)
                                              (config.RenewDays domainCfg));
                                         EvGetCertificateDetail (provider.CertID existing)
                                           (inl {| provider.CertificatePEM :=
                                                     aliyun.DetailCert body;
                                                   provider.PrivateKey := "";
                                                   provider.Chain :=
                                                     aliyun.DetailCert body |})]
                        ++ sevs ++ xevs) as T.
  { rewrite Tx, Ts, Tp. rewrite <- !app_assoc. reflexivity. }
  rewrite (eventsSince_app _ _ _ T). rewrite !count_app.
  rewrite (count_none providerEvent _ pevs Fp) by (now intros []).
  rewrite (count_none providerEvent isDial pevs Fp) by (now intros []).
  rewrite (count_none providerEvent isApply pevs Fp) by (now intros []).
  rewrite Ks.
  rewrite (count_none fsEvent isDial sevs Fs) by (now intros []).
  rewrite (count_none fsEvent isApply sevs Fs) by (now intros []).
  rewrite (count_none isExec _ xevs Fx) by (now intros []).
  rewrite (count_none isExec isDial xevs Fx) by (now intros []).
  rewrite (count_none isExec isApply xevs Fx) by (now intros []).
  repeat split.
Qed.

Lemma keyless_reuse_reports_success_witness :
  fst (ProcessDomain keylessAliyunEnv (NewManager sampleConfig) sampleDomain World0)
    = None /\
  count (isWriteTo "certs/www.example.com/key.pem")
    (eventsSince World0
       (snd (ProcessDomain keylessAliyunEnv (NewManager sampleConfig) sampleDomain
               World0))) = 0.
Proof.
  destruct (keyless_reuse_reports_success keylessAliyunEnv (NewManager sampleConfig)
              sampleDomain World0 _ reusable keylessDetail
              eq_refl eq_refl eq_refl ltac:(discriminate) eq_refl eq_refl eq_refl)
    as (R & K & _).
  split; [exact R|exact K].
Defined.

(** ** The DNS adapter *)

(** X22: [AddRecord] of the Aliyun DNS adapter is an upsert.  For a record
    name whose sub-domain part does not itself end in the main domain, it
    looks the record up once and then writes once: it updates the first
    listed record with that name and type, under its id, and adds a record
    only when the lookup listed none or failed (the failure of the lookup is
    not reported); the error it returns is that of the write. *)
Theorem AddRecord_is_an_upsert (api : aliyun.DnsApi)
    (domain rr recordType value : string) :
  let mainDomain := aliyun.extractMainDomain domain in
  let subDomain := aliyun.extractSubDomain rr mainDomain in
  let looked := aliyun.describeDomainRecords api mainDomain subDomain recordType in
  let existing :=
    match looked with
    | inl records =>
        find (fun record => String.eqb (aliyun.ApiRR record) subDomain &&
                            String.eqb (aliyun.ApiType record) recordType) records
    | inr _ => None
    end in
  aliyun.extractSubDomain subDomain mainDomain = subDomain ->
  aliyun.AddRecord api domain rr recordType value =
  match existing with
  | Some record =>
      let res := aliyun.updateDomainRecord api (aliyun.ApiRecordId record)
                   subDomain recordType value in
      ([aliyun.CallDescribeDomainRecords mainDomain subDomain recordType looked;
        aliyun.CallUpdateDomainRecord (aliyun.ApiRecordId record) subDomain recordType
          value res],
       match res with
       | Some err => Some (wrapError "更新DNS记录失败: " err)
       | None => None
       end)
  | None =>
      let res := aliyun.addDomainRecord api mainDomain subDomain recordType value in
      ([aliyun.CallDescribeDomainRecords mainDomain subDomain recordType looked;
        aliyun.CallAddDomainRecord mainDomain subDomain recordType value res],
       match res with
       | Some err => Some (wrapError "添加DNS记录失败: " err)
       | None => None
       end)
  end.
Proof.
  intros mainDomain subDomain looked existing Hstable.
  subst existing looked.
  unfold aliyun.AddRecord, aliyun.FindRecord, aliyun.UpdateRecord.
  fold mainDomain. fold subDomain. cbv zeta. rewrite Hstable.
  destruct (aliyun.describeDomainRecords api mainDomain subDomain recordType)
    as [records|err]; [|reflexivity].
  destruct (find _ records) as [record|]; reflexivity.
Qed.

Lemma AddRecord_is_an_upsert_witness :
  aliyun.AddRecord sampleDnsApi "www.example.com" "_dnsauth.www.example.com" "TXT"
    "token-a" =
  ([aliyun.CallDescribeDomainRecords "example.com" "_dnsauth.www" "TXT"
      (aliyun.describeDomainRecords sampleDnsApi "example.com" "_dnsauth.www" "TXT");
    aliyun.CallUpdateDomainRecord "rec-1" "_dnsauth.www" "TXT" "token-a" None],
   None).
Proof.
  apply (AddRecord_is_an_upsert sampleDnsApi "www.example.com"
           "_dnsauth.www.example.com" "TXT" "token-a").
  reflexivity.
Defined.

(** ** Webhook notifications *)

Lemma attempts_spec (net : notification.Net) (cfg : notification.WebhookConfig)
    (body : string) (left : nat) :
  forall i lastErr calls res,
  notification.attempts net cfg body left i lastErr = (calls, res) ->
  List.length (filter isNewRequest calls) <= left /\
  filter isPause calls
    = flat_map pauseBefore (seq i (List.length (filter isNewRequest calls))) /\
  ((exists pre last,
      calls = pre ++ [last] /\ delivered last = true /\
      filter delivered pre = [] /\ res = None) \/
   (filter delivered calls = [] /\ (calls = [] -> res = lastErr) /\
    (calls <> [] -> res <> None))).
Proof.
  induction left as [|left IH]; intros i lastErr calls res.
  - cbn. intros [= <- <-]. cbn. split; [lia|]. split; [reflexivity|].
    right. repeat split. intros H. now contradiction H.
  - cbn [notification.attempts].
    fold (pauseBefore i).
    assert (filter isNewRequest (pauseBefore i) = []) as Pn.
    { unfold pauseBefore. now destruct (Nat.ltb 0 i). }
    assert (filter isPause (pauseBefore i) = pauseBefore i) as Pp.
    { unfold pauseBefore. now destruct (Nat.ltb 0 i). }
    assert (filter delivered (pauseBefore i) = []) as Pd.
    { unfold pauseBefore. now destruct (Nat.ltb 0 i). }
    destruct (notification.newRequest net i) as [nerr|].
    + destruct (notification.attempts net cfg body left (S i) _) as [calls0 res0] eqn:E.
      apply IH in E as (L0 & S0 & D0). intros [= <- <-].
      rewrite !filter_app, Pn, Pp, Pd. cbn [filter isNewRequest isPause delivered app].
      cbn [List.length seq flat_map]. rewrite S0.
      split; [lia|]. split; [reflexivity|].
      destruct D0 as [(pre & last & -> & Dl & Dp & ->)|(Dn & De & Dne)].
      * left. exists (pauseBefore i ++ notification.CallNewRequest
                        (notification.URL cfg) body (Some nerr) :: pre), last.
        rewrite <- app_assoc. cbn [app]. repeat split; auto.
        rewrite filter_app, Pd. cbn. exact Dp.
      * right. split; [exact Dn|]. split.
        { intros H. apply app_eq_nil in H as [_ H]. discriminate. }
        intros _. destruct calls0; [rewrite De by reflexivity; discriminate|].
        apply Dne. discriminate.
    + destruct (notification.doRequest net i) as [code|derr].
      * destruct (Z.leb 200 code && Z.ltb code 300) eqn:Ok.
        { intros [= <- <-].
          rewrite !filter_app, Pn, Pp. cbn [filter isNewRequest isPause app].
          cbn [List.length seq flat_map]. rewrite app_nil_r.
          split; [lia|]. split; [reflexivity|].
          left. exists (pauseBefore i ++ [notification.CallNewRequest
                                            (notification.URL cfg) body None]).
          eexists. rewrite <- app_assoc. cbn [app]. split; [reflexivity|].
          split; [exact Ok|]. split; [|reflexivity].
          rewrite filter_app, Pd. reflexivity. }
        destruct (notification.attempts net cfg body left (S i) _)
          as [calls0 res0] eqn:E.
        apply IH in E as (L0 & S0 & D0). intros [= <- <-].
        rewrite !filter_app, Pn, Pp, Pd.
        cbn [filter isNewRequest isPause delivered app]. rewrite Ok.
        cbn [List.length seq flat_map]. rewrite S0.
        split; [lia|]. split; [reflexivity|].
        destruct D0 as [(pre & last & -> & Dl & Dp & ->)|(Dn & De & Dne)].
        -- left. eexists (pauseBefore i ++ _ :: _ :: pre), last.
           rewrite <- app_assoc. cbn [app]. split; [reflexivity|].
           split; [exact Dl|]. split; [|reflexivity].
           rewrite filter_app, Pd. cbn [filter delivered app]. rewrite Ok. exact Dp.
        -- right. split; [exact Dn|]. split.
           { intros H. apply app_eq_nil in H as [_ H]. discriminate. }
           intros _. destruct calls0; [rewrite De by reflexivity; discriminate|].
           apply Dne. discriminate.
      * destruct (notification.attempts net cfg body left (S i) _)
          as [calls0 res0] eqn:E.
        apply IH in E as (L0 & S0 & D0). intros [= <- <-].
        rewrite !filter_app, Pn, Pp, Pd.
        cbn [filter isNewRequest isPause delivered app].
        cbn [List.length seq flat_map]. rewrite S0.
        split; [lia|]. split; [reflexivity|].
        destruct D0 as [(pre & last & -> & Dl & Dp & ->)|(Dn & De & Dne)].
        -- left. eexists (pauseBefore i ++ _ :: _ :: pre), last.
           rewrite <- app_assoc. cbn [app]. split; [reflexivity|].
           split; [exact Dl|]. split; [|reflexivity].
           rewrite filter_app, Pd. cbn [filter delivered app]. exact Dp.
        -- right. split; [exact Dn|]. split.
           { intros H. apply app_eq_nil in H as [_ H]. discriminate. }
           intros _. destruct calls0; [rewrite De by reflexivity; discriminate|].
           apply Dne. discriminate.
Qed.



Lemma pauses_from (a n : nat) :
  flat_map pauseBefore (seq (S a) n)
    = map (fun k => notification.CallSleep (notification.backoff k)) (seq (S a) n).
Proof.
  revert a. induction n as [|n IH]; intros a; [reflexivity|].
  cbn [seq flat_map map]. now rewrite IH.
Qed.

Lemma wrap64_small (x : Z) :
  (- 2 ^ 63 <= x < 2 ^ 63)%Z -> notification.wrap64 x = x.
Proof.
  intros H. unfold notification.wrap64.
  change (2 ^ 63)%Z with 9223372036854775808%Z in *.
  change (2 ^ 64)%Z with 18446744073709551616%Z.
  rewrite Z.mod_small; lia.
Qed.

(** X24: between two attempts [Notify] pauses, and the pauses double: before
    its [(k+1)]-th attempt it sleeps [backoff k], which is [2^(k-1)] seconds
    for [k] up to 34; at [k = 35] the 64-bit duration has wrapped around and
    is negative. *)
Theorem Notify_backs_off_exponentially (net : notification.Net)
    (w : option notification.WebhookNotifier) (eventType : string) :
  let calls := fst (notification.Notify net w eventType) in
  filter isPause calls
    = map (fun k => notification.CallSleep (notification.backoff k))
        (seq 1 (List.length (filter isNewRequest calls) - 1)) /\
  (forall k, 1 <= k <= 34 ->
     notification.backoff k = (2 ^ Z.of_nat (k - 1) * notification.Second)%Z) /\
  (notification.backoff 35 < 0)%Z.
Proof.
  intros calls. subst calls. split; [|split].
  - unfold notification.Notify.
    destruct w as [n|]; [|reflexivity].
    destruct (negb (notification.Enabled (notification.notifierConfig n)));
      [reflexivity|].
    destruct (negb (notification.ShouldNotify (Some n) eventType)); [reflexivity|].
    match goal with
    | |- context [match ?b with inl _ => _ | inr _ => _ end] =>
        destruct b as [body|err]; [|reflexivity]
    end.
    destruct (notification.attempts net (notification.notifierConfig n) body
                (Z.to_nat (notification.retriesOf (notification.notifierConfig n)))
                0 None) as [calls res] eqn:E.
    apply attempts_spec in E as (_ & S0 & _). cbn [fst]. rewrite S0.
    destruct (List.length (filter isNewRequest calls)) as [|reqs]; [reflexivity|].
    cbn [seq flat_map]. replace (S reqs - 1) with reqs by lia.
    change (pauseBefore 0) with (@nil notification.HttpCall). cbn [app].
    apply pauses_from.
  - intros k Hk. unfold notification.backoff.
    assert (0 < 2 ^ Z.of_nat (k - 1) <= 2 ^ 33)%Z as Hp.
    { split; [apply Z.pow_pos_nonneg; lia|].
      apply Z.pow_le_mono_r; lia. }
    change (2 ^ 33)%Z with 8589934592%Z in Hp.
    rewrite (wrap64_small (2 ^ Z.of_nat (k - 1))).
    + apply wrap64_small. unfold notification.Second.
      change (2 ^ 63)%Z with 9223372036854775808%Z. lia.
    + change (2 ^ 63)%Z with 9223372036854775808%Z. lia.
  - now vm_compute.
Qed.

Lemma Notify_backs_off_exponentially_witness :
  notification.backoff 3 = (4 * notification.Second)%Z.
Proof.
  destruct (Notify_backs_off_exponentially flakyNet None "cert_renewed")
    as (_ & H & _).
  apply (H 3). lia.
Defined.

(** ** No download before the CA reports the certificate *)

Lemma downloadsAfterCertificate_prefix (a evs : list Event) :
  filter isDownload a = [] -> downloadsAfterCertificate evs ->
  downloadsAfterCertificate (a ++ evs).
Proof.
  intros Ha [Hn|(pre & o & s & r & post & -> & Hs & Hpre & Hpost)].
  - left. now rewrite filter_app, Ha, Hn.
  - right. exists (a ++ pre), o, s, r, post.
    rewrite <- app_assoc. repeat split; auto.
    now rewrite filter_app, Ha, Hpre.
Qed.

(** The part of a run, from the polling loop on, that [ProcessDomain] and
    [ContinueOrder] share: the loop, then the download and the persistence. *)
Lemma validation_then_download (env : Env) (domain orderID : string) (w : World)
    (s : storage.FileStorage) :
  let (v, w1) := waitForDNSValidation env domain orderID w in
  exists evs, trace w1 = trace w ++ evs /\
    match v with
    | Some _ => filter isDownload evs = []
    | None =>
        exists pre st,
          evs = pre ++ [EvGetCertificateStatus orderID (inl st)] /\
          provider.Status st = "certificate" /\ filter isDownload pre = []
    end.
Proof.
  rewrite waitForDNSValidation_iterate.
  destruct (iterate env domain orderID maxRetries initLoopState w) as [[st|err] w1] eqn:E.
  - destruct (iterate_world _ _ _ _ _ _ _ _ E) as (evs & T & _ & _ & _ & _ & _ & _ & Fl).
    exists evs. split; [exact T|].
    apply (filter_none loopEvent); [exact Fl|now intros []].
  - destruct (iterate_world _ _ _ _ _ _ _ _ E) as (evs & T & _ & _ & _ & _ & _ & _ & Fl).
    exists evs. split; [exact T|].
    assert (filter isDownload evs = []) as Hn.
    { apply (filter_none loopEvent); [exact Fl|now intros []]. }
    destruct err as [err|]; [exact Hn|].
    apply iterate_return in E as (evs' & T' & R); [|cbn; lia].
    rewrite T in T'. apply app_inv_head in T'. subst evs'.
    destruct R as [(e & k & H & _)|[(st & pre & _ & Hs & ->)|
                   [(st & pre & H & _)|(e & pre & H & _)]]];
      try discriminate.
    exists pre, st. repeat split; [exact Hs|].
    rewrite filter_app in Hn. now apply app_eq_nil in Hn.
Qed.

Lemma afterIssuance_downloads (env : Env) (m : Manager)
    (domainCfg : config.DomainConfig) (orderID : string) (w : World) :
  exists evs,
    trace (snd (afterIssuance env m domainCfg orderID w)) = trace w ++ evs /\
    downloadsAfterCertificate evs.
Proof.
  unfold afterIssuance, bind at 1.
  pose proof (validation_then_download env (config.Domain domainCfg) orderID w
                (storage_ m)) as H.
  destruct (waitForDNSValidation env (config.Domain domainCfg) orderID w) as [v w1].
  destruct H as (evs & T & H).
  destruct v as [err|].
  { exists evs. split; [exact T|now left]. }
  destruct H as (pre & st & -> & Hs & Hpre).
  unfold bind at 1, DownloadCertificate. cbv zeta.
  destruct (downloadCertificate env orderID) as [cert|err].
  - match goal with
    | |- exists _, trace (snd (?c ?w2)) = _ /\ _ =>
        assert (emitsOnly notDownload c) as He;
        [|destruct (He w2) as (post & Tp & Fp)]
    end.
    { repeat first
        [ (apply (emitsOnly_weaken fsEvent); [now intros []|apply SaveCertificate_emits])
        | (apply (emitsOnly_weaken isExec); [now intros []|apply runPostCommand_emits])
        | emits_one | emits_step ]. }
    exists (pre ++ [EvGetCertificateStatus orderID (inl st);
                    EvDownloadCertificate orderID (inl cert)] ++ post).
    split.
    + rewrite Tp. cbn [emit trace]. rewrite T, <- !app_assoc. reflexivity.
    + right. exists pre, orderID, st, (inl cert), post. repeat split; try assumption.
      apply (filter_none_b notDownload); [exact Fp|].
      intros e He0. unfold notDownload in He0. now destruct (isDownload e).
  - exists (pre ++ [EvGetCertificateStatus orderID (inl st);
                    EvDownloadCertificate orderID (inr err)] ++ []).
    split.
    + cbn [ret snd emit trace]. rewrite T, <- !app_assoc. reflexivity.
    + right. exists pre, orderID, st, (inr err), []. repeat split; assumption.
Qed.

Lemma acquireNew_downloads (env : Env) (m : Manager)
    (domainCfg : config.DomainConfig) (w : World) :
  exists evs,
    trace (snd (acquireNew env m domainCfg w)) = trace w ++ evs /\
    downloadsAfterCertificate evs.
Proof.
  rewrite acquireNew_afterIssuance.
  destruct (NeedRenew_emits env (config.Domain domainCfg)
              (config.RenewDays domainCfg) w) as (evs0 & T0 & F0).
  destruct (NeedRenew env _ _ w) as [nr w1]. cbn [snd] in T0.
  assert (filter isDownload evs0 = []) as Z0.
  { apply (filter_none_b isDial); [exact F0|now intros []]. }
  destruct (negb (fst (fst nr))).
  { exists evs0. split; [exact T0|now left]. }
  destruct (applyCertificate env (config.Domain domainCfg)) as [orderID|err].
  - destruct (afterIssuance_downloads env m domainCfg orderID
                (emit (EvApplyCertificate (config.Domain domainCfg) (inl orderID)) w1))
      as (evs1 & T1 & D1).
    exists (evs0 ++ EvApplyCertificate (config.Domain domainCfg) (inl orderID) :: evs1).
    split; [rewrite T1; cbn [emit trace]; rewrite T0, <- !app_assoc; reflexivity|].
    apply downloadsAfterCertificate_prefix; [exact Z0|].
    now apply (downloadsAfterCertificate_prefix [_]).
  - eexists. split; [cbn [snd emit trace]; rewrite T0, <- app_assoc; reflexivity|].
    left. rewrite filter_app, Z0. reflexivity.
Qed.

Lemma ProcessDomain_downloads (env : Env) (m : Manager)
    (domainCfg : config.DomainConfig) (w : World) :
  downloadsAfterCertificate (eventsSince w (snd (ProcessDomain env m domainCfg w))).
Proof.
  rewrite ProcessDomain_afterReuseCheck.
  destruct (GetProvidersForDomain_emits env (config_ m) domainCfg w) as (evs0 & T0 & F0).
  destruct (GetProvidersForDomain env (config_ m) domainCfg w) as [p w0].
  cbn [snd] in T0.
  assert (filter isDownload evs0 = []) as Z0.
  { apply (filter_none_b providerEvent); [exact F0|now intros []]. }
  destruct p as [err|].
  { cbn [snd]. rewrite (eventsSince_app _ _ _ T0). now left. }
  set (found := findValidCertificate env _ _).
  set (w1 := emit _ w0).
  assert (trace w1 = trace w ++ evs0 ++
            [EvFindValidCertificate (config.Domain domainCfg)
               (config.RenewDays domainCfg) found]) as T1.
  { subst w1. cbn [emit trace]. now rewrite T0, <- app_assoc. }
  assert (forall w2 evs2, trace w2 = trace w1 ++ evs2 -> filter isDownload evs2 = [] ->
            downloadsAfterCertificate
              (eventsSince w (snd (acquireNew env m domainCfg w2)))) as Hacq.
  { intros w2 evs2 T2 Z2.
    destruct (acquireNew_downloads env m domainCfg w2) as (evs3 & T3 & D3).
    rewrite (eventsSince_app w _ ((evs0 ++ [EvFindValidCertificate
                                              (config.Domain domainCfg)
                                              (config.RenewDays domainCfg) found])
                                  ++ evs2 ++ evs3)).
    - apply downloadsAfterCertificate_prefix;
        [rewrite filter_app, Z0; reflexivity|].
      now apply downloadsAfterCertificate_prefix.
    - rewrite T3, T2, T1, <- !app_assoc. reflexivity. }
  clearbody w1. unfold afterReuseCheck, bind at 1.
  destruct (fst found) as [existing|].
  2: { unfold ret. cbn [negb]. apply (Hacq w1 []); [now rewrite app_nil_r|reflexivity]. }
  unfold bind at 1, GetCertificateDetail. cbv zeta.
  set (detail := getCertificateDetail env (provider.CertID existing)).
  set (w2 := emit _ w1).
  assert (trace w2 = trace w1 ++ [EvGetCertificateDetail (provider.CertID existing)
                                    detail]) as T2 by reflexivity.
  clearbody w2.
  destruct detail as [cert|derr].
  2: { unfold ret. cbn [negb]. eapply (Hacq w2); [exact T2|reflexivity]. }
  unfold bind at 1.
  destruct (SaveCertificate_emits env (storage_ m) (config.Domain domainCfg) cert w2)
    as (evs3 & T3 & F3).
  destruct (storage.SaveCertificate env _ _ cert w2) as [sv w3]. cbn [snd] in T3.
  assert (filter isDownload evs3 = []) as Z3.
  { apply (filter_none_b fsEvent); [exact F3|now intros []]. }
  destruct sv as [serr|]; unfold ret; cbn [negb].
  { eapply (Hacq w3); [rewrite T3, T2, <- app_assoc; reflexivity|exact Z3]. }
  unfold bind.
  destruct (runPostCommand_emits env m domainCfg w3) as (evs4 & T4 & F4).
  destruct (runPostCommand env m domainCfg w3) as [u w4]. cbn [snd] in T4 |- *.
  rewrite (eventsSince_app w _ ((evs0 ++ [EvFindValidCertificate
                                            (config.Domain domainCfg)
                                            (config.RenewDays domainCfg) found])
                                ++ [EvGetCertificateDetail (provider.CertID existing)
                                      (inl cert)] ++ evs3 ++ evs4)).
  - left. rewrite !filter_app, Z0, Z3. cbn.
    apply (filter_none_b isExec); [exact F4|now intros []].
  - rewrite T4, T3, T2, T1, <- !app_assoc. reflexivity.
Qed.

Lemma GetCertProvider_emits (env : Env) (cfg : config.Config) (name : string) :
  emitsOnly providerEvent (GetCertProvider env cfg name).
Proof. unfold GetCertProvider. emits_all. Qed.

Lemma GetDNSProvider_emits (env : Env) (cfg : config.Config) (name : string) :
  emitsOnly providerEvent (GetDNSProvider env cfg name).
Proof. unfold GetDNSProvider. emits_all. Qed.

Lemma ContinueOrder_downloads (env : Env) (m : Manager)
    (orderID domain certProviderName dnsProviderName : string) (w : World) :
  downloadsAfterCertificate
    (eventsSince w
       (snd (ContinueOrder env m orderID domain certProviderName dnsProviderName w))).
Proof.
  unfold ContinueOrder, bind at 1.
  destruct (GetCertProvider_emits env (config_ m) certProviderName w) as (evs0 & T0 & F0).
  destruct (GetCertProvider env (config_ m) certProviderName w) as [p w0].
  cbn [snd] in T0.
  assert (filter isDownload evs0 = []) as Z0.
  { apply (filter_none_b providerEvent); [exact F0|now intros []]. }
  destruct p as [err|].
  { unfold ret. cbn [snd]. rewrite (eventsSince_app _ _ _ T0). now left. }
  unfold bind at 1.
  destruct (GetDNSProvider_emits env (config_ m) dnsProviderName w0) as (evs1 & T1 & F1).
  destruct (GetDNSProvider env (config_ m) dnsProviderName w0) as [p w1].
  cbn [snd] in T1.
  assert (filter isDownload evs1 = []) as Z1.
  { apply (filter_none_b providerEvent); [exact F1|now intros []]. }
  assert (trace w1 = trace w ++ evs0 ++ evs1) as T01
    by (now rewrite T1, T0, <- app_assoc).
  assert (filter isDownload (evs0 ++ evs1) = []) as Z01
    by (now rewrite filter_app, Z0, Z1).
  clear T0 T1 F0 F1 Z0 Z1 w0.
  destruct p as [err|].
  { unfold ret. cbn [snd]. rewrite (eventsSince_app _ _ _ T01). now left. }
  unfold bind at 1, GetCertificateStatus. cbv zeta.
  set (r := getCertificateStatus env (polls w1) orderID).
  set (w2 := {| polls := S (polls w1); adds := adds w1; checks := checks w1;
                fsops := fsops w1;
                trace := trace w1 ++ [EvGetCertificateStatus orderID r] |}).
  assert (trace w2 = trace w ++ (evs0 ++ evs1) ++ [EvGetCertificateStatus orderID r])
    as T2 by (subst w2; cbn [trace]; now rewrite T01, <- !app_assoc).
  clearbody w2.
  destruct r as [status|perr].
  2: { unfold ret. cbn [snd]. rewrite (eventsSince_app _ _ _ T2).
       left. now rewrite filter_app, Z01. }
  destruct (String.eqb (provider.Status status) "certificate") eqn:Es.
  - apply String.eqb_eq in Es.
    unfold bind at 1, DownloadCertificate. cbv zeta.
    destruct (downloadCertificate env orderID) as [cert|derr].
    + destruct (SaveCertificate_emits env (storage_ m) domain cert
                  (emit (EvDownloadCertificate orderID (inl cert)) w2))
        as (evs3 & T3 & F3).
      rewrite (eventsSince_app w _
                 ((evs0 ++ evs1) ++ [EvGetCertificateStatus orderID (inl status);
                                     EvDownloadCertificate orderID (inl cert)] ++ evs3)).
      * right. exists (evs0 ++ evs1), orderID, status, (inl cert), evs3.
        repeat split; try assumption.
        apply (filter_none_b fsEvent); [exact F3|now intros []].
      * rewrite T3. cbn [emit trace]. rewrite T2, <- !app_assoc. reflexivity.
    + unfold ret. cbn [snd emit trace].
      rewrite (eventsSince_app w _
                 ((evs0 ++ evs1) ++ [EvGetCertificateStatus orderID (inl status);
                                     EvDownloadCertificate orderID (inr derr)] ++ [])).
      * right. exists (evs0 ++ evs1), orderID, status, (inr derr), [].
        repeat split; assumption.
      * cbn [emit trace]. rewrite T2, <- !app_assoc. reflexivity.
  - unfold bind at 1.
    pose proof (validation_then_download env domain orderID w2 (storage_ m)) as H.
    destruct (waitForDNSValidation env domain orderID w2) as [v w3].
    destruct H as (evs3 & T3 & H).
    assert (filter isDownload ((evs0 ++ evs1) ++ [EvGetCertificateStatus orderID
                                                    (inl status)]) = []) as Z2
      by (now rewrite filter_app, Z01).
    destruct v as [verr|].
    { unfold ret. cbn [snd].
      rewrite (eventsSince_app w _
                 (((evs0 ++ evs1) ++ [EvGetCertificateStatus orderID (inl status)])
                  ++ evs3)).
      - left. now rewrite filter_app, Z2, H.
      - rewrite T3, T2, <- !app_assoc. reflexivity. }
    destruct H as (pre & st & -> & Hs & Hpre).
    unfold bind at 1, DownloadCertificate. cbv zeta.
    destruct (downloadCertificate env orderID) as [cert|derr].
    + match goal with
      | |- context [snd (?c ?w4)] =>
          assert (emitsOnly notDownload c) as He;
          [|destruct (He w4) as (post & Tp & Fp)]
      end.
      { repeat first
          [ (apply (emitsOnly_weaken fsEvent); [now intros []|apply SaveCertificate_emits])
          | emits_one | emits_step ]. }
      rewrite (eventsSince_app w _
                 ((((evs0 ++ evs1) ++ [EvGetCertificateStatus orderID (inl status)])
                   ++ pre)
                  ++ [EvGetCertificateStatus orderID (inl st);
                      EvDownloadCertificate orderID (inl cert)] ++ post)).
      * right. eexists _, orderID, st, (inl cert), post.
        split; [reflexivity|]. split; [exact Hs|]. split.
        -- now rewrite filter_app, Z2, Hpre.
        -- apply (filter_none_b notDownload); [exact Fp|].
           intros e He0. unfold notDownload in He0. now destruct (isDownload e).
      * rewrite Tp. cbn [emit trace]. rewrite T3, T2, <- !app_assoc. reflexivity.
    + unfold ret. cbn [snd emit trace].
      rewrite (eventsSince_app w _
                 ((((evs0 ++ evs1) ++ [EvGetCertificateStatus orderID (inl status)])
                   ++ pre)
                  ++ [EvGetCertificateStatus orderID (inl st);
                      EvDownloadCertificate orderID (inr derr)] ++ [])).
      * right. eexists _, orderID, st, (inr derr), [].
        split; [reflexivity|]. split; [exact Hs|]. split; [|reflexivity].
        now rewrite filter_app, Z2, Hpre.
      * cbn [emit trace]. rewrite T3, T2, <- !app_assoc. reflexivity.
Qed.

(** X25: neither [ProcessDomain] nor [ContinueOrder] downloads a certificate
    by its order before the CA has reported it: a run makes at most one such
    download, and it comes right after a poll of that order that was answered
    with the status [certificate]. *)
Theorem download_only_after_certificate (env : Env) (m : Manager) (w : World) :
  (forall domainCfg,
     downloadsAfterCertificate
       (eventsSince w (snd (ProcessDomain env m domainCfg w)))) /\
  (forall orderID domain certProviderName dnsProviderName,
     downloadsAfterCertificate
       (eventsSince w
          (snd (ContinueOrder env m orderID domain certProviderName dnsProviderName
                  w)))) /\
  (forall evs, downloadsAfterCertificate evs ->
     count isDownload evs <= 1 /\
     forall pre orderID r post,
       evs = pre ++ EvDownloadCertificate orderID r :: post ->
       exists pre0 s,
         pre = pre0 ++ [EvGetCertificateStatus orderID (inl s)] /\
         provider.Status s = "certificate").
Proof.
  split; [|split].
  - intros domainCfg. apply ProcessDomain_downloads.
  - intros. apply ContinueOrder_downloads.
  - intros evs [Hn|(pre & o & s & r & post & -> & Hs & Hpre & Hpost)].
    + split; [unfold count; rewrite Hn; cbn; lia|].
      intros pre o r post ->. rewrite filter_app in Hn. cbn in Hn.
      apply app_eq_nil in Hn as [_ Hn]. discriminate.
    + split.
      { unfold count. rewrite !filter_app, Hpre. cbn. rewrite Hpost. cbn. lia. }
      intros pre1 o1 r1 post1 H.
      assert (forall (a b c d : list Event) (x y : Event),
                filter isDownload a = [] -> filter isDownload c = [] ->
                isDownload x = true -> isDownload y = true ->
                a ++ x :: b = c ++ y :: d -> a = c /\ x = y) as Huniq.
      { clear. induction a as [|e a IH]; intros b [|f c] d x y Ha Hc Hx Hy E.
        - injection E as -> _. auto.
        - injection E as -> _. cbn in Hc. rewrite Hx in Hc. discriminate.
        - injection E as -> _. cbn in Ha. rewrite Hy in Ha. discriminate.
        - injection E as -> E. cbn in Ha, Hc.
          destruct (isDownload f); [discriminate|].
          destruct (IH _ _ _ _ _ Ha Hc Hx Hy E) as [-> ->]. auto. }
      assert (filter isDownload pre1 = []) as Hpre1.
      { assert (count isDownload (pre1 ++ EvDownloadCertificate o1 r1 :: post1) = 1) as C.
        { rewrite <- H. unfold count. rewrite !filter_app, Hpre. cbn.
          now rewrite Hpost. }
        unfold count in C. rewrite filter_app in C. cbn in C.
        rewrite length_app in C. cbn in C.
        destruct (filter isDownload pre1); [reflexivity|cbn in C; lia]. }
      replace (pre ++ [EvGetCertificateStatus o (inl s); EvDownloadCertificate o r]
                 ++ post)
        with ((pre ++ [EvGetCertificateStatus o (inl s)])
                ++ EvDownloadCertificate o r :: post) in H
        by (now rewrite <- app_assoc).
      apply Huniq in H as [<- [= <- <-]]; try reflexivity; try assumption.
      * exists pre, s. auto.
      * now rewrite filter_app, Hpre.
Qed.

Lemma download_only_after_certificate_witness :
  exists pre0 s,
    [EvNewCertProvider "aliyun" None; EvNewDNSProvider "aliyun" None;
     EvGetCertificateStatus "order-1" (inl (mkStatus "certificate" "" ""))]
      = pre0 ++ [EvGetCertificateStatus "order-1" (inl s)] /\
    provider.Status s = "certificate".
Proof.
  destruct (download_only_after_certificate issuedEnv (NewManager sampleConfig) World0)
    as (_ & HC & HU).
  destruct (HU _ (HC "order-1" "www.example.com" "aliyun" "aliyun")) as [_ H].
  apply (H _ "order-1" (inl sampleCert)
           [EvMkdirAll "certs/www.example.com" 493 None;
            EvWriteFile "certs/www.example.com/cert.pem" "LEAF" 420 None;
            EvWriteFile "certs/www.example.com/key.pem" "KEY" 384 None;
            EvWriteFile "certs/www.example.com/fullchain.pem" "LEAF+CA" 420 None]).
  reflexivity.
Defined.

(** ** Provider errors *)

Lemma GetProvidersForDomain_events (env : Env) (cfg : config.Config)
    (domainCfg : config.DomainConfig) (w : World) :
  exists evs,
    trace (snd (GetProvidersForDomain env cfg domainCfg w)) = trace w ++ evs /\
    forallb providerEvent evs = true /\ List.length evs <= 2 /\
    (fst (GetProvidersForDomain env cfg domainCfg w) <> None ->
     Forall (fun e => match e with
                      | EvNewCertProvider _ None | EvNewDNSProvider _ None => True
                      | _ => False
                      end) evs ->
     List.length evs <= 1).
Proof.
  unfold GetProvidersForDomain, GetCertProvider, GetDNSProvider, bind, ret,
    CachedCertProvider, CachedDNSProvider, NewCertProvider, NewDNSProvider, emit.
  repeat match goal with
  | |- context [if ?b then _ else _] => destruct b; norm
  | |- context [match ?x with Some _ => _ | None => _ end] => destruct x eqn:?; norm
  end.
  all: ex_events; cbn; repeat split; try lia; try congruence.
  all: try (intros _ H; repeat match goal with
                              | H : Forall _ (_ :: _) |- _ => inversion H; clear H; subst
                              end; try contradiction; try lia).
Qed.

(** X26: when a provider cannot be had (an unknown name, missing
    credentials, or a constructor that fails), [ProcessDomain] returns that
    error before it calls the CA, the DNS service, the endpoint, the file
    system or the shell: the run has gone no further than the constructors,
    and when each constructor that was called succeeded (the error is one of
    configuration) the DNS constructor was not called. *)
Theorem provider_errors_precede_every_call (env : Env) (m : Manager)
    (domainCfg : config.DomainConfig) (w : World) (err : error) :
  fst (GetProvidersForDomain env (config_ m) domainCfg w) = Some err ->
  let run := ProcessDomain env m domainCfg w in
  let evs := eventsSince w (snd run) in
  fst run = Some (wrapError "获取提供商失败: " err) /\
  forallb providerEvent evs = true /\
  List.length evs <= 2 /\
  (Forall (fun e => match e with
                    | EvNewCertProvider _ None | EvNewDNSProvider _ None => True
                    | _ => False
                    end) evs ->
   List.length evs <= 1).
Proof.
  intros Hp run evs. subst run evs. rewrite ProcessDomain_afterReuseCheck.
  destruct (GetProvidersForDomain_events env (config_ m) domainCfg w)
    as (evs & T & F & L & C).
  destruct (GetProvidersForDomain env (config_ m) domainCfg w) as [p w0].
  cbn [fst snd] in *. subst p. cbn [fst snd].
  rewrite (eventsSince_app _ _ _ T).
  repeat split; try assumption. apply C. discriminate.
Qed.

Lemma provider_errors_precede_every_call_witness :
  ProcessDomain pendingEnv (NewManager sampleConfig) tencentDomain World0 =
  (Some (wrapError "获取提供商失败: "
           (wrapError "获取证书提供商失败: " (errorString "腾讯云证书提供商未配置"))),
   World0).
Proof.
  destruct (provider_errors_precede_every_call pendingEnv (NewManager sampleConfig)
              tencentDomain World0
              (wrapError "获取证书提供商失败: " (errorString "腾讯云证书提供商未配置"))
              eq_refl) as (R & _).
  rewrite (surjective_pairing (ProcessDomain _ _ _ _)), R. reflexivity.
Defined.

(** ** What a success stands for *)

Lemma NeedRenew_any_world (env : Env) (domain : string) (renewDays : Z) (w w' : World) :
  fst (NeedRenew env domain renewDays w) = fst (NeedRenew env domain renewDays w').
Proof.
  run_validator.
  destruct (tlsDial env (domain ++ ":443")) as [[|cert rest]|e]; norm;
    try destruct (negb _); reflexivity.
Qed.

Lemma savedFromCA_within (s : storage.FileStorage) (domain : string)
    (a evs b : list Event) :
  savedFromCA s domain evs -> savedFromCA s domain (a ++ evs ++ b).
Proof.
  intros (cert & Hw & H). exists cert. split.
  - apply in_or_app. right. apply in_or_app. now left.
  - destruct H as [(id & H)|(o & H)]; [left; exists id|right; exists o];
      apply in_or_app; right; apply in_or_app; now left.
Qed.

(** A certificate in hand, saved with success. *)
Lemma saved_in_hand (env : Env) (s : storage.FileStorage) (domain : string)
    (cert : provider.Certificate) (w : World) (got : Event) :
  (exists certID, got = EvGetCertificateDetail certID (inl cert)) \/
  (exists orderID, got = EvDownloadCertificate orderID (inl cert)) ->
  fst (storage.SaveCertificate env s domain cert (emit got w)) = None ->
  exists evs,
    trace (snd (storage.SaveCertificate env s domain cert (emit got w)))
      = trace w ++ evs /\
    savedFromCA s domain evs.
Proof.
  intros Hgot Hs.
  destruct (SaveCertificate_effect env s domain cert (emit got w))
    as (sevs & Ts & _ & _ & _ & _ & Es).
  specialize (Es Hs).
  exists (got :: sevs). split.
  - rewrite Ts. cbn [emit trace]. now rewrite <- app_assoc.
  - exists cert. split.
    + right. rewrite Es. cbn. auto.
    + destruct Hgot as [(id & ->)|(o & ->)]; [left; exists id|right; exists o];
        now left.
Qed.

Lemma afterIssuance_saved (env : Env) (m : Manager) (domainCfg : config.DomainConfig)
    (orderID : string) (w : World) :
  fst (afterIssuance env m domainCfg orderID w) = None ->
  savedFromCA (storage_ m) (config.Domain domainCfg)
    (eventsSince w (snd (afterIssuance env m domainCfg orderID w))).
Proof.
  intros H.
  destruct (afterIssuance env m domainCfg orderID w) as [res wf] eqn:E.
  cbn [fst snd] in *. subst res. revert E.
  unfold afterIssuance, bind at 1.
  destruct (waitForDNSValidation_emits env (config.Domain domainCfg) orderID w)
    as (evs0 & T0 & _).
  destruct (waitForDNSValidation env (config.Domain domainCfg) orderID w) as [v w1].
  cbn [snd] in T0.
  destruct v as [err|]; [discriminate|].
  unfold bind at 1, DownloadCertificate. cbv zeta.
  destruct (downloadCertificate env orderID) as [cert|err]; [|discriminate].
  unfold bind at 1.
  pose proof (saved_in_hand env (storage_ m) (config.Domain domainCfg) cert w1
                (EvDownloadCertificate orderID (inl cert))
                (or_intror (ex_intro _ orderID eq_refl))) as Hs.
  destruct (storage.SaveCertificate env (storage_ m) (config.Domain domainCfg) cert
              (emit (EvDownloadCertificate orderID (inl cert)) w1)) as [sv w2].
  destruct sv as [serr|]; [discriminate|].
  destruct (Hs eq_refl) as (evs1 & T1 & S1). cbn [snd] in T1.
  unfold bind.
  destruct (runPostCommand_emits env m domainCfg w2) as (evs2 & T2 & _).
  destruct (runPostCommand env m domainCfg w2) as [u w3]. cbn [snd] in T2.
  unfold ret. intros [= <-].
  rewrite (eventsSince_app w _ (evs0 ++ evs1 ++ evs2)).
  - now apply savedFromCA_within.
  - rewrite T2, T1, T0, <- !app_assoc. reflexivity.
Qed.

Lemma acquireNew_saved (env : Env) (m : Manager) (domainCfg : config.DomainConfig)
    (w : World) :
  fst (acquireNew env m domainCfg w) = None ->
  savedFromCA (storage_ m) (config.Domain domainCfg)
    (eventsSince w (snd (acquireNew env m domainCfg w))) \/
  fst (fst (fst (NeedRenew env (config.Domain domainCfg)
                   (config.RenewDays domainCfg) w))) = false.
Proof.
  rewrite acquireNew_afterIssuance.
  destruct (NeedRenew_emits env (config.Domain domainCfg)
              (config.RenewDays domainCfg) w) as (evs0 & T0 & _).
  destruct (NeedRenew env _ _ w) as [nr w1]. cbn [snd fst] in *.
  destruct (fst (fst nr)); cbn [negb]; [|now right].
  destruct (applyCertificate env (config.Domain domainCfg)) as [orderID|err];
    [|discriminate].
  intros H. left.
  pose proof (afterIssuance_saved env m domainCfg orderID _ H) as S1.
  assert (exists evs1,
            trace (snd (afterIssuance env m domainCfg orderID
                          (emit (EvApplyCertificate (config.Domain domainCfg)
                                   (inl orderID)) w1)))
            = trace (emit (EvApplyCertificate (config.Domain domainCfg)
                             (inl orderID)) w1) ++ evs1) as (evs1 & T1).
  { destruct (afterIssuance_emits env m domainCfg orderID
                (emit (EvApplyCertificate (config.Domain domainCfg) (inl orderID)) w1))
      as (evs1 & T1 & _). now exists evs1. }
  rewrite (eventsSince_app _ _ _ T1) in S1.
  rewrite (eventsSince_app w _
             ((evs0 ++ [EvApplyCertificate (config.Domain domainCfg) (inl orderID)])
              ++ evs1 ++ [])).
  - now apply savedFromCA_within.
  - rewrite T1. cbn [emit trace]. rewrite T0, app_nil_r, <- !app_assoc. reflexivity.
Qed.

Lemma acquireNew_saved_from (env : Env) (m : Manager) (domainCfg : config.DomainConfig)
    (w w1 wf : World) (pre : list Event) :
  trace w1 = trace w ++ pre ->
  acquireNew env m domainCfg w1 = (None, wf) ->
  savedFromCA (storage_ m) (config.Domain domainCfg) (eventsSince w wf) \/
  fst (fst (fst (NeedRenew env (config.Domain domainCfg)
                   (config.RenewDays domainCfg) w))) = false.
Proof.
  intros T E.
  destruct (acquireNew_emits env m domainCfg w1) as (evs & Te & _).
  destruct (acquireNew_saved env m domainCfg w1) as [S|N].
  - now rewrite E.
  - left. rewrite E in S, Te. cbn [snd] in S, Te.
    rewrite (eventsSince_app _ _ _ Te) in S.
    rewrite (eventsSince_app w _ (pre ++ evs ++ [])).
    + now apply savedFromCA_within.
    + now rewrite Te, T, app_nil_r, <- app_assoc.
  - right. now rewrite (NeedRenew_any_world env _ _ w w1).
Qed.

Lemma ProcessDomain_saved (env : Env) (m : Manager) (domainCfg : config.DomainConfig)
    (w : World) :
  fst (ProcessDomain env m domainCfg w) = None ->
  savedFromCA (storage_ m) (config.Domain domainCfg)
    (eventsSince w (snd (ProcessDomain env m domainCfg w))) \/
  fst (fst (fst (NeedRenew env (config.Domain domainCfg)
                   (config.RenewDays domainCfg) w))) = false.
Proof.
  intros H.
  destruct (ProcessDomain env m domainCfg w) as [res wf] eqn:E.
  cbn [fst snd] in *. subst res. revert E.
  rewrite ProcessDomain_afterReuseCheck.
  destruct (GetProvidersForDomain_emits env (config_ m) domainCfg w) as (evs0 & T0 & _).
  destruct (GetProvidersForDomain env (config_ m) domainCfg w) as [p w0].
  cbn [snd] in T0.
  destruct p as [err|]; [discriminate|].
  set (found := findValidCertificate env _ _).
  set (w1 := emit _ w0).
  assert (trace w1 = trace w ++ evs0 ++
            [EvFindValidCertificate (config.Domain domainCfg)
               (config.RenewDays domainCfg) found]) as T1.
  { subst w1. cbn [emit trace]. now rewrite T0, <- app_assoc. }
  clearbody w1. unfold afterReuseCheck, bind at 1.
  destruct (fst found) as [existing|].
  2: { unfold ret. cbn [negb]. apply (acquireNew_saved_from _ _ _ _ _ _ _ T1). }
  unfold bind at 1, GetCertificateDetail. cbv zeta.
  destruct (getCertificateDetail env (provider.CertID existing)) as [cert|derr].
  2: { unfold ret. cbn [negb].
       apply (acquireNew_saved_from _ _ _ _ _ _
                ((evs0 ++ [EvFindValidCertificate (config.Domain domainCfg)
                             (config.RenewDays domainCfg) found])
                 ++ [EvGetCertificateDetail (provider.CertID existing) (inr derr)])).
       cbn [emit trace]. now rewrite T1, <- !app_assoc. }
  unfold bind at 1.
  pose proof (saved_in_hand env (storage_ m) (config.Domain domainCfg) cert w1
                (EvGetCertificateDetail (provider.CertID existing) (inl cert))
                (or_introl (ex_intro _ (provider.CertID existing) eq_refl))) as Hs.
  destruct (SaveCertificate_emits env (storage_ m) (config.Domain domainCfg) cert
              (emit (EvGetCertificateDetail (provider.CertID existing) (inl cert)) w1))
    as (sevs & Ts & _).
  destruct (storage.SaveCertificate env (storage_ m) (config.Domain domainCfg) cert
              (emit (EvGetCertificateDetail (provider.CertID existing) (inl cert)) w1))
    as [sv w2].
  cbn [snd] in Ts.
  destruct sv as [serr|]; unfold ret; cbn [negb].
  { apply (acquireNew_saved_from _ _ _ _ _ _
             ((evs0 ++ [EvFindValidCertificate (config.Domain domainCfg)
                          (config.RenewDays domainCfg) found])
              ++ EvGetCertificateDetail (provider.CertID existing) (inl cert) :: sevs)).
    rewrite Ts. cbn [emit trace]. now rewrite T1, <- !app_assoc. }
  destruct (Hs eq_refl) as (evs1 & Te & S1). cbn [snd] in Te.
  unfold bind.
  destruct (runPostCommand_emits env m domainCfg w2) as (evs2 & T2 & _).
  destruct (runPostCommand env m domainCfg w2) as [u w3]. cbn [snd] in T2.
  intros [= <-]. left.
  rewrite (eventsSince_app w _
             ((evs0 ++ [EvFindValidCertificate (config.Domain domainCfg)
                          (config.RenewDays domainCfg) found])
              ++ evs1 ++ evs2)).
  - now apply savedFromCA_within.
  - rewrite T2, Te, T1, <- !app_assoc. reflexivity.
Qed.

Lemma ContinueOrder_saved (env : Env) (m : Manager)
    (orderID domain certProviderName dnsProviderName : string) (w : World) :
  fst (ContinueOrder env m orderID domain certProviderName dnsProviderName w) = None ->
  savedFromCA (storage_ m) domain
    (eventsSince w
       (snd (ContinueOrder env m orderID domain certProviderName dnsProviderName w))).
Proof.
  intros H.
  destruct (ContinueOrder env m orderID domain certProviderName dnsProviderName w)
    as [res wf] eqn:E.
  cbn [fst snd] in *. subst res. revert E.
  unfold ContinueOrder, bind at 1.
  destruct (GetCertProvider_emits env (config_ m) certProviderName w) as (evs0 & T0 & _).
  destruct (GetCertProvider env (config_ m) certProviderName w) as [p w0].
  cbn [snd] in T0.
  destruct p as [err|]; [discriminate|].
  unfold bind at 1.
  destruct (GetDNSProvider_emits env (config_ m) dnsProviderName w0) as (evs1 & T1 & _).
  destruct (GetDNSProvider env (config_ m) dnsProviderName w0) as [p w1].
  cbn [snd] in T1.
  destruct p as [err|]; [discriminate|].
  unfold bind at 1, GetCertificateStatus. cbv zeta.
  set (r := getCertificateStatus env (polls w1) orderID).
  set (w2 := {| polls := S (polls w1); adds := adds w1; checks := checks w1;
                fsops := fsops w1;
                trace := trace w1 ++ [EvGetCertificateStatus orderID r] |}).
  assert (trace w2 = trace w ++ (evs0 ++ evs1) ++ [EvGetCertificateStatus orderID r])
    as T2 by (subst w2; cbn [trace]; now rewrite T1, T0, <- !app_assoc).
  clearbody w2.
  destruct r as [status|perr]; [|discriminate].
  destruct (String.eqb (provider.Status status) "certificate").
  - unfold bind at 1, DownloadCertificate. cbv zeta.
    destruct (downloadCertificate env orderID) as [cert|derr]; [|discriminate].
    pose proof (saved_in_hand env (storage_ m) domain cert w2
                  (EvDownloadCertificate orderID (inl cert))
                  (or_intror (ex_intro _ orderID eq_refl))) as Hs.
    destruct (storage.SaveCertificate env (storage_ m) domain cert
                (emit (EvDownloadCertificate orderID (inl cert)) w2)) as [sv w3].
    intros [= -> <-]. destruct (Hs eq_refl) as (evs3 & T3 & S3). cbn [snd] in T3.
    rewrite (eventsSince_app w _
               (((evs0 ++ evs1) ++ [EvGetCertificateStatus orderID (inl status)])
                ++ evs3 ++ [])).
    + now apply savedFromCA_within.
    + rewrite T3, T2, app_nil_r, <- !app_assoc. reflexivity.
  - unfold bind at 1.
    destruct (waitForDNSValidation_emits env domain orderID w2) as (evs3 & T3 & _).
    destruct (waitForDNSValidation env domain orderID w2) as [v w3]. cbn [snd] in T3.
    destruct v as [verr|]; [discriminate|].
    unfold bind at 1, DownloadCertificate. cbv zeta.
    destruct (downloadCertificate env orderID) as [cert|derr]; [|discriminate].
    unfold bind.
    pose proof (saved_in_hand env (storage_ m) domain cert w3
                  (EvDownloadCertificate orderID (inl cert))
                  (or_intror (ex_intro _ orderID eq_refl))) as Hs.
    destruct (storage.SaveCertificate env (storage_ m) domain cert
                (emit (EvDownloadCertificate orderID (inl cert)) w3)) as [sv w4].
    destruct sv as [serr|]; [discriminate|].
    unfold ret. intros [= <-]. destruct (Hs eq_refl) as (evs4 & T4 & S4).
    cbn [snd] in T4.
    rewrite (eventsSince_app w _
               ((((evs0 ++ evs1) ++ [EvGetCertificateStatus orderID (inl status)])
                 ++ evs3) ++ evs4 ++ [])).
    + now apply savedFromCA_within.
    + rewrite T4, T3, T2, app_nil_r, <- !app_assoc. reflexivity.
Qed.

(** X27: a success stands for a certificate on disk or a healthy live one.
    When [ProcessDomain] returns no error, either a certificate that the CA
    handed over in this run (fetched by its id or downloaded by its order)
    has been written to [cert.pem] with success, or the renewal decision for
    the domain was "no"; when [ContinueOrder] returns no error, the
    certificate downloaded for the order has been written to [cert.pem]. *)
Theorem success_means_saved_or_healthy (env : Env) (m : Manager) (w : World) :
  (forall domainCfg,
     fst (ProcessDomain env m domainCfg w) = None ->
     savedFromCA (storage_ m) (config.Domain domainCfg)
       (eventsSince w (snd (ProcessDomain env m domainCfg w))) \/
     fst (fst (fst (NeedRenew env (config.Domain domainCfg)
                      (config.RenewDays domainCfg) w))) = false) /\
  (forall orderID domain certProviderName dnsProviderName,
     fst (ContinueOrder env m orderID domain certProviderName dnsProviderName w)
       = None ->
     savedFromCA (storage_ m) domain
       (eventsSince w
          (snd (ContinueOrder env m orderID domain certProviderName dnsProviderName
                  w)))).
Proof.
  split.
  - intros domainCfg. apply ProcessDomain_saved.
  - intros. now apply ContinueOrder_saved.
Qed.

Lemma success_means_saved_or_healthy_witness :
  savedFromCA (storage.NewFileStorage "./certs") "www.example.com"
    (eventsSince World0
       (snd (ContinueOrder issuedEnv (NewManager sampleConfig) "order-1"
               "www.example.com" "aliyun" "aliyun" World0))) /\
  (savedFromCA (storage.NewFileStorage "./certs") "www.example.com"
     (eventsSince World0
        (snd (ProcessDomain healthyEnv (NewManager sampleConfig) sampleDomain World0))) \/
   fst (fst (fst (NeedRenew healthyEnv "www.example.com" 30 World0))) = false).
Proof.
  destruct (success_means_saved_or_healthy issuedEnv (NewManager sampleConfig) World0)
    as [_ HC].
  destruct (success_means_saved_or_healthy healthyEnv (NewManager sampleConfig) World0)
    as [HP _].
  split.
  - apply (HC "order-1" "www.example.com" "aliyun" "aliyun"). reflexivity.
  - apply (HP sampleDomain). reflexivity.
Defined.
